(** * Structural scanning scripts of the Prioris project

    A shallow embedding of the analysis scripts
    [analyze_methods.py], [analyze_project.py] and [analyze_dead_code.py]:
    the brace-counting method scanners, the symbol / import index and the
    signature clustering, together with the properties their specification
    states about them.  The rankings that the reports of these scripts and
    [generate_final_report.py] print, and the table of
    [scripts/generate_compliance_table.py], follow with their own
    properties.

    Text is a list of characters with code points below 256, which covers
    ASCII source text; the classes [\s] and [\w] are those of Python on
    that range.  Python integers are [Z] where arithmetic is done on them
    and [nat] where they index a list.  Regular expressions are run by a
    backtracking matcher with the priorities of Python's [re] (greedy
    repetition, leftmost alternative first).  A file that cannot be read
    is [None]. *)

From Stdlib Require Import String Ascii ZArith Lia Bool Arith List.
From Stdlib Require Import Sorting.Sorted Sorting.Permutation DecimalString.
Import ListNotations.

Local Open Scope Z_scope.

(* ================================================================== *)
(** ** Python strings *)

Module Py.

Definition str := list ascii.

(** A string literal of the source. *)
Definition lit (s : string) : str := list_ascii_of_string s.

Definition nl : ascii := "010"%char.

Fixpoint str_eqb (a b : str) : bool :=
  match a, b with
  | [], [] => true
  | x :: a', y :: b' => Ascii.eqb x y && str_eqb a' b'
  | _, _ => false
  end.

(** [s.startswith(p)] *)
Fixpoint startswith (s p : str) : bool :=
  match p, s with
  | [], _ => true
  | y :: p', x :: s' => Ascii.eqb x y && startswith s' p'
  | _ :: _, [] => false
  end.

(** [s.endswith(p)] *)
Definition endswith (s p : str) : bool := startswith (rev s) (rev p).

(** [p in s] *)
Fixpoint contains (p s : str) : bool :=
  startswith s p ||
  match s with
  | [] => false
  | _ :: s' => contains p s'
  end.

(** [s.count(c)] for a one-character [c] *)
Definition count (c : ascii) (s : str) : Z :=
  Z.of_nat (count_occ ascii_dec s c).

(** [str.isspace] on code points below 256, which is also the class [\s]. *)
Definition isspace (c : ascii) : bool :=
  let n := nat_of_ascii c in
  ((9 <=? n) && (n <=? 13) || (28 <=? n) && (n <=? 32)
   || (n =? 133) || (n =? 160))%nat.

Fixpoint lstrip (s : str) : str :=
  match s with
  | c :: s' => if isspace c then lstrip s' else s
  | [] => []
  end.

Definition rstrip (s : str) : str := rev (lstrip (rev s)).

(** [s.strip()] *)
Definition strip (s : str) : str := rstrip (lstrip s).

(** [s.split('\n')] *)
Fixpoint split_nl (s : str) : list str :=
  match s with
  | [] => [[]]
  | c :: s' =>
      match split_nl s' with
      | l :: ls => if Ascii.eqb c nl then [] :: l :: ls else (c :: l) :: ls
      | [] => [[c]]
      end
  end.

(** [s.replace(a, b)] for one-character [a] and [b] *)
Definition replace_chr (a b : ascii) (s : str) : str :=
  map (fun c => if Ascii.eqb c a then b else c) s.

(** [os.path.basename]: [posixpath] cuts after the last [/], [ntpath]
    after the last [/] or backslash (relative paths carry no drive). *)
Inductive platform := Posix | Windows.

Definition is_sep (pf : platform) (c : ascii) : bool :=
  match pf with
  | Posix => Ascii.eqb c "/"
  | Windows => Ascii.eqb c "/" || Ascii.eqb c "\"
  end.

Fixpoint basename_rev (pf : platform) (r : str) (acc : str) : str :=
  match r with
  | [] => acc
  | c :: r' => if is_sep pf c then acc else basename_rev pf r' (c :: acc)
  end.

Definition basename (pf : platform) (p : str) : str :=
  basename_rev pf (rev p) [].

Definition dq : ascii := "034"%char.
Definition sq : ascii := "039"%char.

(** [sorted(l, key=key)] and [sorted(l, key=key, reverse=True)]: both are
    stable, elements with equal keys keep their order. *)
Section Sorted.
Context {A : Type} (key : A -> Z).

Fixpoint insert_asc (x : A) (l : list A) : list A :=
  match l with
  | [] => [x]
  | y :: l' => if key x <=? key y then x :: l else y :: insert_asc x l'
  end.

Fixpoint insert_desc (x : A) (l : list A) : list A :=
  match l with
  | [] => [x]
  | y :: l' => if key y <=? key x then x :: l else y :: insert_desc x l'
  end.

Definition sorted_asc (l : list A) : list A := fold_right insert_asc [] l.
Definition sorted_desc (l : list A) : list A := fold_right insert_desc [] l.
End Sorted.

(** A [dict] with string keys, in insertion order. *)
Section Dict.
Context {V : Type}.

Definition dict := list (str * V).

Fixpoint get (d : dict) (k : str) : option V :=
  match d with
  | [] => None
  | (k', v) :: d' => if str_eqb k k' then Some v else get d' k
  end.

(** [d[k] = f(d[k])], where a missing key is read as [None]; a new key goes
    last, an old one keeps its place. *)
Fixpoint update (k : str) (f : option V -> V) (d : dict) : dict :=
  match d with
  | [] => [(k, f None)]
  | (k', v) :: d' =>
      if str_eqb k k' then (k', f (Some v)) :: d'
      else (k', v) :: update k f d'
  end.

Definition keys (d : dict) : list str := map fst d.
End Dict.
Arguments dict : clear implicits.

(** [set.add] on a set kept as a list without repetition. *)
Definition set_add (x : str) (l : list str) : list str :=
  if existsb (str_eqb x) l then l else l ++ [x].

(** [list(set(l))]: the distinct elements (Python fixes no order). *)
Fixpoint distinct (l : list str) : list str :=
  match l with
  | [] => []
  | x :: l' => set_add x (distinct l')
  end.

End Py.

(* ================================================================== *)
(** ** Regular expressions, as [re] runs them *)

Module Re.
Import Py.

(** The fragment used by the scripts.  Repetition is only ever applied to
    a character class there, so [Star] takes a class. *)
Inductive re :=
| Eps
| Chr (c : ascii)
| Cls (p : ascii -> bool)
| Star (p : ascii -> bool)
| Seq (a b : re)
| Alt (a b : re)
| Opt (a : re)
| Grp (a : re)
| Bol
| Wordb.

Definition Plus (p : ascii -> bool) : re := Seq (Cls p) (Star p).

Fixpoint Lit (s : str) : re :=
  match s with
  | [] => Eps
  | c :: s' => Seq (Chr c) (Lit s')
  end.

Fixpoint Alts (l : list re) : re :=
  match l with
  | [] => Eps
  | [a] => a
  | a :: l' => Alt a (Alts l')
  end.

Declare Scope re_scope.
Delimit Scope re_scope with re.
Infix ";;" := Seq (at level 61, right associativity) : re_scope.

(** Character classes. *)
Definition is_upper (c : ascii) : bool :=
  let n := nat_of_ascii c in ((65 <=? n) && (n <=? 90))%nat.
Definition is_lower (c : ascii) : bool :=
  let n := nat_of_ascii c in ((97 <=? n) && (n <=? 122))%nat.
Definition is_digit (c : ascii) : bool :=
  let n := nat_of_ascii c in ((48 <=? n) && (n <=? 57))%nat.
(** [\w] of a [str] pattern, on code points below 256: the ASCII letters,
    digits and underscore, and the letters and numerals of Latin-1. *)
Definition is_word (c : ascii) : bool :=
  let n := nat_of_ascii c in
  is_upper c || is_lower c || is_digit c || Ascii.eqb c "_"
  || ((n =? 170) || (178 <=? n) && (n <=? 179) || (n =? 181)
      || (185 <=? n) && (n <=? 186) || (188 <=? n) && (n <=? 190)
      || (192 <=? n) && (n <=? 214) || (216 <=? n) && (n <=? 246)
      || (248 <=? n))%nat.
Definition one_of (s : string) (c : ascii) : bool :=
  existsb (Ascii.eqb c) (lit s).
Definition none_of (s : string) (c : ascii) : bool := negb (one_of s c).

Definition is_word_opt (o : option ascii) : bool :=
  match o with Some c => is_word c | None => false end.

Section Run.
Context {R : Type}.

(** The continuation receives the character before the position (if any),
    the remaining text and the groups captured so far. *)
Definition cont := option ascii -> str -> list str -> option R.

(** Greedy [p*]: take one more character first, give it back on failure. *)
Fixpoint star (p : ascii -> bool) (prev : option ascii) (s : str)
    (k : option ascii -> str -> option R) : option R :=
  match s with
  | c :: s' =>
      if p c then
        match star p (Some c) s' k with
        | Some r => Some r
        | None => k prev s
        end
      else k prev s
  | [] => k prev s
  end.

Fixpoint run (r : re) (prev : option ascii) (s : str) (g : list str)
    (k : cont) : option R :=
  match r with
  | Eps => k prev s g
  | Chr c =>
      match s with
      | x :: s' => if Ascii.eqb x c then k (Some x) s' g else None
      | [] => None
      end
  | Cls p =>
      match s with
      | x :: s' => if p x then k (Some x) s' g else None
      | [] => None
      end
  | Star p => star p prev s (fun pv s' => k pv s' g)
  | Seq a b => run a prev s g (fun pv s' g' => run b pv s' g' k)
  | Alt a b =>
      match run a prev s g k with
      | Some x => Some x
      | None => run b prev s g k
      end
  | Opt a =>
      match run a prev s g k with
      | Some x => Some x
      | None => k prev s g
      end
  | Grp a =>
      run a prev s g
        (fun pv s' g' =>
           k pv s' (g' ++ [firstn (length s - length s') s]))
  | Bol => match prev with None => k prev s g | Some _ => None end
  | Wordb =>
      if xorb (is_word_opt prev) (is_word_opt (hd_error s))
      then k prev s g else None
  end.

End Run.

(** A successful match: the text left after it and its groups. *)
Definition accept : @cont (str * list str) :=
  fun _ s g => Some (s, g).

(** The match attempted at one position. *)
Definition match_at (r : re) (prev : option ascii) (s : str)
  : option (str * list str) :=
  run r prev s [] accept.

(** [re.match(r, s)]: the groups of the match at position 0. *)
Definition re_match (r : re) (s : str) : option (list str) :=
  option_map snd (match_at r None s).

(** [re.search(r, s)] as a truth value: is there a match at some position. *)
Fixpoint search_from (r : re) (prev : option ascii) (s : str) : bool :=
  match match_at r prev s with
  | Some _ => true
  | None =>
      match s with
      | [] => false
      | c :: s' => search_from r (Some c) s'
      end
  end.

Definition re_search (r : re) (s : str) : bool := search_from r None s.

(** [re.finditer(r, s)]: the matches from left to right, none overlapping;
    each is given as (whole match, groups).  [skip] counts the characters
    still covered by the previous match.  None of the patterns of the
    scripts matches the empty string. *)
Fixpoint finditer_from (r : re) (prev : option ascii) (s : str) (skip : nat)
  : list (str * list str) :=
  match s with
  | [] =>
      match skip, match_at r prev [] with
      | O, Some (_, g) => [([], g)]
      | _, _ => []
      end
  | c :: s' =>
      match skip with
      | S n => finditer_from r (Some c) s' n
      | O =>
          match match_at r prev s with
          | Some (rest, g) =>
              let n := (length s - length rest)%nat in
              (firstn n s, g) :: finditer_from r (Some c) s' (n - 1)
          | None => finditer_from r (Some c) s' 0
          end
      end
  end.

Definition finditer (r : re) (s : str) : list (str * list str) :=
  finditer_from r None s 0.

(** [re.sub(r'\s+', ' ', s)]: every maximal run of whitespace becomes one
    space.  [in_ws] tells that the run was already replaced. *)
Fixpoint collapse_from (in_ws : bool) (s : str) : str :=
  match s with
  | [] => []
  | c :: s' =>
      if isspace c then
        if in_ws then collapse_from true s'
        else " "%char :: collapse_from true s'
      else c :: collapse_from false s'
  end.

Definition collapse_ws (s : str) : str := collapse_from false s.

End Re.

(* ================================================================== *)
(** ** [analyze_methods.py] *)

Module Methods.
Import Py Re.
Local Open Scope re_scope.

Record MethodInfo := mkMethodInfo {
  file_path : str;
  method_name : str;
  start_line : Z;
  end_line : Z;
  line_count : Z
}.

(** The return types the header pattern knows. *)
Definition return_type : re :=
  Alts [ Lit (lit "Future<") ;; Plus (none_of ">") ;; Chr ">";
         Lit (lit "Stream<") ;; Plus (none_of ">") ;; Chr ">";
         Lit (lit "Widget"); Lit (lit "void"); Lit (lit "bool");
         Lit (lit "int"); Lit (lit "double"); Lit (lit "String");
         Lit (lit "List"); Lit (lit "Map"); Lit (lit "Set");
         Cls is_upper ;; Star is_word ].

(** [method_pattern] of [analyze_method_sizes]. *)
Definition method_pattern : re :=
  Bol ;; Star isspace ;;
  Opt (Lit (lit "@override") ;; Plus isspace) ;;
  Opt (Alts [ Lit (lit "static") ;; Plus isspace;
              Lit (lit "final") ;; Plus isspace;
              Lit (lit "const") ;; Plus isspace ]) ;;
  return_type ;; Plus isspace ;;
  Grp (Plus is_word) ;; Star isspace ;;
  Chr "(" ;; Star (none_of ")") ;; Chr ")" ;;
  Star isspace ;; Opt (Lit (lit "async")) ;; Star isspace ;; Chr "{".

(** [match.group(1)] of [method_pattern.match(line)], if the line matches. *)
Definition header_name (line : str) : option str :=
  match re_match method_pattern line with
  | Some g => Some (nth 0 g [])
  | None => None
  end.

(** The [for char in lines[j]] loop: every brace character of the line is
    counted, and the loop is left as soon as the count reaches 0. *)
Fixpoint count_line (line : str) (brace_count : Z) : Z :=
  match line with
  | [] => brace_count
  | char :: line' =>
      if Ascii.eqb char "{" then count_line line' (brace_count + 1)
      else if Ascii.eqb char "}" then
        if brace_count - 1 =? 0 then 0
        else count_line line' (brace_count - 1)
      else count_line line' brace_count
  end.

(** [while j < len(lines) and brace_count > 0]; [rest] is [lines[j:]].
    The result is [j] when the loop is left. *)
Fixpoint find_end (rest : list str) (j : nat) (brace_count : Z) : nat :=
  match rest with
  | [] => j
  | line :: rest' =>
      if brace_count >? 0
      then find_end rest' (S j) (count_line line brace_count)
      else j
  end.

(** The span opened by a header on line index [i]: the count starts at 1
    and the scan at the line after the header. *)
Definition span_end (lines : list str) (i : nat) : nat :=
  find_end (skipn (S i) lines) (S i) 1.

(** [while i < len(lines)].  Every turn moves [i] forward, so
    [length lines] turns are enough ([scan_fuel_irrelevant]). *)
Fixpoint scan (fuel : nat) (path : str) (lines : list str) (i : nat)
    (methods : list MethodInfo) : list MethodInfo :=
  match fuel with
  | O => methods
  | S fuel' =>
      match nth_error lines i with
      | None => methods
      | Some line =>
          match header_name line with
          | Some name =>
              let start_line := Z.of_nat i + 1 in
              let j := span_end lines i in
              let end_line := Z.of_nat j in
              let line_count := end_line - start_line + 1 in
              let methods' :=
                if line_count >? 50 then
                  methods ++
                  [mkMethodInfo path name start_line end_line line_count]
                else methods in
              scan fuel' path lines j methods'
          | None => scan fuel' path lines (S i) methods
          end
      end
  end.

(** [analyze_method_sizes]; [contents] is what [readlines] gave, or [None]
    when the file could not be read. *)
Definition analyze_method_sizes (path : str) (contents : option (list str))
  : list MethodInfo :=
  match contents with
  | None => []
  | Some lines => scan (length lines) path lines 0 []
  end.

(** The same loop recording every span it closes, before the size test. *)
Fixpoint detect (fuel : nat) (path : str) (lines : list str) (i : nat)
    (methods : list MethodInfo) : list MethodInfo :=
  match fuel with
  | O => methods
  | S fuel' =>
      match nth_error lines i with
      | None => methods
      | Some line =>
          match header_name line with
          | Some name =>
              let start_line := Z.of_nat i + 1 in
              let j := span_end lines i in
              let end_line := Z.of_nat j in
              let line_count := end_line - start_line + 1 in
              detect fuel' path lines j
                (methods ++
                 [mkMethodInfo path name start_line end_line line_count])
          | None => detect fuel' path lines (S i) methods
          end
      end
  end.

Definition detected_spans (path : str) (lines : list str) : list MethodInfo :=
  detect (length lines) path lines 0 [].

(** [main]: the spans of all files, longest first. *)
Definition all_methods (files : list (str * option (list str)))
  : list MethodInfo :=
  sorted_desc line_count
    (flat_map (fun f => analyze_method_sizes (fst f) (snd f)) files).

End Methods.

(* ================================================================== *)
(** ** [analyze_project.py] *)

Module Project.
Import Py Re.
Local Open Scope re_scope.

Record FileViolation := mkFileViolation {
  fv_file : str;
  fv_lines : Z;
  fv_excess : Z
}.

Record MethodViolation := mkMethodViolation {
  mv_file : str;
  mv_method : option str;
  mv_lines : Z;
  mv_start_line : Z;
  mv_end_line : Z
}.

(** [self.stats] and [self.violations] *)
Record Analyzer := mkAnalyzer {
  total_files : Z;
  files_over_500 : Z;
  methods_over_50 : Z;
  total_lines : Z;
  v_files_over_500 : list FileViolation;
  v_methods_over_50 : list MethodViolation
}.

Definition init : Analyzer := mkAnalyzer 0 0 0 0 [] [].

Definition generated_patterns : list str :=
  [ lit "lib/l10n/"; lit "lib/generated/"; lit "lib/.dart_tool/";
    lit "test/.dart_tool/";
    lit "test/domain/services/persistence/unified_persistence_service_test.dart" ].

(** [is_excluded]; [relative] is the path below the project root, in posix
    form. *)
Definition is_excluded (relative : str) : bool :=
  let filename := basename Posix relative in
  if existsb (endswith filename)
       [lit ".g.dart"; lit ".freezed.dart"; lit ".mocks.dart";
        lit "_config.dart"]
  then true
  else if existsb (startswith relative) generated_patterns then true
  else if contains (lit "/regression/") relative
          && endswith filename (lit ".dart") then true
  else false.

(** [method_pattern] of [analyze_methods]. *)
Definition method_pattern : re :=
  Bol ;; Star isspace ;;
  Plus (fun c => is_word c || one_of "<>?," c || isspace c) ;;
  Plus isspace ;;
  Grp (Plus is_word) ;; Star isspace ;;
  Chr "(" ;; Star (none_of ")") ;; Chr ")" ;;
  Star isspace ;; Opt (Alt (Lit (lit "async")) (Lit (lit "sync*"))) ;;
  Star isspace ;; Chr "{".

(** The local variables of [analyze_methods]. *)
Record Cursor := mkCursor {
  in_method : bool;
  method_name : option str;
  method_start : Z;
  brace_count : Z
}.

Definition is_skipped (line : str) : bool :=
  let stripped := strip line in
  match stripped with
  | [] => true
  | _ => startswith stripped (lit "//") || startswith stripped (lit "/*")
  end.

(** One turn of [for i, line in enumerate(lines, 1)]. *)
Definition step (file_path : str) (i : Z) (line : str)
    (a : Analyzer) (c : Cursor) : Analyzer * Cursor :=
  if is_skipped line then (a, c)
  else
    match re_match method_pattern line, in_method c with
    | Some g, false =>
        (a, mkCursor true (Some (nth 0 g [])) i
              (count "{" line - count "}" line))
    | _, true =>
        let brace_count := brace_count c + (count "{" line - count "}" line) in
        if brace_count =? 0 then
          let method_length := i - method_start c + 1 in
          let a' :=
            if method_length >? 50 then
              mkAnalyzer (total_files a) (files_over_500 a)
                (methods_over_50 a + 1) (total_lines a)
                (v_files_over_500 a)
                (v_methods_over_50 a ++
                 [mkMethodViolation file_path (method_name c) method_length
                    (method_start c) i])
            else a in
          (a', mkCursor false None (method_start c) 0)
        else (a, mkCursor true (method_name c) (method_start c) brace_count)
    | None, false => (a, c)
    end.

Fixpoint methods_loop (file_path : str) (lines : list str) (i : Z)
    (a : Analyzer) (c : Cursor) : Analyzer :=
  match lines with
  | [] => a
  | line :: rest =>
      let '(a', c') := step file_path i line a c in
      methods_loop file_path rest (i + 1) a' c'
  end.

Definition analyze_methods (a : Analyzer) (file_path content : str)
    (lines : list str) : Analyzer :=
  methods_loop file_path lines 1 a (mkCursor false None 0 0).

(** [analyze_file]; [read] is what [open] and [f.read()] give, [None] when
    they raise.  Nothing catches that exception, so the result is [None]
    then.  [relative_path] stands for the path below the project root, which
    the source writes once in posix form and once with the separator of
    the platform. *)
Definition analyze_file (a : Analyzer) (relative_path : str)
    (read : option str) : option Analyzer :=
  if is_excluded relative_path then Some a
  else
    match read with
    | None => None
    | Some content =>
        let lines := split_nl content in
        let line_count := Z.of_nat (length lines) in
        let a1 :=
          mkAnalyzer (total_files a + 1) (files_over_500 a)
            (methods_over_50 a) (total_lines a + line_count)
            (v_files_over_500 a) (v_methods_over_50 a) in
        let a2 :=
          if line_count >? 500 then
            mkAnalyzer (total_files a1) (files_over_500 a1 + 1)
              (methods_over_50 a1) (total_lines a1)
              (v_files_over_500 a1 ++
               [mkFileViolation relative_path line_count (line_count - 500)])
              (v_methods_over_50 a1)
          else a1 in
        Some (analyze_methods a2 relative_path content lines)
    end.

(** [analyze_project]: the [.dart] files below [lib/], then those below
    [test/], each with what reading it gives. *)
Fixpoint analyze_files (a : Analyzer) (files : list (str * option str))
  : option Analyzer :=
  match files with
  | [] => Some a
  | (p, read) :: rest =>
      match analyze_file a p read with
      | None => None
      | Some a' => analyze_files a' rest
      end
  end.

Definition analyze_project (lib_files test_files : list (str * option str))
  : option Analyzer :=
  match analyze_files init lib_files with
  | None => None
  | Some a => analyze_files a test_files
  end.

(** The texts that [generate_report] files under ['violations']. *)
Inductive Label :=
| FileTooBig (lines : Z)
| MethodTooLong (method : option str) (lines : Z).

Record FileScore := mkFileScore {
  score : Z;
  violations : list Label;
  lines : Z
}.

Definition no_score : FileScore := mkFileScore 0 [] 0.

Definition or_default (o : option FileScore) : FileScore :=
  match o with Some x => x | None => no_score end.

(** The two loops of [generate_report] that fill [file_scores]. *)
Definition add_file (d : dict FileScore) (v : FileViolation) : dict FileScore :=
  update (fv_file v)
    (fun o => let e := or_default o in
              mkFileScore (score e + (fv_excess v / 100) * 10)
                (violations e ++ [FileTooBig (fv_lines v)]) (fv_lines v)) d.

Definition add_method (d : dict FileScore) (v : MethodViolation)
  : dict FileScore :=
  update (mv_file v)
    (fun o => let e := or_default o in
              mkFileScore (score e + (mv_lines v - 50) / 10)
                (violations e ++ [MethodTooLong (mv_method v) (mv_lines v)])
                (lines e)) d.

Definition file_scores (a : Analyzer) : dict FileScore :=
  fold_left add_method (v_methods_over_50 a)
    (fold_left add_file (v_files_over_500 a) []).

(** [file_scores[f]['score']], 0 for a file without an entry. *)
Definition score_of (a : Analyzer) (f : str) : Z :=
  score (or_default (get (file_scores a) f)).

Definition sorted_files (a : Analyzer) : list (str * FileScore) :=
  firstn 20 (sorted_desc (fun x => score (snd x)) (file_scores a)).

End Project.

(* ================================================================== *)
(** ** [analyze_dead_code.py] *)

Module DeadCode.
Import Py Re.
Local Open Scope re_scope.

Record Analyzer := mkAnalyzer {
  lib_files : list str;
  test_files : list str;
  imports : dict (list str);
  exports : dict (list str);
  class_definitions : dict (list str);
  class_usages : dict Z
}.

(** The analyzer after [scan_files]. *)
Definition scanned (lib test : list str) : Analyzer :=
  mkAnalyzer lib test [] [] [] [].

Definition quote (c : ascii) : bool := Ascii.eqb c sq || Ascii.eqb c dq.

Definition import_pattern : re :=
  Lit (lit "import") ;; Plus isspace ;; Cls quote ;;
  Grp (Plus (fun c => negb (quote c))) ;; Cls quote.

Definition export_pattern : re :=
  Lit (lit "export") ;; Plus isspace ;; Cls quote ;;
  Grp (Plus (fun c => negb (quote c))) ;; Cls quote.

Definition class_pattern : re :=
  Lit (lit "class") ;; Plus isspace ;; Grp (Plus is_word) ;;
  Alts [ Plus isspace ;; Lit (lit "extends");
         Plus isspace ;; Lit (lit "implements");
         Plus isspace ;; Lit (lit "with");
         Star isspace ;; Chr "{" ].

(** [r'\b' + class_name + r'\b'] *)
Definition usage_pattern (class_name : str) : re :=
  Wordb ;; Lit class_name ;; Wordb.

Definition func_pattern : re :=
  Grp (Alts [ Lit (lit "Future"); Lit (lit "void"); Lit (lit "int");
              Lit (lit "String"); Lit (lit "bool"); Lit (lit "List");
              Lit (lit "Map"); Lit (lit "dynamic") ] ;;
       Plus isspace ;; Plus is_word ;; Star isspace ;;
       Chr "(" ;; Star (none_of ")") ;; Chr ")").

(** [match.group(1)] of every match of [finditer]. *)
Definition groups1 (r : re) (content : str) : list str :=
  map (fun m => nth 0 (snd m) []) (finditer r content).

Definition add_import (file_path : str) (a : Analyzer) (import_path : str)
  : Analyzer :=
  if negb (startswith import_path (lit "package:flutter"))
     && negb (startswith import_path (lit "dart:"))
  then mkAnalyzer (lib_files a) (test_files a)
         (update file_path
            (fun o => set_add import_path
                        match o with Some l => l | None => [] end)
            (imports a))
         (exports a) (class_definitions a) (class_usages a)
  else a.

Definition add_export (file_path : str) (a : Analyzer) (export_path : str)
  : Analyzer :=
  mkAnalyzer (lib_files a) (test_files a) (imports a)
    (update file_path
       (fun o => set_add export_path
                   match o with Some l => l | None => [] end)
       (exports a))
    (class_definitions a) (class_usages a).

Definition add_class (file_path : str) (a : Analyzer) (class_name : str)
  : Analyzer :=
  mkAnalyzer (lib_files a) (test_files a) (imports a) (exports a)
    (update class_name
       (fun o => match o with Some l => l | None => [] end ++ [file_path])
       (class_definitions a))
    (class_usages a).

(** The classes known when the file is reached are looked for in it. *)
Definition add_usage (content : str) (u : dict Z) (class_name : str)
  : dict Z :=
  if re_search (usage_pattern class_name) content
  then update class_name
         (fun o => match o with Some n => n | None => 0 end + 1) u
  else u.

(** The body of the loop of [analyze_imports_exports] for one file; a file
    that cannot be read is passed over. *)
Definition analyze_one (read : str -> option str) (a : Analyzer)
    (file_path : str) : Analyzer :=
  match read file_path with
  | None => a
  | Some content =>
      let a1 := fold_left (add_import file_path)
                  (groups1 import_pattern content) a in
      let a2 := fold_left (add_export file_path)
                  (groups1 export_pattern content) a1 in
      let a3 := fold_left (add_class file_path)
                  (groups1 class_pattern content) a2 in
      mkAnalyzer (lib_files a3) (test_files a3) (imports a3) (exports a3)
        (class_definitions a3)
        (fold_left (add_usage content) (keys (class_definitions a3))
           (class_usages a3))
  end.

Definition analyze_imports_exports (read : str -> option str) (a : Analyzer)
  : Analyzer :=
  fold_left (analyze_one read) (lib_files a ++ test_files a) a.

(** [find_unused_files] *)
Definition all_imports (a : Analyzer) : list str :=
  flat_map snd (imports a).

Definition is_skipped (file_path : str) : bool :=
  contains (lit ".g.dart") file_path || contains (lit ".mocks.dart") file_path
  || contains (lit "export.dart") file_path
  || endswith file_path (lit "main.dart").

Definition is_imported (pf : platform) (a : Analyzer) (file_path : str)
  : bool :=
  let file_name := basename pf file_path in
  existsb (fun imp => contains file_name imp
                      || contains (replace_chr "\" "/" file_path) imp)
    (all_imports a).

Definition find_unused_files (pf : platform) (a : Analyzer) : list str :=
  filter (fun file_path => negb (is_skipped file_path)
                           && negb (is_imported pf a file_path))
    (lib_files a).

(** [find_unused_classes] *)
Record UnusedClass := mkUnusedClass {
  uc_class : str;
  uc_defined_in : list str;
  uc_usage_count : Z
}.

Definition usage_count (a : Analyzer) (class_name : str) : Z :=
  match get (class_usages a) class_name with Some n => n | None => 0 end.

Definition unused_classes (a : Analyzer) : list UnusedClass :=
  flat_map
    (fun kv =>
       let usage := usage_count a (fst kv) in
       if usage <=? 1 then [mkUnusedClass (fst kv) (snd kv) usage] else [])
    (class_definitions a).

Definition find_unused_classes (a : Analyzer) : list UnusedClass :=
  sorted_asc uc_usage_count (unused_classes a).

(** [find_duplications] *)
Record Duplicate := mkDuplicate {
  signature : str;
  files : list str;
  count : Z
}.

Definition add_signature (file_path : str) (d : dict (list str))
    (signature : str) : dict (list str) :=
  let normalized := collapse_ws (strip signature) in
  update normalized
    (fun o => match o with Some l => l | None => [] end ++ [file_path]) d.

Definition signatures_of (read : str -> option str) (d : dict (list str))
    (file_path : str) : dict (list str) :=
  match read file_path with
  | None => d
  | Some content =>
      fold_left (add_signature file_path) (groups1 func_pattern content) d
  end.

Definition signatures (read : str -> option str) (a : Analyzer)
  : dict (list str) :=
  fold_left (signatures_of read) (lib_files a ++ test_files a) [].

(** The loop that fills [duplicates]. *)
Definition duplicates (sigs : dict (list str)) : list Duplicate :=
  flat_map
    (fun kv =>
       if (Z.of_nat (length (snd kv)) >? 2)
          && (Z.of_nat (length (fst kv)) >? 30)
       then [mkDuplicate (fst kv) (distinct (snd kv))
               (Z.of_nat (length (snd kv)))]
       else [])
    sigs.

Definition find_duplications (read : str -> option str) (a : Analyzer)
  : list Duplicate :=
  firstn 30 (sorted_desc count (duplicates (signatures read a))).

End DeadCode.

(* ================================================================== *)
(** ** The statistics of [main] in [analyze_methods.py] *)

Module MethodsReport.
Import Py Methods.

(** [by_file[method.file_path].append(method)], the list being created
    when the file is met first. *)
Definition group (d : dict (list MethodInfo)) (m : MethodInfo)
  : dict (list MethodInfo) :=
  update (file_path m)
    (fun o => match o with Some l => l | None => [] end ++ [m]) d.

Definition by_file (all_methods : list MethodInfo)
  : dict (list MethodInfo) :=
  fold_left group all_methods [].

(** [all_methods[0].line_count], printed only when the list is not empty. *)
Definition longest (all_methods : list MethodInfo) : option Z :=
  match all_methods with
  | [] => None
  | m :: _ => Some (line_count m)
  end.

(** The ten files with the most reported methods. *)
Definition sorted_files (all_methods : list MethodInfo)
  : list (str * list MethodInfo) :=
  firstn 10
    (sorted_desc (fun x => Z.of_nat (length (snd x))) (by_file all_methods)).

End MethodsReport.

(* ================================================================== *)
(** ** The tables of [generate_report] in [analyze_project.py] *)

Module ProjectReport.
Import Py Project.

Definition critical_count (a : Analyzer) : Z :=
  files_over_500 a + methods_over_50 a.

(** The rows of table A: the fifty largest files. *)
Definition files_table (a : Analyzer) : list FileViolation :=
  firstn 50 (sorted_desc fv_lines (v_files_over_500 a)).

(** The rows of table B: the hundred longest methods. *)
Definition methods_table (a : Analyzer) : list MethodViolation :=
  firstn 100 (sorted_desc mv_lines (v_methods_over_50 a)).

End ProjectReport.

(* ================================================================== *)
(** ** [generate_final_report.py] *)

Module FinalReport.
Import Py Project.

(** The texts filed under ['issues']. *)
Inductive Issue :=
| Size (lines : Z)
| Method (method : option str) (lines : Z).

Record Impact := mkImpact {
  score : Z;
  size : Z;
  issues : list Issue
}.

(** The two loops of [generate_refactoring_plan] that fill
    [file_impacts]; an entry is created by the first violation of its
    file. *)
Definition add_file (d : dict Impact) (v : FileViolation) : dict Impact :=
  update (fv_file v)
    (fun o =>
       let e := match o with
                | Some e => e
                | None => mkImpact 0 (fv_lines v) []
                end in
       mkImpact (score e + (fv_excess v / 100) * 10) (size e)
         (issues e ++ [Size (fv_lines v)])) d.

Definition add_method (d : dict Impact) (v : MethodViolation)
  : dict Impact :=
  update (mv_file v)
    (fun o =>
       let e := match o with
                | Some e => e
                | None => mkImpact 0 0 []
                end in
       mkImpact (score e + (mv_lines v - 50) / 10) (size e)
         (issues e ++ [Method (mv_method v) (mv_lines v)])) d.

Definition file_impacts (files_over_500 : list FileViolation)
    (methods_over_50 : list MethodViolation) : dict Impact :=
  fold_left add_method methods_over_50
    (fold_left add_file files_over_500 []).

Definition sorted_files (files_over_500 : list FileViolation)
    (methods_over_50 : list MethodViolation) : list (str * Impact) :=
  firstn 20
    (sorted_desc (fun x => score (snd x))
       (file_impacts files_over_500 methods_over_50)).

(** The strategy and the effort of a row go together. *)
Inductive Strategy :=
| MajorSplit        (* "Decoupage majeur en modules", "L (5-8j)" *)
| ExtractClasses    (* "Extraction de classes", "M (2-4j)" *)
| RefactorMethods.  (* "Refactorisation methodes", "S (0.5-1j)" *)

Definition strategy (e : Impact) : Strategy :=
  if size e >? 1000 then MajorSplit
  else if size e >? 500 then ExtractClasses
  else RefactorMethods.

Record Row := mkRow {
  rank : Z;
  file : str;
  row_score : Z;
  row_strategy : Strategy
}.

(** [enumerate(sorted_files, 1)]; the file is cut to 60 characters and
    followed by three dots. *)
Fixpoint rows_from (rank : Z) (l : list (str * Impact)) : list Row :=
  match l with
  | [] => []
  | (f, e) :: l' =>
      mkRow rank (firstn 60 f ++ lit "...") (score e) (strategy e)
      :: rows_from (rank + 1) l'
  end.

(** The table of [generate_refactoring_plan]; [data] is the content of
    [analysis_results.json], [None] when the file is missing. *)
Definition plan_rows
    (data : option (list FileViolation * list MethodViolation))
  : list Row :=
  match data with
  | None => []
  | Some (files_over_500, methods_over_50) =>
      rows_from 1 (sorted_files files_over_500 methods_over_50)
  end.

End FinalReport.

(* ================================================================== *)
(** ** [scripts/generate_compliance_table.py] *)

Module Compliance.
Import Py.

(** The characters at which [str.splitlines] cuts, below code point 256. *)
Definition is_linebreak (c : ascii) : bool :=
  let n := nat_of_ascii c in
  ((10 <=? n) && (n <=? 13) || (28 <=? n) && (n <=? 30) || (n =? 133))%nat.

Definition cr : ascii := "013"%char.

(** [s.splitlines()]: a carriage return followed by a line feed is one
    cut, and no empty line follows the last cut.  [cur] is the line under
    construction, reversed. *)
Fixpoint splitlines_from (cur : str) (s : str) : list str :=
  match s with
  | [] => match cur with [] => [] | _ => [rev cur] end
  | c :: s' =>
      if is_linebreak c then
        rev cur ::
        match s' with
        | d :: s'' =>
            if Ascii.eqb c cr && Ascii.eqb d nl then splitlines_from [] s''
            else splitlines_from [] s'
        | [] => splitlines_from [] s'
        end
      else splitlines_from (c :: cur) s'
  end.

Definition splitlines (s : str) : list str := splitlines_from [] s.

(** [s.lstrip(c)] and [s.rstrip(c)] for a one-character [c] *)
Fixpoint lstrip_chr (c : ascii) (s : str) : str :=
  match s with
  | x :: s' => if Ascii.eqb x c then lstrip_chr c s' else s
  | [] => []
  end.

Definition rstrip_chr (c : ascii) (s : str) : str :=
  rev (lstrip_chr c (rev s)).

(** [str.isdigit] on code points below 256: the decimal digits and the
    superscripts one, two and three; the empty string is no number. *)
Definition is_digit (c : ascii) : bool :=
  let n := nat_of_ascii c in
  ((48 <=? n) && (n <=? 57) || (n =? 178) || (n =? 179) || (n =? 185))%nat.

Definition isdigit (s : str) : bool :=
  match s with
  | [] => false
  | _ => forallb is_digit s
  end.

(** The first word of a string that starts with none of the whitespace,
    and what follows the word. *)
Fixpoint word (s : str) : str * str :=
  match s with
  | c :: s' =>
      if isspace c then ([], s)
      else let (w, r) := word s' in (c :: w, r)
  | [] => ([], [])
  end.

(** [s.split(maxsplit=1)] *)
Definition split_once (s : str) : list str :=
  match lstrip s with
  | [] => []
  | s1 =>
      let (w, r) := word s1 in
      match lstrip r with
      | [] => [w]
      | r' => [w; r']
      end
  end.

Definition prefixes : list str :=
  [lit "- [x] "; lit "- [X] "; lit "- [ ] "; lit "- "; lit "* "; lit "+ "].

(** [_strip_markdown_prefix] *)
Definition _strip_markdown_prefix (line : str) : str :=
  match find (startswith line) prefixes with
  | Some prefix => strip (skipn (length prefix) line)
  | None =>
      if startswith line (lit "#") then strip (lstrip_chr "#" line)
      else
        let parts := split_once line in
        match parts with
        | p0 :: _ =>
            if isdigit (rstrip_chr "." p0) && (length parts =? 2)%nat
            then strip (nth 1 parts [])
            else []
        | [] => []
        end
  end.

(** One turn of [for raw_line in text.splitlines()]. *)
Definition item_step (items : list str) (raw_line : str) : list str :=
  let line := strip raw_line in
  match line with
  | [] => items
  | _ =>
      let stripped := _strip_markdown_prefix line in
      match stripped with
      | [] => items
      | _ => items ++ [stripped]
      end
  end.

(** [extract_compliance_items]; a file that is missing or cannot be read
    is [None]. *)
Definition extract_compliance_items (read : option str) : list str :=
  match read with
  | None => []
  | Some text => fold_left item_step (splitlines text) []
  end.

(** A row of the table: type, item, source and status. *)
Definition Row : Type := str * str * str * str.

(** [enumerate(l, start)] *)
Fixpoint enumerate {A : Type} (start : nat) (l : list A) : list (nat * A) :=
  match l with
  | [] => []
  | x :: l' => (start, x) :: enumerate (S start) l'
  end.

(** The decimal writing of a number, as an f-string formats it. *)
Definition str_of_nat (n : nat) : str :=
  lit (NilEmpty.string_of_uint (Nat.to_uint n)).

Definition compliance_row (name default_status : str) (e : nat * str)
  : Row :=
  (lit "compliance", snd e, name ++ lit "#" ++ str_of_nat (fst e),
   default_status).

(** [gather_compliance_rows]: each compliance file comes with what
    reading it gives. *)
Definition gather_compliance_rows
    (compliance_files : list (str * option str)) (default_status : str)
  : list Row :=
  fold_left
    (fun rows f =>
       let items := extract_compliance_items (snd f) in
       match items with
       | [] => rows
       | _ =>
           rows ++ map (compliance_row (fst f) default_status)
                       (enumerate 1 items)
       end)
    compliance_files [].

(** [gather_file_rows]: [files] are the files below the root in the order
    of [sorted(root.rglob("*"))], as paths relative to the root. *)
Definition gather_file_rows (files : list str) (default_status : str)
  : list Row :=
  map (fun rel_path => (lit "file", rel_path, lit "filesystem",
                        default_status)) files.

(** [_escape_table_cell] *)
Definition _escape_table_cell (value : str) : str :=
  flat_map (fun c => if Ascii.eqb c "|" then ["\"; "|"]%char else [c]) value.

(** [sep.join(l)] *)
Fixpoint join (sep : str) (l : list str) : str :=
  match l with
  | [] => []
  | [x] => x
  | x :: l' => x ++ sep ++ join sep l'
  end.

Definition row_line (row : Row) : str :=
  let '(entry_type, item, source, status) := row in
  let cells :=
    [_escape_table_cell entry_type; _escape_table_cell item;
     _escape_table_cell source; _escape_table_cell status] in
  lit "| " ++ join (lit " | ") cells ++ lit " |".

Definition table_head : list str :=
  [lit "| Type | Item | Source | Status |";
   lit "|------|------|--------|--------|"].

(** [build_table] *)
Definition build_table (rows : list Row) : str :=
  join [nl] (table_head ++ map row_line rows).

(** The table that [main] prints or writes. *)
Definition table (compliance_files : list (str * option str))
    (files : list str) (default_compliance_status default_file_status : str)
  : str :=
  build_table
    (gather_compliance_rows compliance_files default_compliance_status
     ++ gather_file_rows files default_file_status).

End Compliance.

(* ================================================================== *)
(** ** Notions on the spans of [analyze_methods.py] *)

Section SpanNotions.
Import Py Re Methods.

(** A span does not end before it starts. *)
Definition well_formed (m : MethodInfo) : Prop := start_line m <= end_line m.

(** One span lies wholly before the other. *)
Definition before (a b : MethodInfo) : Prop := end_line a < start_line b.

(** The size test of [analyze_method_sizes]. *)
Definition is_long (m : MethodInfo) : bool := line_count m >? 50.

(** What holds of the spans recorded when the search stands at line index
    [i]: each is well formed, they lie one before the other, and all end at
    or before line [i]. *)
Definition spans_ok (i : nat) (ms : list MethodInfo) : Prop :=
  Forall well_formed ms /\ StronglySorted before ms
  /\ Forall (fun m => end_line m <= Z.of_nat i) ms.





End SpanNotions.

(* ================================================================== *)
(** ** Notions on the spans of [analyze_project.py] *)

Section ProjectSpanNotions.
Import Py Re Project.

Definition pv_well_formed (v : MethodViolation) : Prop :=
  mv_start_line v <= mv_end_line v.

Definition pv_before (a b : MethodViolation) : Prop :=
  mv_end_line a < mv_start_line b.

(** What holds of the violations [new] added for the file when the loop
    stands at line [i]: they are well formed and lie one before the other,
    all closed before line [i], and before the open method if there is
    one. *)
Definition cursor_ok (i : Z) (c : Cursor) (new : list MethodViolation)
  : Prop :=
  Forall pv_well_formed new /\ StronglySorted pv_before new
  /\ Forall (fun v => mv_end_line v < i) new
  /\ (in_method c = true ->
      method_start c < i
      /\ Forall (fun v => mv_end_line v < method_start c) new).

End ProjectSpanNotions.

(* ================================================================== *)
(** ** Sample files for the span scanner *)

Section SpanExamples.
Import Py Re Methods.

(** A source line as [readlines] gives it. *)
Definition src_line (s : string) : str := lit s ++ [nl].

(** A method of 61 lines whose second line calls [log()]. *)
Definition file_plain : list str :=
  src_line "void f() {" :: src_line "  log();"
  :: repeat (src_line "  step();") 58 ++ [src_line "}"].


End SpanExamples.

(* ================================================================== *)
(** ** The impact score, as specified *)

Section ScoreNotions.
Import Py Re Project.

(** The points of an oversized file and of an oversized method, as the
    specification words them. *)
Definition file_points (line_count : Z) : Z := ((line_count - 500) / 100) * 10.
Definition method_points (line_count : Z) : Z := (line_count - 50) / 10.

Fixpoint file_total (f : str) (vs : list FileViolation) : Z :=
  match vs with
  | [] => 0
  | v :: vs' =>
      (if str_eqb f (fv_file v) then file_points (fv_lines v) else 0)
      + file_total f vs'
  end.

Fixpoint method_total (f : str) (vs : list MethodViolation) : Z :=
  match vs with
  | [] => 0
  | v :: vs' =>
      (if str_eqb f (mv_file v) then method_points (mv_lines v) else 0)
      + method_total f vs'
  end.

(** A file of 650 lines that holds one method of 75 lines. *)
Definition big_file : str :=
  lit "void f() {" ++ [nl]
  ++ concat (repeat (lit "  step();" ++ [nl]) 73)
  ++ lit "}" ++ [nl] ++ repeat nl 574.

(** What [analyze_file] keeps true of the recorded violations. *)
Definition recorded_ok (files : list (str * option str)) (a : Analyzer)
  : Prop :=
  Forall (fun v => fv_excess v = fv_lines v - 500 /\ 500 < fv_lines v
                   /\ exists content,
                        In (fv_file v, Some content) files
                        /\ fv_lines v
                           = Z.of_nat (length (split_nl content)))
    (v_files_over_500 a)
  /\ Forall (fun v => 50 < mv_lines v) (v_methods_over_50 a).

End ScoreNotions.

(* ================================================================== *)
(** ** Positions in a text *)

Section MatcherNotions.
Import Py Re.

(** The character before the position reached after reading [s]. *)
Definition lastc (prev : option ascii) (s : str) : option ascii :=
  fold_left (fun _ c => Some c) s prev.

End MatcherNotions.

(* ================================================================== *)
(** ** Orderings *)

Section SortNotions.
Import Py.
Context {A : Type} (key : A -> Z).

(** No element has a larger key than one listed before it. *)
Definition descending (a b : A) : Prop := key b <= key a.

End SortNotions.

(* ================================================================== *)
(** ** The class table, and sample trees for the symbol index *)

Section IndexNotions.
Import Py Re DeadCode.

(** A file tree given by its paths and texts; a path that is not listed
    cannot be read. *)
Definition disk (l : list (string * string)) (p : str) : option str :=
  match find (fun kv => str_eqb p (lit (fst kv))) l with
  | Some kv => Some (lit (snd kv))
  | None => None
  end.

(** One file declares the class [Foo], no other file names it. *)
Definition lone_class : list (string * string) :=
  [ ("lib/a.dart", "void main() { run(); }");
    ("lib/foo.dart", "class Foo {}");
    ("lib/b.dart", "int counter = 0;") ]%string.

(** [lib/user.dart] uses the class that [lib/def.dart] declares. *)
Definition used_class : list (string * string) :=
  [ ("lib/user.dart", "final Foo x = make();");
    ("lib/def.dart", "class Foo {}") ]%string.

(** [class_definitions[name].append(file)] *)
Definition define (f : str) (d : dict (list str)) (name : str)
  : dict (list str) :=
  update name
    (fun o => match o with Some l => l | None => [] end ++ [f]) d.

End IndexNotions.

(* ================================================================== *)
(** ** A sample tree for the dead files *)

Section DeadFileExamples.
Import Py Re DeadCode.

(** [lib/helper.dart] and [lib/orphan.dart] are imported by no file, but
    the name of the first occurs inside the import of another package. *)
Definition helper_tree : Analyzer :=
  analyze_imports_exports
    (disk [ ("lib/main.dart",
             "import 'package:other/string_helper.dart'; void main() {}");
            ("lib/helper.dart", "int help() { return 1; }");
            ("lib/orphan.dart", "int lost() { return 2; }") ]%string)
    (scanned [lit "lib/main.dart"; lit "lib/helper.dart";
              lit "lib/orphan.dart"] []).

(** [lib/domain.dart] and [lib/orphan.dart] are imported by no file and no
    import string holds the name of either; neither is the entry point, a
    generated file or an export file. *)
Definition domain_tree : Analyzer :=
  analyze_imports_exports
    (disk [ ("lib/main.dart",
             "import 'package:other/util.dart'; void main() {}");
            ("lib/domain.dart", "int value() { return 1; }");
            ("lib/orphan.dart", "int lost() { return 2; }") ]%string)
    (scanned [lit "lib/main.dart"; lit "lib/domain.dart";
              lit "lib/orphan.dart"] []).

End DeadFileExamples.

(* ================================================================== *)
(** ** Matches of signatures, and sample trees *)

Section ClusterNotions.
Import Py Re DeadCode.

(** Every match of [func_pattern] in the readable files, normalized, with
    the file it was found in, in the order the loop meets them. *)
Definition all_matches (read : str -> option str) (fs : list str)
  : list (str * str) :=
  flat_map
    (fun f =>
       match read f with
       | None => []
       | Some content =>
           map (fun s => (collapse_ws (strip s), f))
             (groups1 func_pattern content)
       end) fs.

(** The files of the matches of one signature, one entry for each match. *)
Definition occurrences (read : str -> option str) (a : Analyzer) (sig : str)
  : list str :=
  map snd
    (filter (fun m => str_eqb sig (fst m))
       (all_matches read (lib_files a ++ test_files a))).

(** [signatures[normalized].append(file_path)] *)
Definition record (d : dict (list str)) (m : str * str) : dict (list str) :=
  update (fst m)
    (fun o => match o with Some l => l | None => [] end ++ [snd m]) d.

Definition header : string := "Future loadData(String id, bool force)"%string.
Definition generic_header : string :=
  "Future<void> loadData(String id, bool force)"%string.

(** Three files and two files that hold [header] once each; one file that
    holds it three times; three files that hold [generic_header]. *)
Definition three_files : list (string * string) :=
  [ ("lib/a.dart", header); ("lib/b.dart", header);
    ("lib/c.dart", header) ]%string.
Definition two_files : list (string * string) :=
  [ ("lib/a.dart", header); ("lib/b.dart", header) ]%string.
Definition one_file : list (string * string) :=
  [ ("lib/a.dart", header ++ " " ++ header ++ " " ++ header) ]%string.
Definition generic_files : list (string * string) :=
  [ ("lib/a.dart", generic_header); ("lib/b.dart", generic_header);
    ("lib/c.dart", generic_header) ]%string.

Definition paths (l : list (string * string)) : list str :=
  map (fun kv => lit (fst kv)) l.





End ClusterNotions.

(* ================================================================== *)
(** ** Further notions on the spans and the tables *)

Section ReportNotions.
Import Py Re.
Context {A : Type} (key : A -> Z).

(** The elements of [l] whose key is [k], in the order of [l]. *)
Definition with_key (k : Z) (l : list A) : list A :=
  filter (fun x => key x =? k) l.

(** [out] is what a descending sort of [l] by [key], cut after [n]
    entries, shows: entries of [l] in descending order, [n] of them if
    there are as many, none smaller than an entry left out, and entries
    with equal keys in the order they have in [l]. *)
Definition top_of (n : nat) (l out : list A) : Prop :=
  exists cut,
    StronglySorted (descending key) out
    /\ Permutation (out ++ cut) l
    /\ length out = Nat.min n (length l)
    /\ (forall x y, In x out -> In y cut -> key y <= key x)
    /\ (forall k, with_key k (out ++ cut) = with_key k l).

End ReportNotions.

Section GroupNotions.
Import Py.
Context {X V : Type} (kf : X -> str) (vf : X -> V).

(** [d[kf x].append(vf x)], the list being created when the key is new. *)
Definition collect (d : dict (list V)) (x : X) : dict (list V) :=
  update (kf x)
    (fun o => match o with Some l => l | None => [] end ++ [vf x]) d.

(** The number of values held by the lists of a dictionary. *)
Definition held (d : dict (list V)) : nat :=
  list_sum (map (fun kv => length (snd kv)) d).

End GroupNotions.

Section PatternNotions.
Import Py Re.

(** Every text matched by the pattern holds the character [c]. *)
Inductive requires (c : ascii) : re -> Prop :=
| req_chr : requires c (Chr c)
| req_seq_l a b : requires c a -> requires c (Seq a b)
| req_seq_r a b : requires c b -> requires c (Seq a b)
| req_alt a b : requires c a -> requires c b -> requires c (Alt a b)
| req_grp a : requires c a -> requires c (Grp a).

(** The normal form of a signature in [find_duplications]. *)
Definition normalize (s : str) : str := collapse_ws (strip s).

(** The text does not begin with white space. *)
Definition starts_clean (s : str) : Prop :=
  match s with
  | [] => True
  | c :: _ => isspace c = false
  end.

End PatternNotions.

Section BatchNotions.
Import Py Re Project.

(** The files of a batch that [analyze_file] does not pass over. *)
Definition kept (files : list (str * option str)) : list (str * option str) :=
  filter (fun f => negb (is_excluded (fst f))) files.

(** The number of lines [analyze_file] counts for a text. *)
Definition line_count_of (content : str) : Z :=
  Z.of_nat (length (split_nl content)).

(** The lines of the readable files of a list. *)
Fixpoint lines_in (files : list (str * option str)) : Z :=
  match files with
  | [] => 0
  | (_, Some content) :: files' => line_count_of content + lines_in files'
  | (_, None) :: files' => lines_in files'
  end.

(** What is known of a method violation of the file [file] whose lines
    are [all]: it was opened by a header on its first line, which gave its
    name, it was closed on a later counted line, and its size is the number
    of lines from the one to the other. *)
Definition method_traced (file : str) (all : list str)
    (v : MethodViolation) : Prop :=
  mv_file v = file
  /\ (exists k h g,
        mv_start_line v = Z.of_nat k + 1
        /\ nth_error all k = Some h /\ is_skipped h = false
        /\ re_match method_pattern h = Some g
        /\ mv_method v = Some (nth 0 g []))
  /\ (exists k e,
        mv_end_line v = Z.of_nat k + 1
        /\ nth_error all k = Some e /\ is_skipped e = false)
  /\ mv_start_line v < mv_end_line v
  /\ mv_lines v = mv_end_line v - mv_start_line v + 1
  /\ 50 < mv_lines v.

(** What is known of the open method, if any, when the lines [done] have
    been read. *)
Definition open_traced (done : list str) (c : Cursor) : Prop :=
  in_method c = true ->
  exists k h g,
    method_start c = Z.of_nat k + 1
    /\ nth_error done k = Some h /\ is_skipped h = false
    /\ re_match method_pattern h = Some g
    /\ method_name c = Some (nth 0 g []).

(** Every violation of [a] comes from a file of [files] that was read and
    is not excluded. *)
Definition batch_traced (files : list (str * option str)) (a : Analyzer)
  : Prop :=
  Forall (fun v => exists content,
            In (mv_file v, Some content) files
            /\ is_excluded (mv_file v) = false
            /\ method_traced (mv_file v) (split_nl content) v)
    (v_methods_over_50 a)
  /\ Forall (fun v => exists content,
              In (fv_file v, Some content) files
              /\ is_excluded (fv_file v) = false
              /\ fv_lines v = line_count_of content
              /\ 500 < fv_lines v
              /\ fv_excess v = fv_lines v - 500)
      (v_files_over_500 a).

(** The violations of one file. *)
Definition files_of (f : str) (vs : list FileViolation)
  : list FileViolation :=
  filter (fun v => str_eqb f (fv_file v)) vs.

Definition methods_of (f : str) (vs : list MethodViolation)
  : list MethodViolation :=
  filter (fun v => str_eqb f (mv_file v)) vs.

(** The line count of the last violation of a list, 0 for none. *)
Definition last_lines (vs : list FileViolation) : Z :=
  match rev vs with
  | v :: _ => fv_lines v
  | [] => 0
  end.

(** The line count of the first violation of a list, 0 for none. *)
Definition first_lines (vs : list FileViolation) : Z :=
  match vs with
  | v :: _ => fv_lines v
  | [] => 0
  end.

(** What a run keeps true of its counters. *)
Definition counted (a0 a : Analyzer) (files : list (str * option str))
  : Prop :=
  total_files a = total_files a0 + Z.of_nat (length (kept files))
  /\ total_lines a = total_lines a0 + lines_in (kept files)
  /\ files_over_500 a - Z.of_nat (length (v_files_over_500 a))
     = files_over_500 a0 - Z.of_nat (length (v_files_over_500 a0))
  /\ methods_over_50 a - Z.of_nat (length (v_methods_over_50 a))
     = methods_over_50 a0 - Z.of_nat (length (v_methods_over_50 a0))
  /\ Forall (fun f => snd f <> None) (kept files).

End BatchNotions.

Section PlanNotions.
Import Py Project.

(** The files of a ranking with their scores. *)
Definition report_ranking (l : list (str * FileScore)) : list (str * Z) :=
  map (fun x => (fst x, Project.score (snd x))) l.

Definition plan_ranking (l : list (str * FinalReport.Impact))
  : list (str * Z) :=
  map (fun x => (fst x, FinalReport.score (snd x))) l.

End PlanNotions.

Section IndexFurtherNotions.
Import Py Re DeadCode.

(** The file can be read and its text declares the class. *)
Definition declares (read : str -> option str) (name f : str) : bool :=
  match read f with
  | Some content => existsb (str_eqb name) (groups1 class_pattern content)
  | None => false
  end.

(** The file can be read and its text holds the name as a whole word. *)
Definition mentions (read : str -> option str) (name f : str) : bool :=
  match read f with
  | Some content => re_search (usage_pattern name) content
  | None => false
  end.

(** [class_usages.get(name, 0)] *)
Definition usage_of (u : dict Z) (name : str) : Z :=
  match get u name with Some n => n | None => 0 end.

(** The files recorded for a class, none when it has no entry. *)
Definition defined_in (d : dict (list str)) (name : str) : list str :=
  match get d name with Some l => l | None => [] end.

(** The import strings recorded for a file, none when it has no entry. *)
Definition imports_of (a : Analyzer) (f : str) : list str :=
  match get (imports a) f with Some l => l | None => [] end.

(** The test that [analyze_imports_exports] puts on an import string. *)
Definition is_recorded (import_path : str) : bool :=
  negb (startswith import_path (lit "package:flutter"))
  && negb (startswith import_path (lit "dart:")).

(** What the import table keeps: one entry for a file, no string twice
    in an entry. *)
Definition imports_ok (a : Analyzer) : Prop :=
  NoDup (keys (imports a)) /\ forall g, NoDup (imports_of a g).

End IndexFurtherNotions.

(* ================================================================== *)
(** ** Notions on the compliance table *)

Section ComplianceNotions.
Import Py Compliance.

(** [item] is a contiguous part of [line]. *)
Definition part_of (item line : str) : Prop :=
  exists pre post, line = pre ++ item ++ post.

(** A text that [str.splitlines] would not cut. *)
Definition unbroken (s : str) : Prop :=
  Forall (fun c => is_linebreak c = false) s.

(** The number of the [|] of a text that no backslash comes right
    before; [escaped] tells whether the character before the text is a
    backslash. *)
Fixpoint bare_from (escaped : bool) (s : str) : nat :=
  match s with
  | [] => 0
  | c :: s' =>
      ((if Ascii.eqb c "|" && negb escaped then 1 else 0)
       + bare_from (Ascii.eqb c "\") s')%nat
  end.

Definition bare_pipes (s : str) : nat := bare_from false s.

Definition cells (row : Row) : list str :=
  let '(entry_type, item, source, status) := row in
  [entry_type; item; source; status].

(** The number of line feeds in a list of texts, and in the cells of a
    list of rows. *)
Definition breaks (l : list str) : Z :=
  fold_right (fun s n => count nl s + n) 0 l.

Definition breaks_in (rows : list Row) : Z := breaks (flat_map cells rows).

(** The number of items that the compliance files give. *)
Definition items_in (files : list (str * option str)) : nat :=
  list_sum (map (fun f => length (extract_compliance_items (snd f))) files).

End ComplianceNotions.

(* ================================================================== *)
(** ** Auxiliary facts on strings, lists and orderings *)

Section ListFacts.
Import Py.

Lemma str_eqb_refl (a : str) : str_eqb a a = true.
Proof.
  induction a as [|x a IH]; simpl; [reflexivity|].
  now rewrite Ascii.eqb_refl, IH.
Qed.

Lemma str_eqb_eq (a b : str) : str_eqb a b = true <-> a = b.
Proof.
  split; [|intros ->; apply str_eqb_refl].
  revert b; induction a as [|x a IH]; intros [|y b]; simpl; try easy.
  intros H; apply andb_true_iff in H as [Hx Hr].
  apply Ascii.eqb_eq in Hx; apply IH in Hr; now subst.
Qed.

Context {A : Type}.

Lemma sorted_snoc (R : A -> A -> Prop) (l : list A) (x : A) :
  StronglySorted R l -> Forall (fun a => R a x) l ->
  StronglySorted R (l ++ [x]).
Proof.
  induction 1 as [|a l Hs IH Ha]; intros Hx; simpl.
  - repeat constructor.
  - inversion Hx; subst; constructor; [now apply IH|].
    apply Forall_app; split; [assumption|now repeat constructor].
Qed.

Lemma sorted_filter (R : A -> A -> Prop) (f : A -> bool) (l : list A) :
  StronglySorted R l -> StronglySorted R (filter f l).
Proof.
  induction 1 as [|a l Hs IH Ha]; simpl; [constructor|].
  destruct (f a); [constructor|]; try assumption.
  apply Forall_forall; intros y Hy; apply filter_In in Hy as [Hy _].
  now apply (proj1 (Forall_forall _ _) Ha).
Qed.

Lemma filter_snoc (f : A -> bool) (l : list A) (x : A) :
  filter f (l ++ [x]) = filter f l ++ (if f x then [x] else []).
Proof. rewrite filter_app; reflexivity. Qed.

End ListFacts.

(* ================================================================== *)
(** ** The span scanner of [analyze_methods.py] *)

Section MethodSpans.
Import Py Re Methods.

Lemma find_end_ge (rest : list str) (j : nat) (bc : Z) :
  (j <= find_end rest j bc)%nat.
Proof.
  revert j bc; induction rest as [|l rest IH]; intros j bc; simpl; [lia|].
  destruct (bc >? 0); [|lia].
  specialize (IH (S j) (count_line l bc)); lia.
Qed.

Lemma find_end_le (rest : list str) (j : nat) (bc : Z) :
  (find_end rest j bc <= j + length rest)%nat.
Proof.
  revert j bc; induction rest as [|l rest IH]; intros j bc; simpl; [lia|].
  destruct (bc >? 0); [|lia].
  specialize (IH (S j) (count_line l bc)); lia.
Qed.

Lemma span_end_gt (lines : list str) (i : nat) : (i < span_end lines i)%nat.
Proof.
  unfold span_end.
  pose proof (find_end_ge (skipn (S i) lines) (S i) 1); lia.
Qed.

Lemma span_end_le (lines : list str) (i : nat) :
  (i < length lines)%nat -> (span_end lines i <= length lines)%nat.
Proof.
  intros Hi; unfold span_end.
  pose proof (find_end_le (skipn (S i) lines) (S i) 1) as H.
  rewrite length_skipn in H; lia.
Qed.

(** The reported spans are the long ones among the detected spans. *)
Lemma scan_detect (fuel : nat) (path : str) (lines : list str) (i : nat)
    (ms : list MethodInfo) :
  scan fuel path lines i (filter is_long ms)
  = filter is_long (detect fuel path lines i ms).
Proof.
  revert i ms; induction fuel as [|fuel IH]; intros i ms; simpl; [reflexivity|].
  destruct (nth_error lines i) as [line|]; [|reflexivity].
  destruct (header_name line) as [name|]; [|apply IH].
  rewrite <- IH, filter_snoc; unfold is_long; simpl.
  destruct (_ >? 50); [reflexivity|now rewrite app_nil_r].
Qed.

Lemma analyze_method_sizes_filter (path : str) (lines : list str) :
  analyze_method_sizes path (Some lines)
  = filter is_long (detected_spans path lines).
Proof. exact (scan_detect (length lines) path lines 0 []). Qed.

(** The loop never stops for lack of turns: more of them change nothing. *)
Lemma detect_fuel_irrelevant (f1 f2 : nat) (path : str) (lines : list str)
    (i : nat) (ms : list MethodInfo) :
  (length lines - i <= f1)%nat -> (length lines - i <= f2)%nat ->
  detect f1 path lines i ms = detect f2 path lines i ms.
Proof.
  revert f2 i ms; induction f1 as [|f1 IH]; intros [|f2] i ms H1 H2; simpl;
    try reflexivity;
    destruct (nth_error lines i) as [line|] eqn:E; try reflexivity;
    try (assert (nth_error lines i <> None) as Hn by congruence;
         apply nth_error_Some in Hn; lia).
  pose proof (span_end_gt lines i).
  destruct (header_name line); apply IH; lia.
Qed.

Lemma scan_fuel_irrelevant (f1 f2 : nat) (path : str) (lines : list str)
    (i : nat) (ms : list MethodInfo) :
  (length lines - i <= f1)%nat -> (length lines - i <= f2)%nat ->
  scan f1 path lines i ms = scan f2 path lines i ms.
Proof.
  revert f2 i ms; induction f1 as [|f1 IH]; intros [|f2] i ms H1 H2; simpl;
    try reflexivity;
    destruct (nth_error lines i) as [line|] eqn:E; try reflexivity;
    try (assert (nth_error lines i <> None) as Hn by congruence;
         apply nth_error_Some in Hn; lia).
  pose proof (span_end_gt lines i).
  destruct (header_name line); apply IH; lia.
Qed.

Lemma spans_ok_mono (i j : nat) (ms : list MethodInfo) :
  (i <= j)%nat -> spans_ok i ms -> spans_ok j ms.
Proof.
  intros Hij (Hw & Hs & He); repeat split; try assumption.
  eapply Forall_impl; [|exact He]; simpl; intros; lia.
Qed.

Lemma detect_ok (fuel : nat) (path : str) (lines : list str) (i : nat)
    (ms : list MethodInfo) :
  spans_ok i ms ->
  Forall well_formed (detect fuel path lines i ms)
  /\ StronglySorted before (detect fuel path lines i ms).
Proof.
  revert i ms; induction fuel as [|fuel IH]; intros i ms Hok; simpl.
  - destruct Hok as (Hw & Hs & _); now split.
  - destruct (nth_error lines i) as [line|];
      [|destruct Hok as (Hw & Hs & _); now split].
    destruct (header_name line) as [name|].
    + apply IH. pose proof (span_end_gt lines i) as Hgt.
      destruct Hok as (Hw & Hs & He). repeat split.
      * apply Forall_app; split; [assumption|].
        repeat constructor; unfold well_formed; simpl; lia.
      * apply sorted_snoc; [assumption|].
        eapply Forall_impl; [|exact He]; unfold before; simpl; intros; lia.
      * apply Forall_app; split.
        -- eapply Forall_impl; [|exact He]; simpl; intros; lia.
        -- repeat constructor; simpl; lia.
    + apply IH. eapply spans_ok_mono; [|exact Hok]. lia.
Qed.

(** *** Where a span closes *)








(** Every span the loop records was opened by a header line, and its
    fields are those computed for that line. *)
Lemma detect_spec (fuel : nat) (path : str) (lines : list str) (i : nat)
    (ms : list MethodInfo) (m : MethodInfo) :
  In m (detect fuel path lines i ms) ->
  In m ms
  \/ exists k line,
       nth_error lines k = Some line
       /\ header_name line = Some (method_name m)
       /\ file_path m = path
       /\ start_line m = Z.of_nat k + 1
       /\ end_line m = Z.of_nat (span_end lines k)
       /\ line_count m = end_line m - start_line m + 1.
Proof.
  revert i ms; induction fuel as [|fuel IH]; intros i ms; simpl; [now left|].
  destruct (nth_error lines i) as [line|] eqn:E; [|now left].
  destruct (header_name line) as [name|] eqn:Eh; [|apply IH].
  intros H; apply IH in H as [H|H]; [|now right].
  apply in_app_or in H as [H|[<-|[]]]; [now left|].
  right; exists i, line; simpl; repeat split; assumption.
Qed.

End MethodSpans.

(* ================================================================== *)
(** ** The method scanner of [analyze_project.py] *)

Section ProjectSpans.
Import Py Re Project.

Lemma cursor_ok_keep (i : Z) (c : Cursor) (new : list MethodViolation) :
  cursor_ok i c new -> cursor_ok (i + 1) c (new ++ []).
Proof.
  intros (Hw & Hs & He & Hm); rewrite app_nil_r.
  repeat split; try assumption.
  - eapply Forall_impl; [|exact He]; simpl; intros; lia.
  - destruct (Hm H); lia.
  - now destruct (Hm H).
Qed.

Lemma step_ok (file_path : str) (i : Z) (line : str) (a : Analyzer)
    (c : Cursor) :
  exists add,
    v_methods_over_50 (fst (step file_path i line a c))
    = v_methods_over_50 a ++ add
    /\ v_files_over_500 (fst (step file_path i line a c))
       = v_files_over_500 a
    /\ forall new, cursor_ok i c new ->
                   cursor_ok (i + 1) (snd (step file_path i line a c))
                     (new ++ add).
Proof.
  assert (Hlt : forall new k, Forall (fun v => mv_end_line v < k) new ->
                  Forall (fun v => mv_end_line v < k + 1) new).
  { intros new k He; eapply Forall_impl; [|exact He]; simpl; intros; lia. }
  unfold step.
  destruct (is_skipped line).
  { exists []; simpl; rewrite app_nil_r.
    split; [reflexivity|split; [reflexivity|apply cursor_ok_keep]]. }
  destruct (in_method c) eqn:Ein.
  - (* a line inside a method *)
    match goal with
    | |- context [match re_match method_pattern line with
                  | Some _ => ?x | None => _ end] =>
        replace (match re_match method_pattern line with
                 | Some _ => x | None => x end) with x
          by (destruct (re_match method_pattern line); reflexivity)
    end.
    destruct (brace_count c + _ =? 0).
    + destruct (i - method_start c + 1 >? 50).
      * eexists [_]; simpl.
        split; [reflexivity|split; [reflexivity|]].
        intros new (Hw & Hs & He & Hm). destruct (Hm Ein) as [Hs1 Hb].
        split; [|split; [|split]].
        -- apply Forall_app; split; [assumption|].
           repeat constructor; unfold pv_well_formed; simpl; lia.
        -- apply sorted_snoc; [assumption|].
           eapply Forall_impl; [|exact Hb]; unfold pv_before; simpl;
             intros; lia.
        -- apply Forall_app; split; [now apply Hlt|].
           repeat constructor; simpl; lia.
        -- simpl; discriminate.
      * exists []; simpl; rewrite app_nil_r.
        split; [reflexivity|split; [reflexivity|]].
        intros new (Hw & Hs & He & Hm); rewrite app_nil_r.
        split; [|split; [|split]]; try assumption; [now apply Hlt|].
        simpl; discriminate.
    + exists []; simpl; rewrite app_nil_r.
      split; [reflexivity|split; [reflexivity|]].
      intros new (Hw & Hs & He & Hm); rewrite app_nil_r.
      destruct (Hm Ein) as [Hs1 Hb].
      split; [|split; [|split]]; try assumption; [now apply Hlt|].
      simpl; intros _; split; [lia|assumption].
  - destruct (re_match method_pattern line) as [g|].
    + (* a header *)
      exists []; simpl; rewrite app_nil_r.
      split; [reflexivity|split; [reflexivity|]].
      intros new (Hw & Hs & He & Hm); rewrite app_nil_r.
      split; [|split; [|split]]; try assumption; [now apply Hlt|].
      simpl; intros _; split; [lia|assumption].
    + exists []; simpl; rewrite app_nil_r.
      split; [reflexivity|split; [reflexivity|apply cursor_ok_keep]].
Qed.

Lemma methods_loop_ok (file_path : str) (lines : list str) (i : Z)
    (a : Analyzer) (c : Cursor) (base new : list MethodViolation) :
  v_methods_over_50 a = base ++ new -> cursor_ok i c new ->
  exists new',
    v_methods_over_50 (methods_loop file_path lines i a c) = base ++ new'
    /\ v_files_over_500 (methods_loop file_path lines i a c)
       = v_files_over_500 a
    /\ Forall pv_well_formed new' /\ StronglySorted pv_before new'.
Proof.
  revert i a c new; induction lines as [|line rest IH];
    intros i a c new Ha Hok; simpl.
  - exists new; destruct Hok as (Hw & Hs & _); auto.
  - destruct (step_ok file_path i line a c) as (add & Hadd & Hf & Hstep).
    destruct (step file_path i line a c) as [a' c']; simpl in *.
    destruct (IH (i + 1) a' c' (new ++ add)) as (new' & H1 & H2 & H3).
    + rewrite Hadd, Ha; now rewrite app_assoc.
    + now apply Hstep.
    + exists new'; repeat split; try tauto. congruence.
Qed.

End ProjectSpans.

(* ================================================================== *)
(** ** Properties of the method spans *)

Section SpanClaims.
Import Py Re Methods.




(** The header pattern on some lines. *)
Example header_name_examples :
  header_name (src_line "  Future<void> loadData(String id) async {")
  = Some (lit "loadData")
  /\ header_name (src_line "  @override Widget build(BuildContext c) {")
     = Some (lit "build")
  /\ header_name (src_line "  if (ready) {") = None
  /\ header_name (src_line "  return compute(x);") = None.
Proof. vm_compute. repeat split. Qed.

(** A body opened and closed on the header line: the span of [g] runs on
    over the method after it, to the end of the file. *)
Example one_line_body_runs_on :
  map (fun m => (method_name m, start_line m, end_line m))
    (detected_spans (lit "a.dart")
       [src_line "void g() {}"; src_line "void h() {"; src_line "}"])
  = [(lit "g", 1, 3)].
Proof. vm_compute. reflexivity. Qed.

(** C2 (invariant of the detected spans).  For every file, each span found
    by [analyze_method_sizes], reported or not, ends at or after its start
    line, and of two spans the one listed first ends strictly before the
    other starts, so the ranges are disjoint and listed by increasing start
    line; the same holds of the spans that [analyze_methods] of
    [analyze_project.py] adds for a file. *)
Theorem spans_ordered_and_disjoint :
  forall (path : str) (lines : list str),
    (Forall well_formed (detected_spans path lines)
     /\ StronglySorted before (detected_spans path lines))
    /\ (Forall well_formed (analyze_method_sizes path (Some lines))
        /\ StronglySorted before (analyze_method_sizes path (Some lines)))
    /\ forall (a : Project.Analyzer) (content : str),
         exists new,
           Project.v_methods_over_50
             (Project.analyze_methods a path content lines)
           = Project.v_methods_over_50 a ++ new
           /\ Forall pv_well_formed new /\ StronglySorted pv_before new.
Proof.
  intros path lines.
  assert (Hd : Forall well_formed (detected_spans path lines)
               /\ StronglySorted before (detected_spans path lines)).
  { apply detect_ok; repeat split; constructor. }
  split; [exact Hd|split].
  - rewrite analyze_method_sizes_filter; destruct Hd as [Hw Hs]; split.
    + apply Forall_forall; intros m Hm; apply filter_In in Hm as [Hm _].
      exact (proj1 (Forall_forall _ _) Hw m Hm).
    + now apply sorted_filter.
  - intros a content.
    destruct (methods_loop_ok path lines 1 a
                (Project.mkCursor false None 0 0)
                (Project.v_methods_over_50 a) [])
      as (new & H1 & _ & H2 & H3).
    + now rewrite app_nil_r.
    + repeat split; try constructor; simpl; discriminate.
    + exists new; auto.
Qed.






End SpanClaims.

(* ================================================================== *)
(** ** The impact score and the batch of [analyze_project.py] *)

Section ProjectClaims.
Import Py Re Project.

Lemma get_update {V : Type} (k f : str) (g : option V -> V) (d : dict V) :
  get (update k g d) f
  = if str_eqb f k then Some (g (get d k)) else get d f.
Proof.
  induction d as [|[k' v] d IH]; simpl.
  - destruct (str_eqb f k); reflexivity.
  - destruct (str_eqb k k') eqn:Ek; simpl.
    + apply str_eqb_eq in Ek; subst k'.
      destruct (str_eqb f k); reflexivity.
    + rewrite IH. destruct (str_eqb f k) eqn:Ef; [|reflexivity].
      apply str_eqb_eq in Ef; subst f. now rewrite Ek.
Qed.

Lemma score_add_file (vs : list FileViolation) (d : dict FileScore) (f : str) :
  Forall (fun v => fv_excess v = fv_lines v - 500) vs ->
  score (or_default (get (fold_left add_file vs d) f))
  = score (or_default (get d f)) + file_total f vs.
Proof.
  revert d; induction vs as [|v vs IH]; intros d Hv; simpl; [lia|].
  inversion Hv as [|? ? Hx Hr]; subst.
  rewrite IH by assumption. unfold add_file at 1. rewrite get_update.
  destruct (str_eqb f (fv_file v)) eqn:E; simpl; [|lia].
  apply str_eqb_eq in E; subst f. unfold file_points; rewrite Hx; lia.
Qed.

Lemma score_add_method (vs : list MethodViolation) (d : dict FileScore)
    (f : str) :
  score (or_default (get (fold_left add_method vs d) f))
  = score (or_default (get d f)) + method_total f vs.
Proof.
  revert d; induction vs as [|v vs IH]; intros d; simpl; [lia|].
  rewrite IH. unfold add_method at 1. rewrite get_update.
  destruct (str_eqb f (mv_file v)) eqn:E; simpl; [|lia].
  apply str_eqb_eq in E; subst f. unfold method_points; lia.
Qed.

Lemma step_long (file_path : str) (i : Z) (line : str) (a : Analyzer)
    (c : Cursor) :
  Forall (fun v => 50 < mv_lines v) (v_methods_over_50 a) ->
  Forall (fun v => 50 < mv_lines v)
    (v_methods_over_50 (fst (step file_path i line a c))).
Proof.
  intros H; unfold step.
  destruct (is_skipped line); [assumption|].
  destruct (re_match method_pattern line), (in_method c); try assumption.
  all: destruct (brace_count c + _ =? 0); try assumption.
  all: destruct (i - method_start c + 1 >? 50) eqn:E; try assumption.
  all: simpl; apply Forall_app; split; [assumption|].
  all: repeat constructor; simpl; lia.
Qed.

Lemma methods_loop_long (file_path : str) (lines : list str) (i : Z)
    (a : Analyzer) (c : Cursor) :
  Forall (fun v => 50 < mv_lines v) (v_methods_over_50 a) ->
  Forall (fun v => 50 < mv_lines v)
    (v_methods_over_50 (methods_loop file_path lines i a c)).
Proof.
  revert i a c; induction lines as [|line rest IH]; intros i a c H; simpl;
    [assumption|].
  pose proof (step_long file_path i line a c H) as Hs.
  destruct (step file_path i line a c) as [a' c']; now apply IH.
Qed.

Lemma recorded_ok_weaken (files files' : list (str * option str))
    (a : Analyzer) :
  (forall x, In x files -> In x files') ->
  recorded_ok files a -> recorded_ok files' a.
Proof.
  intros Hsub [Hf Hm]; split; [|assumption].
  eapply Forall_impl; [|exact Hf]; simpl.
  intros v (H1 & H2 & content & H3 & H4); repeat split; try assumption.
  exists content; auto.
Qed.

Lemma analyze_file_ok (files : list (str * option str)) (a a' : Analyzer)
    (p : str) (read : option str) :
  recorded_ok files a -> analyze_file a p read = Some a' ->
  recorded_ok ((p, read) :: files) a'.
Proof.
  intros Hok; unfold analyze_file.
  destruct (is_excluded p).
  { intros [= <-]. eapply recorded_ok_weaken; [|exact Hok]; simpl; auto. }
  destruct read as [content|]; [|discriminate]. intros [= <-].
  apply (recorded_ok_weaken files ((p, Some content) :: files)) in Hok;
    [|simpl; auto].
  destruct Hok as [Hf Hm]. unfold analyze_methods.
  set (start := if _ >? 500 then _ else _).
  assert (Hf' : Forall (fun v => fv_excess v = fv_lines v - 500
                   /\ 500 < fv_lines v
                   /\ exists c0, In (fv_file v, Some c0)
                                    ((p, Some content) :: files)
                        /\ fv_lines v = Z.of_nat (length (split_nl c0)))
                  (v_files_over_500 start)
                /\ Forall (fun v => 50 < mv_lines v)
                     (v_methods_over_50 start)).
  { subst start. destruct (_ >? 500) eqn:E; simpl; split; try assumption.
    apply Forall_app; split; [assumption|].
    repeat constructor; simpl; try lia.
    exists content; split; [now left|reflexivity]. }
  destruct Hf' as [Hf' Hm']. split.
  - destruct (methods_loop_ok p (split_nl content) 1 start
                (mkCursor false None 0 0) (v_methods_over_50 start) [])
      as (new & _ & Hsame & _).
    + now rewrite app_nil_r.
    + repeat split; try constructor; simpl; discriminate.
    + rewrite Hsame; exact Hf'.
  - now apply methods_loop_long.
Qed.

Lemma analyze_files_ok (files done : list (str * option str))
    (a a' : Analyzer) :
  recorded_ok done a -> analyze_files a files = Some a' ->
  recorded_ok (rev files ++ done) a'.
Proof.
  revert done a; induction files as [|[p read] files IH]; intros done a Hok;
    simpl.
  - now intros [= <-].
  - destruct (analyze_file a p read) as [a1|] eqn:E; [|discriminate].
    intros H. rewrite <- app_assoc; simpl.
    eapply IH; [|exact H]. eapply analyze_file_ok; eassumption.
Qed.

(** C6 (impact score).  After a run of [analyze_project], the score of a
    file is the sum of floor((lines - 500) / 100) * 10 over its entries
    among the oversized files, plus the sum of floor((lines - 50) / 10)
    over its entries among the oversized methods; an entry exists only for
    a file of more than 500 lines (its [lines] is the number of lines of
    the text read) and for a method of more than 50 lines.  650 lines give
    10 points, a method of 75 lines gives 2. *)
Theorem impact_score_formula :
  forall (lib test : list (str * option str)) (a : Analyzer) (f : str),
    analyze_project lib test = Some a ->
    score_of a f
    = file_total f (v_files_over_500 a)
      + method_total f (v_methods_over_50 a)
    /\ Forall (fun v => 500 < fv_lines v
                        /\ exists content,
                             In (fv_file v, Some content) (lib ++ test)
                             /\ fv_lines v
                                = Z.of_nat (length (split_nl content)))
         (v_files_over_500 a)
    /\ Forall (fun v => 50 < mv_lines v) (v_methods_over_50 a)
    /\ file_points 650 = 10 /\ method_points 75 = 2.
Proof.
  intros lib test a f H. unfold analyze_project in H.
  destruct (analyze_files init lib) as [a1|] eqn:E1; [|discriminate].
  apply (analyze_files_ok lib []) in E1;
    [|split; constructor].
  apply (analyze_files_ok test _ _ _ E1) in H.
  apply (recorded_ok_weaken _ (lib ++ test)) in H.
  2:{ intros x Hx. rewrite app_nil_r in Hx.
      apply in_app_or in Hx as [Hx|Hx]; apply in_rev in Hx;
        apply in_or_app; auto. }
  destruct H as [Hf Hm].
  split; [|split; [|split; [assumption|split; reflexivity]]].
  - unfold score_of, file_scores.
    rewrite score_add_method, score_add_file; [simpl; lia|].
    eapply Forall_impl; [|exact Hf]; simpl; tauto.
  - eapply Forall_impl; [|exact Hf]; simpl; tauto.
Qed.

Lemma impact_score_formula_witness :
  exists a,
    analyze_project [(lit "lib/big.dart", Some big_file)] [] = Some a
    /\ score_of a (lit "lib/big.dart") = 12.
Proof.
  destruct (analyze_project [(lit "lib/big.dart", Some big_file)] [])
    as [a|] eqn:E; [|vm_compute in E; discriminate].
  exists a; split; [reflexivity|].
  destruct (impact_score_formula _ _ a (lit "lib/big.dart") E) as [-> _].
  vm_compute in E. injection E as <-. reflexivity.
Defined.

(** A file that is not excluded and cannot be read ends the run of
    [analyze_project.py], wherever it stands in the batch. *)
Lemma unreadable_file_is_fatal (files : list (str * option str))
    (a : Analyzer) (p : str) :
  In (p, None) files -> is_excluded p = false ->
  analyze_files a files = None.
Proof.
  revert a; induction files as [|[q r] files IH]; intros a Hin Hex;
    [contradiction|].
  simpl. destruct Hin as [[= -> ->]|Hin].
  - unfold analyze_file; now rewrite Hex.
  - destruct (analyze_file a q r); [now apply IH|reflexivity].
Qed.

(** C7 (the code at the failing input).  In [analyze_project.py] the file
    is opened outside any handler: a batch whose first file cannot be read
    gives no result at all, although its second file alone is analysed
    without error.  [analyze_method_sizes] of [analyze_methods.py], fed the
    same batch, passes over the unreadable file and still reports on the
    other. *)
Lemma unreadable_file_aborts_the_run :
  analyze_project [(lit "lib/a.dart", None);
                   (lit "lib/big.dart", Some big_file)] [] = None
  /\ option_map total_files
       (analyze_project [(lit "lib/big.dart", Some big_file)] []) = Some 1
  /\ Methods.all_methods
       [(lit "lib/a.dart", None);
        (lit "lib/b.dart", Some file_plain)]
     = Methods.all_methods [(lit "lib/b.dart", Some file_plain)]
  /\ Methods.all_methods [(lit "lib/b.dart", Some file_plain)]
     <> [].
Proof. vm_compute. repeat split; discriminate. Qed.

End ProjectClaims.

(* ================================================================== *)
(** ** Facts on the matcher *)

Section MatcherFacts.
Import Py Re.

Lemma lastc_app (prev : option ascii) (a b : str) :
  lastc prev (a ++ b) = lastc (lastc prev a) b.
Proof. apply fold_left_app. Qed.

Lemma lastc_all (p : ascii -> bool) (c : ascii) (s : str) :
  p c = true -> forallb p s = true ->
  exists c', lastc (Some c) s = Some c' /\ p c' = true.
Proof.
  revert c; induction s as [|x s IH]; intros c Hc Hs; simpl.
  - now exists c.
  - apply andb_true_iff in Hs as [Hx Hs]. now apply IH.
Qed.

Section Inversion.
Context {R : Type}.

Lemma star_inv (p : ascii -> bool) (prev : option ascii) (s : str)
    (k : option ascii -> str -> option R) (x : R) :
  star p prev s k = Some x ->
  exists s1 s2, s = s1 ++ s2 /\ forallb p s1 = true
                /\ k (lastc prev s1) s2 = Some x.
Proof.
  revert prev; induction s as [|c s IH]; intros prev; simpl.
  - intros H; now exists [], [].
  - destruct (p c) eqn:Ep; [|intros H; now exists [], (c :: s)].
    destruct (star p (Some c) s k) as [r|] eqn:Es.
    + intros [= ->]. apply IH in Es as (s1 & s2 & -> & Hp & Hk).
      exists (c :: s1), s2; simpl; rewrite Ep; auto.
    + intros H; now exists [], (c :: s).
Qed.

Lemma run_lit (l : str) (prev : option ascii) (s : str) (g : list str)
    (k : @cont R) :
  run (Lit l) prev (l ++ s) g k = k (lastc prev l) s g.
Proof.
  revert prev; induction l as [|c l IH]; intros prev; simpl; [reflexivity|].
  now rewrite Ascii.eqb_refl, IH.
Qed.

Lemma run_lit_inv (l : str) (prev : option ascii) (s : str) (g : list str)
    (k : @cont R) (x : R) :
  run (Lit l) prev s g k = Some x ->
  exists s2, s = l ++ s2 /\ k (lastc prev l) s2 g = Some x.
Proof.
  revert prev s; induction l as [|c l IH]; intros prev s; simpl.
  - intros H; now exists s.
  - destruct s as [|y s]; [discriminate|].
    destruct (Ascii.eqb y c) eqn:E; [|discriminate].
    apply Ascii.eqb_eq in E; subst y.
    intros H; apply IH in H as (s2 & -> & Hk). now exists s2.
Qed.

Lemma run_plus_inv (p : ascii -> bool) (prev : option ascii) (s : str)
    (g : list str) (k : @cont R) (x : R) :
  run (Plus p) prev s g k = Some x ->
  exists c s1 s2, s = c :: s1 ++ s2 /\ p c = true /\ forallb p s1 = true
                  /\ k (lastc (Some c) s1) s2 g = Some x.
Proof.
  simpl. destruct s as [|c s]; [discriminate|].
  destruct (p c) eqn:Ep; [|discriminate].
  intros H; apply star_inv in H as (s1 & s2 & -> & Hp & Hk).
  now exists c, s1, s2.
Qed.

End Inversion.

Lemma space_not_word (c : ascii) : isspace c = true -> is_word c = false.
Proof.
  destruct c as [[] [] [] [] [] [] [] []]; vm_compute; congruence.
Qed.

Lemma firstn_consumed (s1 s2 : str) :
  firstn (length (s1 ++ s2) - length s2) (s1 ++ s2) = s1.
Proof.
  rewrite length_app, Nat.add_sub, firstn_app, Nat.sub_diag, firstn_all.
  simpl; apply app_nil_r.
Qed.

(** Every match that [finditer] returns was found at some position. *)
Lemma finditer_from_inv (r : re) (prev : option ascii) (s : str)
    (skip : nat) (m : str * list str) :
  In m (finditer_from r prev s skip) ->
  exists a s' rest,
    s = a ++ s' /\ match_at r (lastc prev a) s' = Some (rest, snd m).
Proof.
  revert prev skip; induction s as [|c s IH]; intros prev skip; simpl.
  - destruct skip; [|easy].
    destruct (match_at r prev []) as [[rest g]|] eqn:E; [|easy].
    intros [<-|[]]. now exists [], [], rest.
  - assert (Hrec : forall n, In m (finditer_from r (Some c) s n) ->
               exists a s' rest, c :: s = a ++ s'
                 /\ match_at r (lastc prev a) s' = Some (rest, snd m)).
    { intros n H; apply IH in H as (a & s' & rest & -> & Hm).
      now exists (c :: a), s', rest. }
    destruct skip as [|n]; [|apply Hrec].
    destruct (match_at r prev (c :: s)) as [[rest g]|] eqn:E; [|apply Hrec].
    intros [<-|H]; [|eapply Hrec; eassumption].
    now exists [], (c :: s), rest.
Qed.

(** A match at some position makes [re.search] succeed. *)
Lemma search_from_app (r : re) (prev : option ascii) (a s : str) :
  match_at r (lastc prev a) s <> None ->
  search_from r prev (a ++ s) = true.
Proof.
  revert prev; induction a as [|c a IH]; intros prev H; simpl in *.
  - destruct s; simpl; destruct (match_at r prev _); congruence.
  - destruct (match_at r prev (c :: a ++ s)); [reflexivity|now apply IH].
Qed.

End MatcherFacts.

(* ================================================================== *)
(** ** The symbol index of [analyze_dead_code.py] *)

Section SymbolIndex.
Import Py Re DeadCode.

Lemma run_seq {R : Type} (a b : re) (prev : option ascii) (s : str)
    (g : list str) (k : @cont R) :
  run (Seq a b) prev s g k
  = run a prev s g (fun pv s' g' => run b pv s' g' k).
Proof. reflexivity. Qed.

Lemma run_alt_inv {R : Type} (a b : re) (prev : option ascii) (s : str)
    (g : list str) (k : @cont R) (x : R) :
  run (Alt a b) prev s g k = Some x ->
  run a prev s g k = Some x \/ run b prev s g k = Some x.
Proof. simpl; destruct (run a prev s g k); auto. Qed.

(** What may follow the class name: the match goes on with a blank or an
    opening brace, so not with a word character, and no group is set. *)
Lemma class_tail_inv (prev : option ascii) (s : str) (g g' : list str)
    (rest : str) :
  run (Alts [ Seq (Plus isspace) (Lit (lit "extends"));
              Seq (Plus isspace) (Lit (lit "implements"));
              Seq (Plus isspace) (Lit (lit "with"));
              Seq (Star isspace) (Chr "{") ]) prev s g accept
  = Some (rest, g') ->
  g' = g /\ is_word_opt (hd_error s) = false.
Proof.
  assert (Hkw : forall kw,
             run (Seq (Plus isspace) (Lit kw)) prev s g accept
             = Some (rest, g') ->
             g' = g /\ is_word_opt (hd_error s) = false).
  { intros kw H. rewrite run_seq in H.
    apply run_plus_inv in H as (w & ws & s2 & -> & Hw & _ & H).
    apply run_lit_inv in H as (s3 & -> & H).
    unfold accept in H; injection H as _ <-.
    split; [reflexivity|simpl; now apply space_not_word]. }
  unfold Alts. intros H.
  apply run_alt_inv in H as [H|H]; [eapply Hkw; eassumption|].
  apply run_alt_inv in H as [H|H]; [eapply Hkw; eassumption|].
  apply run_alt_inv in H as [H|H]; [eapply Hkw; eassumption|].
  rewrite run_seq in H. simpl run in H.
  apply star_inv in H as (s1 & s2 & -> & Hs1 & H).
  destruct s2 as [|c s2]; [discriminate|].
  destruct (Ascii.eqb c "{") eqn:Ec; [|discriminate].
  injection H as _ <-. split; [reflexivity|].
  destruct s1 as [|x s1]; simpl.
  - apply Ascii.eqb_eq in Ec; subst c; reflexivity.
  - simpl in Hs1; apply andb_true_iff in Hs1 as [Hx _].
    now apply space_not_word.
Qed.

(** The shape of the text at a match of [class_pattern]. *)
Lemma class_match_shape (prev : option ascii) (s rest : str)
    (g : list str) :
  match_at class_pattern prev s = Some (rest, g) ->
  exists w ws c1 ws2 s5,
    s = lit "class" ++ w :: ws ++ (c1 :: ws2) ++ s5
    /\ isspace w = true /\ forallb isspace ws = true
    /\ is_word c1 = true /\ forallb is_word ws2 = true
    /\ g = [c1 :: ws2]
    /\ is_word_opt (hd_error s5) = false.
Proof.
  unfold match_at, class_pattern. intros H.
  rewrite run_seq in H. apply run_lit_inv in H as (s1 & -> & H).
  rewrite run_seq in H.
  apply run_plus_inv in H as (w & ws & s2 & -> & Hw & Hws & H).
  rewrite run_seq in H. change (run (Grp ?a) ?p ?s ?g ?k)
    with (run a p s g (fun pv s' g' =>
            k pv s' (g' ++ [firstn (length s - length s') s]))) in H.
  apply run_plus_inv in H as (c1 & ws2 & s5 & -> & Hc & Hws2 & H).
  change (c1 :: ws2 ++ s5) with ((c1 :: ws2) ++ s5) in H.
  rewrite firstn_consumed in H.
  apply class_tail_inv in H as [-> Hhd].
  exists w, ws, c1, ws2, s5. repeat split; assumption.
Qed.

(** The name of a class declared in a text is found in that text as a
    whole word. *)
Lemma class_name_is_used (content name : str) :
  In name (groups1 class_pattern content) ->
  re_search (usage_pattern name) content = true.
Proof.
  unfold groups1, finditer. intros H.
  apply in_map_iff in H as (m & Hname & Hm).
  apply finditer_from_inv in Hm as (a & s & rest & -> & Hm).
  apply class_match_shape in Hm
    as (w & ws & c1 & ws2 & s5 & -> & Hw & Hws & Hc & Hws2 & Hg & Hhd).
  destruct m as [whole gs]; simpl in Hname, Hg; subst gs name; simpl nth.
  unfold re_search.
  replace (a ++ lit "class" ++ w :: ws ++ (c1 :: ws2) ++ s5)
    with ((a ++ lit "class" ++ w :: ws) ++ (c1 :: ws2) ++ s5)
    by (rewrite <- !app_assoc; reflexivity).
  apply search_from_app.
  rewrite app_assoc, lastc_app.
  change (lastc ?p (w :: ws)) with (lastc (Some w) ws).
  destruct (lastc_all isspace w ws Hw Hws) as (w' & Hl & Hw').
  destruct (lastc_all is_word c1 ws2 Hc Hws2) as (c' & Hl' & Hc').
  unfold match_at, usage_pattern.
  rewrite run_seq. simpl run at 1.
  rewrite Hl; simpl is_word_opt.
  rewrite (space_not_word _ Hw'), Hc, Ascii.eqb_refl; simpl xorb; cbv iota.
  rewrite run_lit, Hl'; simpl.
  rewrite Hc', Hhd; simpl. discriminate.
Qed.

End SymbolIndex.

(* ================================================================== *)
(** ** Stable sorting *)

Section SortFacts.
Import Py.
Context {A : Type} (key : A -> Z).

Lemma insert_asc_perm (x : A) (l : list A) :
  Permutation (insert_asc key x l) (x :: l).
Proof.
  induction l as [|y l IH]; simpl; [reflexivity|].
  destruct (key x <=? key y); [reflexivity|].
  rewrite IH; apply perm_swap.
Qed.

Lemma sorted_asc_perm (l : list A) : Permutation (sorted_asc key l) l.
Proof.
  induction l as [|x l IH]; simpl; [reflexivity|].
  rewrite insert_asc_perm; now constructor.
Qed.

Lemma insert_desc_perm (x : A) (l : list A) :
  Permutation (insert_desc key x l) (x :: l).
Proof.
  induction l as [|y l IH]; simpl; [reflexivity|].
  destruct (key y <=? key x); [reflexivity|].
  rewrite IH; apply perm_swap.
Qed.

Lemma sorted_desc_perm (l : list A) : Permutation (sorted_desc key l) l.
Proof.
  induction l as [|x l IH]; simpl; [reflexivity|].
  rewrite insert_desc_perm; now constructor.
Qed.

Lemma insert_desc_sorted (x : A) (l : list A) :
  StronglySorted (descending key) l ->
  StronglySorted (descending key) (insert_desc key x l).
Proof.
  induction 1 as [|y l Hs IH Hy]; simpl; [repeat constructor|].
  destruct (key y <=? key x) eqn:E.
  - constructor; [now constructor|].
    constructor; [unfold descending; lia|].
    eapply Forall_impl; [|exact Hy]; unfold descending; intros; lia.
  - constructor; [assumption|].
    apply Forall_forall; intros z Hz.
    apply (Permutation_in _ (insert_desc_perm x l)) in Hz as [<-|Hz].
    + unfold descending; lia.
    + exact (proj1 (Forall_forall _ _) Hy z Hz).
Qed.

Lemma sorted_desc_sorted (l : list A) :
  StronglySorted (descending key) (sorted_desc key l).
Proof.
  induction l as [|x l IH]; simpl; [constructor|].
  now apply insert_desc_sorted.
Qed.

Lemma firstn_In (n : nat) (l : list A) (x : A) :
  In x (firstn n l) -> In x l.
Proof.
  intros H. rewrite <- (firstn_skipn n l). apply in_or_app; now left.
Qed.

Lemma firstn_sorted (R : A -> A -> Prop) (n : nat) (l : list A) :
  StronglySorted R l -> StronglySorted R (firstn n l).
Proof.
  intros H; revert n; induction H as [|y l Hs IH Hy]; intros [|n]; simpl;
    try constructor; [apply IH|].
  apply Forall_forall; intros z Hz.
  apply (proj1 (Forall_forall _ _) Hy). eapply firstn_In; eassumption.
Qed.

End SortFacts.

(* ================================================================== *)
(** ** Stability of the sorts, and what a cut keeps *)

Section Stability.
Import Py.
Context {A : Type} (key : A -> Z).

Lemma insert_desc_with_key (k : Z) (x : A) (l : list A) :
  with_key key k (insert_desc key x l) = with_key key k (x :: l).
Proof.
  unfold with_key. induction l as [|y l IH]; simpl; [reflexivity|].
  destruct (key y <=? key x) eqn:E; simpl; [reflexivity|].
  rewrite IH; simpl.
  destruct (key x =? k) eqn:Ex; [|reflexivity].
  destruct (key y =? k) eqn:Ey; [|reflexivity]. lia.
Qed.

Lemma sorted_desc_with_key (k : Z) (l : list A) :
  with_key key k (sorted_desc key l) = with_key key k l.
Proof.
  induction l as [|x l IH]; simpl; [reflexivity|].
  rewrite insert_desc_with_key. unfold with_key in *; simpl.
  now rewrite IH.
Qed.

Lemma insert_asc_with_key (k : Z) (x : A) (l : list A) :
  with_key key k (insert_asc key x l) = with_key key k (x :: l).
Proof.
  unfold with_key. induction l as [|y l IH]; simpl; [reflexivity|].
  destruct (key x <=? key y) eqn:E; simpl; [reflexivity|].
  rewrite IH; simpl.
  destruct (key x =? k) eqn:Ex; [|reflexivity].
  destruct (key y =? k) eqn:Ey; [|reflexivity]. lia.
Qed.

Lemma sorted_asc_with_key (k : Z) (l : list A) :
  with_key key k (sorted_asc key l) = with_key key k l.
Proof.
  induction l as [|x l IH]; simpl; [reflexivity|].
  rewrite insert_asc_with_key. unfold with_key in *; simpl.
  now rewrite IH.
Qed.

(** What a cut after [n] entries of a descending sort keeps: entries of
    the list, in descending order, none smaller than an entry left out. *)
Lemma top_n (n : nat) (l : list A) :
  let out := firstn n (sorted_desc key l) in
  let cut := skipn n (sorted_desc key l) in
  StronglySorted (descending key) out
  /\ Permutation (out ++ cut) l
  /\ length out = Nat.min n (length l)
  /\ (forall x y, In x out -> In y cut -> key y <= key x)
  /\ (forall k, with_key key k (out ++ cut) = with_key key k l).
Proof.
  intros out cut. subst out cut.
  pose proof (sorted_desc_sorted key l) as Hs.
  pose proof (sorted_desc_perm key l) as Hp.
  rewrite firstn_skipn.
  split; [now apply firstn_sorted|split; [assumption|split; [|split]]].
  - rewrite length_firstn. now rewrite (Permutation_length Hp).
  - rewrite <- (firstn_skipn n (sorted_desc key l)) in Hs.
    revert Hs. generalize (firstn n (sorted_desc key l)) as o.
    generalize (skipn n (sorted_desc key l)) as c.
    intros c o; induction o as [|z o IH]; intros Hs x y Hx Hy; [easy|].
    simpl in Hs; inversion Hs as [|? ? Hs' Hf]; subst.
    destruct Hx as [->|Hx]; [|now apply (IH Hs')].
    apply (proj1 (Forall_forall _ _) Hf). apply in_or_app; now right.
  - intros k; apply sorted_desc_with_key.
Qed.

Lemma top_of_sorted (n : nat) (l : list A) :
  top_of key n l (firstn n (sorted_desc key l)).
Proof.
  exists (skipn n (sorted_desc key l)). apply (top_n n l).
Qed.

End Stability.

(* ================================================================== *)
(** ** Dead symbols and dead files *)

Section DeadCodeClaims.
Import Py Re DeadCode.

Lemma fold_import_classes (f : str) (l : list str) (a : Analyzer) :
  class_definitions (fold_left (add_import f) l a) = class_definitions a
  /\ class_usages (fold_left (add_import f) l a) = class_usages a.
Proof.
  revert a; induction l as [|x l IH]; intros a; simpl; [auto|].
  destruct (IH (add_import f a x)) as [-> ->].
  unfold add_import; destruct (_ && _); auto.
Qed.

Lemma fold_export_classes (f : str) (l : list str) (a : Analyzer) :
  class_definitions (fold_left (add_export f) l a) = class_definitions a
  /\ class_usages (fold_left (add_export f) l a) = class_usages a.
Proof.
  revert a; induction l as [|x l IH]; intros a; simpl; [auto|].
  destruct (IH (add_export f a x)) as [-> ->]; auto.
Qed.

Lemma fold_class_classes (f : str) (l : list str) (a : Analyzer) :
  class_definitions (fold_left (add_class f) l a)
  = fold_left (define f) l (class_definitions a)
  /\ class_usages (fold_left (add_class f) l a) = class_usages a.
Proof.
  revert a; induction l as [|x l IH]; intros a; simpl; [auto|].
  destruct (IH (add_class f a x)) as [-> ->]; auto.
Qed.

(** The class index after one readable file. *)
Lemma analyze_one_classes (read : str -> option str) (a : Analyzer)
    (f content : str) :
  read f = Some content ->
  let defs := fold_left (define f) (groups1 class_pattern content)
                (class_definitions a) in
  class_definitions (analyze_one read a f) = defs
  /\ class_usages (analyze_one read a f)
     = fold_left (add_usage content) (keys defs) (class_usages a).
Proof.
  intros Hr; unfold analyze_one; rewrite Hr; simpl.
  destruct (fold_class_classes f (groups1 class_pattern content)
              (fold_left (add_export f) (groups1 export_pattern content)
                 (fold_left (add_import f)
                    (groups1 import_pattern content) a))) as [-> ->].
  destruct (fold_export_classes f (groups1 export_pattern content)
              (fold_left (add_import f)
                 (groups1 import_pattern content) a)) as [-> ->].
  destruct (fold_import_classes f (groups1 import_pattern content) a)
    as [-> ->].
  auto.
Qed.

Lemma add_usage_quiet (content : str) (ks : list str) (u : dict Z) :
  (forall k, In k ks -> re_search (usage_pattern k) content = false) ->
  fold_left (add_usage content) ks u = u.
Proof.
  revert u; induction ks as [|k ks IH]; intros u H; simpl; [reflexivity|].
  unfold add_usage at 2. rewrite (H k) by (now left).
  apply IH; intros; apply H; now right.
Qed.

(** Files that declare no class and name none of the known classes leave
    the class index as it is. *)
Lemma quiet_files (read : str -> option str) (fs : list str) (a : Analyzer) :
  (forall g c, In g fs -> read g = Some c ->
     groups1 class_pattern c = []
     /\ forall k, In k (keys (class_definitions a)) ->
                  re_search (usage_pattern k) c = false) ->
  class_definitions (fold_left (analyze_one read) fs a) = class_definitions a
  /\ class_usages (fold_left (analyze_one read) fs a) = class_usages a.
Proof.
  revert a; induction fs as [|f fs IH]; intros a H; simpl; [auto|].
  assert (Hone : class_definitions (analyze_one read a f)
                 = class_definitions a
                 /\ class_usages (analyze_one read a f) = class_usages a).
  { destruct (read f) as [c|] eqn:Hr.
    - destruct (H f c (or_introl eq_refl) Hr) as [Hg Hk].
      destruct (analyze_one_classes read a f c Hr) as [-> ->].
      rewrite Hg; simpl. split; [reflexivity|].
      now apply add_usage_quiet.
    - unfold analyze_one; rewrite Hr; auto. }
  destruct Hone as [Hd Hu].
  rewrite <- Hd, <- Hu. apply IH.
  intros g c Hg Hr; rewrite Hd. apply (H g c); [now right|assumption].
Qed.

(** C3 (a class declared once and named nowhere else).  In a corpus where
    one readable file declares exactly one class and no other file declares
    a class or holds a whole-word occurrence of its name, the usage count
    of the class is exactly 1 and the class is the one dead-symbol
    candidate.  In any state of the index, every declared class whose usage
    count is at most 1 is among the candidates. *)
Theorem lone_class_is_dead_candidate :
  forall (read : str -> option str) (lib test before after : list str)
         (file content name : str),
    lib ++ test = before ++ file :: after ->
    read file = Some content ->
    groups1 class_pattern content = [name] ->
    (forall g c, In g (before ++ after) -> read g = Some c ->
       groups1 class_pattern c = []
       /\ re_search (usage_pattern name) c = false) ->
    let a := analyze_imports_exports read (scanned lib test) in
    usage_count a name = 1
    /\ class_definitions a = [(name, [file])]
    /\ find_unused_classes a = [mkUnusedClass name [file] 1]
    /\ forall (a' : Analyzer) (cls : str) (files : list str),
         In (cls, files) (class_definitions a') ->
         usage_count a' cls <= 1 ->
         In (mkUnusedClass cls files (usage_count a' cls))
            (find_unused_classes a').
Proof.
  intros read lib test before after file content name Hall Hr Hg Hq a.
  assert (Hstate : class_definitions a = [(name, [file])]
                   /\ class_usages a = [(name, 1)]).
  { subst a; unfold analyze_imports_exports; simpl lib_files;
      simpl test_files.
    rewrite Hall, fold_left_app; simpl fold_left.
    set (a0 := fold_left (analyze_one read) before (scanned lib test)).
    assert (H0 : class_definitions a0 = [] /\ class_usages a0 = []).
    { apply (quiet_files read before (scanned lib test)).
      intros g c Hin Hrg; split; [|intros k []].
      apply (Hq g c); [apply in_or_app; now left|assumption]. }
    destruct H0 as [Hd0 Hu0].
    destruct (analyze_one_classes read a0 file content Hr) as [Hd1 Hu1].
    rewrite Hg, Hd0 in Hd1. rewrite Hg, Hd0, Hu0 in Hu1.
    change (class_definitions (analyze_one read a0 file) = [(name, [file])])
      in Hd1.
    change (class_usages (analyze_one read a0 file)
            = add_usage content [] name) in Hu1.
    unfold add_usage in Hu1.
    rewrite class_name_is_used in Hu1 by (rewrite Hg; now left).
    change (class_usages (analyze_one read a0 file) = [(name, 1)]) in Hu1.
    rewrite <- Hd1, <- Hu1. apply quiet_files.
    intros g c Hin Hrg; split.
    - apply (Hq g c); [apply in_or_app; now right|assumption].
    - rewrite Hd1; intros k [<-|[]].
      apply (Hq g c); [apply in_or_app; now right|assumption]. }
  destruct Hstate as [Hd Hu].
  assert (Hcount : usage_count a name = 1).
  { unfold usage_count; rewrite Hu; simpl; now rewrite str_eqb_refl. }
  split; [assumption|split; [assumption|split]].
  - unfold find_unused_classes, unused_classes; rewrite Hd; simpl.
    rewrite Hcount; reflexivity.
  - intros a' cls files Hin Hle.
    unfold find_unused_classes.
    apply (Permutation_in _
             (Permutation_sym (sorted_asc_perm uc_usage_count _))).
    unfold unused_classes; apply in_flat_map.
    exists (cls, files); split; [assumption|]; simpl.
    replace (usage_count a' cls <=? 1) with true by (symmetry; lia).
    now left.
Qed.

Lemma lone_class_is_dead_candidate_witness :
  find_unused_classes
    (analyze_imports_exports (disk lone_class)
       (scanned [lit "lib/a.dart"; lit "lib/foo.dart"; lit "lib/b.dart"] []))
  = [mkUnusedClass (lit "Foo") [lit "lib/foo.dart"] 1].
Proof.
  apply (lone_class_is_dead_candidate (disk lone_class)
           [lit "lib/a.dart"; lit "lib/foo.dart"; lit "lib/b.dart"] []
           [lit "lib/a.dart"] [lit "lib/b.dart"]
           (lit "lib/foo.dart") (lit "class Foo {}") (lit "Foo")).
  - reflexivity.
  - reflexivity.
  - reflexivity.
  - intros g c [<-|[<-|[]]] H; vm_compute in H; injection H as <-;
      vm_compute; auto.
Defined.

(** C8 (the code at the failing input).  The two files of [used_class] are
    indexed in both orders.  When the file that uses [Foo] comes first, the
    class is not yet known when that file is searched: its usage count ends
    at 1 and it is reported as a dead symbol.  In the other order the count
    is 2 and nothing is reported. *)
Lemma usage_count_depends_on_order :
  let user_first :=
    analyze_imports_exports (disk used_class)
      (scanned [lit "lib/user.dart"; lit "lib/def.dart"] []) in
  let def_first :=
    analyze_imports_exports (disk used_class)
      (scanned [lit "lib/def.dart"; lit "lib/user.dart"] []) in
  usage_count user_first (lit "Foo") = 1
  /\ usage_count def_first (lit "Foo") = 2
  /\ find_unused_classes user_first
     = [mkUnusedClass (lit "Foo") [lit "lib/def.dart"] 1]
  /\ find_unused_classes def_first = [].
Proof. vm_compute. repeat split. Qed.

End DeadCodeClaims.

(* ================================================================== *)
(** ** Dead files *)

Section DeadFileClaims.
Import Py Re DeadCode.

Lemma replace_chr_absent (a b : ascii) (s : str) :
  ~ In a s -> replace_chr a b s = s.
Proof.
  unfold replace_chr. induction s as [|c s IH]; intros Hn; simpl;
    [reflexivity|].
  destruct (Ascii.eqb c a) eqn:E.
  - apply Ascii.eqb_eq in E; subst c. exfalso; apply Hn; now left.
  - rewrite IH; [reflexivity|]. intros H; apply Hn; now right.
Qed.

(** What [find_unused_files] keeps, with the tests of the code itself: a
    library file that none of the four tests on its path passes over is
    reported exactly when no recorded import string holds its basename
    or its relative path (backslashes written as slashes) as a substring.
    So a file whose basename occurs inside any recorded import string,
    related or not, is never reported.  A path without backslash is
    compared as it is. *)
Lemma find_unused_files_kept :
  forall (pf : platform) (a : Analyzer) (f : str),
    (In f (find_unused_files pf a) <->
     In f (lib_files a) /\ is_skipped f = false
     /\ forall imp, In imp (all_imports a) ->
          contains (basename pf f) imp = false
          /\ contains (replace_chr "\" "/" f) imp = false)
    /\ (forall imp, In imp (all_imports a) ->
          contains (basename pf f) imp = true ->
          ~ In f (find_unused_files pf a))
    /\ (~ In "\"%char f -> replace_chr "\" "/" f = f).
Proof.
  intros pf a f.
  assert (Hiff : In f (find_unused_files pf a) <->
     In f (lib_files a) /\ is_skipped f = false
     /\ forall imp, In imp (all_imports a) ->
          contains (basename pf f) imp = false
          /\ contains (replace_chr "\" "/" f) imp = false).
  { unfold find_unused_files; rewrite filter_In, andb_true_iff,
      !negb_true_iff.
    unfold is_imported. split.
    - intros (Hin & Hs & Hi); split; [assumption|split; [assumption|]].
      intros imp Himp. apply orb_false_iff.
      match goal with
      | |- ?g = false => destruct g eqn:E; [|reflexivity]
      end.
      rewrite <- Hi; symmetry. apply existsb_exists.
      exists imp; split; assumption.
    - intros (Hin & Hs & Hi); repeat split; try assumption.
      destruct (existsb _ (all_imports a)) eqn:E; [|reflexivity].
      apply existsb_exists in E as (imp & Himp & Ho).
      destruct (Hi imp Himp) as [H1 H2]. rewrite H1, H2 in Ho.
      discriminate. }
  split; [exact Hiff|split].
  - intros imp Himp Hc Hin. apply Hiff in Hin as (_ & _ & Hno).
    destruct (Hno imp Himp) as [H1 _]. congruence.
  - apply replace_chr_absent.
Qed.

(** The known false negative: [helper.dart] is inside
    [string_helper.dart]. *)
Example basename_false_negative :
  find_unused_files Posix helper_tree = [lit "lib/orphan.dart"]
  /\ all_imports helper_tree = [lit "package:other/string_helper.dart"].
Proof. vm_compute. split; reflexivity. Qed.

(** The test written for [main.dart] is a test on the end of the path: a
    file whose path ends with these letters is passed over, whatever its
    name and whatever the imports. *)
Lemma path_ending_in_main_is_passed_over (pf : platform) (a : Analyzer)
    (f : str) :
  endswith f (lit "main.dart") = true -> ~ In f (find_unused_files pf a).
Proof.
  intros He Hin. apply find_unused_files_kept in Hin as (_ & Hs & _).
  unfold is_skipped in Hs. rewrite He, orb_true_r in Hs. discriminate.
Qed.

(** C5 (dead files, a defect of the code).  In [domain_tree] the files
    [lib/domain.dart] and [lib/orphan.dart] are library files that are
    neither the entry point nor generated nor export files, and the one
    recorded import string holds neither the basename nor the path of
    either.  [lib/orphan.dart] is reported dead, [lib/domain.dart] is not:
    its path ends with [main.dart], and the test meant for the entry point
    passes it over.  The basename is the same under both path
    conventions. *)
Theorem domain_file_is_taken_for_main :
  lib_files domain_tree
  = [lit "lib/main.dart"; lit "lib/domain.dart"; lit "lib/orphan.dart"]
  /\ all_imports domain_tree = [lit "package:other/util.dart"]
  /\ basename Posix (lit "lib/domain.dart") = lit "domain.dart"
  /\ basename Windows (lit "lib/domain.dart") = lit "domain.dart"
  /\ is_imported Posix domain_tree (lit "lib/domain.dart") = false
  /\ is_imported Posix domain_tree (lit "lib/orphan.dart") = false
  /\ find_unused_files Posix domain_tree = [lit "lib/orphan.dart"]
  /\ find_unused_files Windows domain_tree = [lit "lib/orphan.dart"]
  /\ endswith (lit "lib/domain.dart") (lit "main.dart") = true.
Proof. vm_compute. repeat split. Qed.

End DeadFileClaims.

(* ================================================================== *)
(** ** Signature clusters *)

Section DuplicationClaims.
Import Py Re DeadCode.

Lemma fold_add_signature (f : str) (l : list str) (d : dict (list str)) :
  fold_left (add_signature f) l d
  = fold_left record (map (fun s => (collapse_ws (strip s), f)) l) d.
Proof.
  revert d; induction l as [|s l IH]; intros d; simpl; [reflexivity|].
  apply IH.
Qed.

Lemma signatures_fold (read : str -> option str) (fs : list str)
    (d : dict (list str)) :
  fold_left (signatures_of read) fs d
  = fold_left record (all_matches read fs) d.
Proof.
  revert d; induction fs as [|f fs IH]; intros d; simpl; [reflexivity|].
  rewrite fold_left_app, IH. f_equal.
  unfold signatures_of; destruct (read f); [apply fold_add_signature|].
  reflexivity.
Qed.

Lemma keys_update {V : Type} (k : str) (g : option V -> V) (d : dict V) :
  keys (update k g d)
  = if existsb (str_eqb k) (keys d) then keys d else keys d ++ [k].
Proof.
  induction d as [|[k' v] d IH]; simpl; [reflexivity|].
  destruct (str_eqb k k') eqn:E; simpl; [reflexivity|].
  rewrite IH. destruct (existsb (str_eqb k) (keys d)); reflexivity.
Qed.

Lemma keys_update_nodup {V : Type} (k : str) (g : option V -> V)
    (d : dict V) :
  NoDup (keys d) -> NoDup (keys (update k g d)).
Proof.
  intros H; rewrite keys_update.
  destruct (existsb (str_eqb k) (keys d)) eqn:E; [assumption|].
  apply NoDup_app; [assumption|repeat constructor; easy|].
  intros x Hx [->|[]].
  assert (existsb (str_eqb x) (keys d) = true) as Ht; [|congruence].
  apply existsb_exists; exists x; split; [assumption|apply str_eqb_refl].
Qed.

Lemma get_In {V : Type} (d : dict V) (k : str) (v : V) :
  get d k = Some v -> In (k, v) d.
Proof.
  induction d as [|[k' v'] d IH]; simpl; [discriminate|].
  destruct (str_eqb k k') eqn:E.
  - apply str_eqb_eq in E; subst k'. intros [= ->]; now left.
  - intros H; right; now apply IH.
Qed.

Lemma In_get {V : Type} (d : dict V) (k : str) (v : V) :
  NoDup (keys d) -> In (k, v) d -> get d k = Some v.
Proof.
  induction d as [|[k' v'] d IH]; simpl; [easy|].
  intros Hn [[= -> ->]|Hin]; [now rewrite str_eqb_refl|].
  inversion Hn as [|? ? Hk Hd]; subst.
  destruct (str_eqb k k') eqn:E; [|now apply IH].
  apply str_eqb_eq in E; subst k'. exfalso; apply Hk.
  apply in_map_iff; now exists (k, v).
Qed.

(** What the accumulated dictionary holds for one signature. *)
Lemma get_record (ms : list (str * str)) (d : dict (list str)) (sig : str) :
  get (fold_left record ms d) sig
  = match map snd (filter (fun m => str_eqb sig (fst m)) ms) with
    | [] => get d sig
    | occ => Some (match get d sig with Some l => l | None => [] end ++ occ)
    end.
Proof.
  revert d; induction ms as [|[s f] ms IH]; intros d; simpl; [reflexivity|].
  rewrite IH.
  assert (Hg : get (record d (s, f)) sig
               = if str_eqb sig s
                 then Some (match get d s with Some l => l | None => [] end
                            ++ [f])
                 else get d sig)
    by (unfold record; simpl; rewrite get_update; reflexivity).
  rewrite Hg. destruct (str_eqb sig s) eqn:E; simpl; [|reflexivity].
  apply str_eqb_eq in E; subst s.
  destruct (map snd _); [reflexivity|].
  now rewrite <- app_assoc.
Qed.

Lemma record_nodup (ms : list (str * str)) (d : dict (list str)) :
  NoDup (keys d) -> NoDup (keys (fold_left record ms d)).
Proof.
  revert d; induction ms as [|m ms IH]; intros d H; simpl; [assumption|].
  apply IH, keys_update_nodup, H.
Qed.

Lemma signatures_get (read : str -> option str) (a : Analyzer)
    (sig : str) (fl : list str) :
  In (sig, fl) (signatures read a) <->
  fl = occurrences read a sig /\ fl <> [].
Proof.
  unfold signatures, occurrences. rewrite signatures_fold.
  set (ms := all_matches read (lib_files a ++ test_files a)).
  pose proof (get_record ms [] sig) as Hg; simpl in Hg.
  split.
  - intros Hin. apply In_get in Hin; [|apply record_nodup; constructor].
    rewrite Hin in Hg.
    destruct (map snd _) as [|x occ]; [discriminate|].
    injection Hg as ->; split; [reflexivity|discriminate].
  - intros [-> Hne]. apply get_In. rewrite Hg.
    destruct (map snd _); [contradiction|reflexivity].
Qed.

(** C4 (as stated, refuted).  One file that holds the same header three
    times gives a reported cluster with count 3, although the set of its
    files has one element. *)
Lemma one_file_makes_a_cluster :
  find_duplications (disk one_file) (scanned (paths one_file) [])
  = [mkDuplicate (lit header) [lit "lib/a.dart"] 3].
Proof. vm_compute. reflexivity. Qed.

(** The header with a type argument is met by no alternative of
    [func_pattern]: three files that hold it give no cluster. *)
Example generic_header_is_not_matched :
  find_duplications (disk generic_files) (scanned (paths generic_files) [])
  = []
  /\ length (lit generic_header) = 44%nat.
Proof. vm_compute. split; reflexivity. Qed.

(** C4 (amended).  A cluster is reported by the loop that fills
    [duplicates] exactly when the number of matches of its signature, every
    match counted and several in one file included, is greater than 2 and
    the signature is longer than 30 characters; its count is that number of
    matches and its files are the distinct files among them.  Three files
    that hold the header [Future loadData(String id, bool force)] once each
    give one cluster with count 3, two such files give none. *)
Theorem cluster_reported_iff_three_matches :
  forall (read : str -> option str) (a : Analyzer) (d : Duplicate),
    (In d (duplicates (signatures read a)) <->
     let occ := occurrences read a (signature d) in
     (2 < length occ)%nat /\ (30 < length (signature d))%nat
     /\ files d = distinct occ /\ count d = Z.of_nat (length occ))
    /\ map (fun d => (signature d, length (files d), count d))
         (find_duplications (disk three_files)
            (scanned (paths three_files) []))
       = [(lit header, 3%nat, 3)]
    /\ find_duplications (disk two_files) (scanned (paths two_files) [])
       = [].
Proof.
  intros read a d. split; [|vm_compute; split; reflexivity].
  unfold duplicates; rewrite in_flat_map. cbv zeta. split.
  - intros ([sig fl] & Hin & Hd). simpl in Hd.
    apply signatures_get in Hin as [-> _].
    destruct (_ && _) eqn:E; [|contradiction].
    destruct Hd as [<-|[]]; simpl.
    apply andb_true_iff in E as [E1 E2]. repeat split; lia.
  - intros (H1 & H2 & H3 & H4).
    exists (signature d, occurrences read a (signature d)); split.
    + apply signatures_get; split; [reflexivity|].
      destruct (occurrences read a (signature d)); [simpl in H1; lia|].
      discriminate.
    + simpl.
      replace (_ && _) with true by (symmetry; apply andb_true_iff; lia).
      left. destruct d as [s f c]; simpl in *; now subst.
Qed.



End DuplicationClaims.

(* ================================================================== *)
(** ** Further properties of [analyze_methods.py] *)

Section MethodsExtras.
Import Py Re Methods MethodsReport.

Lemma detect_bounds (path : str) (lines : list str) (m : MethodInfo) :
  In m (detected_spans path lines) ->
  file_path m = path
  /\ 1 <= start_line m <= end_line m
  /\ end_line m <= Z.of_nat (length lines)
  /\ line_count m = end_line m - start_line m + 1.
Proof.
  intros H. apply detect_spec in H as [[]|(k & h & Hk & _ & Hp & Hs & He & Hc)].
  assert (k < length lines)%nat as Hlt
    by (apply nth_error_Some; congruence).
  pose proof (span_end_gt lines k). pose proof (span_end_le lines k Hlt).
  repeat split; try assumption; lia.
Qed.

(** X1.  A span reported by [analyze_method_sizes] lies inside the file:
    it starts at line 1 or later, ends at or before the last line, counts
    the lines from its start to its end, these included, and more than
    50 of them, and carries the path of the file.  So a file of at most 50
    lines reports nothing. *)
Theorem reported_span_bounds :
  forall (path : str) (lines : list str),
    Forall (fun m =>
              file_path m = path
              /\ 1 <= start_line m /\ start_line m < end_line m
              /\ end_line m <= Z.of_nat (length lines)
              /\ line_count m = end_line m - start_line m + 1
              /\ 50 < line_count m)
      (analyze_method_sizes path (Some lines))
    /\ ((length lines <= 50)%nat ->
        analyze_method_sizes path (Some lines) = []).
Proof.
  intros path lines.
  assert (H : Forall (fun m =>
              file_path m = path
              /\ 1 <= start_line m /\ start_line m < end_line m
              /\ end_line m <= Z.of_nat (length lines)
              /\ line_count m = end_line m - start_line m + 1
              /\ 50 < line_count m)
      (analyze_method_sizes path (Some lines))).
  { rewrite analyze_method_sizes_filter. apply Forall_forall.
    intros m Hm. apply filter_In in Hm as [Hm Hl].
    apply detect_bounds in Hm as (H1 & H2 & H3 & H4).
    unfold is_long in Hl. repeat split; try assumption; lia. }
  split; [exact H|].
  intros Hlen. destruct (analyze_method_sizes path (Some lines)) as [|m ms];
    [reflexivity|].
  inversion H as [|? ? Hm _]; subst. lia.
Qed.

(** X2.  A span that runs to the last line of the file is the last span
    detected: a method whose braces never come back to depth 0 hides every
    declaration after it. *)
Theorem unclosed_span_is_last :
  forall (path : str) (lines : list str) (ms1 ms2 : list MethodInfo)
         (m : MethodInfo),
    detected_spans path lines = ms1 ++ m :: ms2 ->
    end_line m = Z.of_nat (length lines) ->
    ms2 = [].
Proof.
  intros path lines ms1 ms2 m Hd He.
  destruct ms2 as [|b ms2]; [reflexivity|exfalso].
  assert (Hs : StronglySorted before (detected_spans path lines))
    by (apply detect_ok; repeat split; constructor).
  assert (Hb : In b (detected_spans path lines))
    by (rewrite Hd; apply in_or_app; right; right; now left).
  apply detect_bounds in Hb as (_ & Hb1 & Hb2 & _).
  rewrite Hd in Hs. clear Hd.
  induction ms1 as [|x ms1 IH]; simpl in Hs.
  - inversion Hs as [|? ? _ Hf]; subst.
    inversion Hf as [|? ? Hmb _]; subst. unfold before in Hmb. lia.
  - inversion Hs; subst; auto.
Qed.

Lemma unclosed_span_is_last_witness :
  detected_spans (lit "a.dart")
    [src_line "void g() {}"; src_line "void h() {"; src_line "}"]
  = [mkMethodInfo (lit "a.dart") (lit "g") 1 3 3].
Proof.
  assert (H : detected_spans (lit "a.dart")
                [src_line "void g() {}"; src_line "void h() {"; src_line "}"]
              = [] ++ mkMethodInfo (lit "a.dart") (lit "g") 1 3 3
                   :: skipn 1 (detected_spans (lit "a.dart")
                        [src_line "void g() {}"; src_line "void h() {";
                         src_line "}"]))
    by (vm_compute; reflexivity).
  rewrite H.
  rewrite (unclosed_span_is_last _ _ _ _ _ H eq_refl). reflexivity.
Defined.

Section Grouping.
Context {X V : Type} (kf : X -> str) (vf : X -> V).

Lemma collect_get (xs : list X) (d : dict (list V)) (k : str) :
  get (fold_left (collect kf vf) xs d) k
  = match map vf (filter (fun x => str_eqb k (kf x)) xs) with
    | [] => get d k
    | l => Some (match get d k with Some l0 => l0 | None => [] end ++ l)
    end.
Proof.
  revert d; induction xs as [|x xs IH]; intros d; simpl; [reflexivity|].
  rewrite IH.
  assert (Hg : get (collect kf vf d x) k
               = if str_eqb k (kf x)
                 then Some (match get d (kf x) with
                            | Some l => l | None => [] end ++ [vf x])
                 else get d k)
    by (unfold collect; rewrite get_update; reflexivity).
  rewrite Hg. destruct (str_eqb k (kf x)) eqn:E; simpl; [|reflexivity].
  apply str_eqb_eq in E; subst k.
  destruct (map vf _); [reflexivity|]. now rewrite <- app_assoc.
Qed.

Lemma collect_nodup (xs : list X) (d : dict (list V)) :
  NoDup (keys d) -> NoDup (keys (fold_left (collect kf vf) xs d)).
Proof.
  revert d; induction xs as [|x xs IH]; intros d H; simpl; [assumption|].
  apply IH, keys_update_nodup, H.
Qed.

Lemma update_held (k : str) (v : V) (d : dict (list V)) :
  held (update k (fun o => match o with Some l => l | None => [] end ++ [v])
          d)
  = S (held d).
Proof.
  unfold held. induction d as [|[k' l] d IH]; simpl; [reflexivity|].
  destruct (str_eqb k k'); simpl.
  - rewrite length_app; simpl; lia.
  - rewrite IH; lia.
Qed.

Lemma collect_held (xs : list X) (d : dict (list V)) :
  held (fold_left (collect kf vf) xs d) = (held d + length xs)%nat.
Proof.
  revert d; induction xs as [|x xs IH]; intros d; simpl; [lia|].
  rewrite IH. unfold collect. rewrite update_held. lia.
Qed.

Lemma collect_In (xs : list X) (k : str) (l : list V) :
  In (k, l) (fold_left (collect kf vf) xs []) <->
  l = map vf (filter (fun x => str_eqb k (kf x)) xs) /\ l <> [].
Proof.
  pose proof (collect_get xs [] k) as Hg; simpl in Hg. split.
  - intros Hin. apply In_get in Hin; [|apply collect_nodup; constructor].
    rewrite Hin in Hg.
    destruct (map vf _) as [|y occ]; [discriminate|].
    injection Hg as ->; split; [reflexivity|discriminate].
  - intros [-> Hne]. apply get_In. rewrite Hg.
    destruct (map vf _); [contradiction|reflexivity].
Qed.

End Grouping.

(** X3.  The list that [main] prints holds exactly the spans reported for
    the readable files, longest first, spans of equal length in the order
    in which they were found; its first entry, printed as the longest
    method, is at least as long as every other, and the list is empty only
    when nothing was reported. *)
Theorem all_methods_longest_first :
  forall (files : list (str * option (list str))),
    let found :=
      flat_map (fun f => analyze_method_sizes (fst f) (snd f)) files in
    let out := all_methods files in
    Permutation out found
    /\ StronglySorted (descending line_count) out
    /\ (forall k, with_key line_count k out = with_key line_count k found)
    /\ (forall k m, longest out = Some k -> In m out -> line_count m <= k)
    /\ (longest out = None <-> found = []).
Proof.
  intros files found out. subst out; unfold all_methods; fold found.
  pose proof (sorted_desc_perm line_count found) as Hp.
  pose proof (sorted_desc_sorted line_count found) as Hs.
  split; [assumption|split; [assumption|split; [|split]]].
  - intros k; apply sorted_desc_with_key.
  - intros k m Hl Hin. destruct (sorted_desc line_count found) as [|x l];
      [discriminate|].
    injection Hl as <-. destruct Hin as [->|Hin]; [lia|].
    inversion Hs as [|? ? _ Hf]; subst.
    exact (proj1 (Forall_forall _ _) Hf m Hin).
  - split.
    + intros Hl. destruct (sorted_desc line_count found) as [|x l] eqn:E;
        [|discriminate].
      now apply Permutation_nil.
    + intros ->; reflexivity.
Qed.

(** X4.  The grouping of [main] loses and invents nothing: each file with
    a reported method has one group, which lists the methods of that file
    in the order of the list; the groups hold as many methods as the list;
    and the ranking shows at most ten files, those with the most methods
    first. *)
Theorem by_file_groups :
  forall (ms : list MethodInfo),
    NoDup (keys (by_file ms))
    /\ (forall f l, In (f, l) (by_file ms) <->
          l = filter (fun m => str_eqb f (file_path m)) ms /\ l <> [])
    /\ held (by_file ms) = length ms
    /\ (length (sorted_files ms) <= 10)%nat
    /\ StronglySorted
         (descending (fun x => Z.of_nat (length (snd x))))
         (sorted_files ms)
    /\ (forall x, In x (sorted_files ms) -> In x (by_file ms)).
Proof.
  intros ms.
  assert (E : by_file ms = fold_left (collect file_path (fun m => m)) ms [])
    by reflexivity.
  split; [rewrite E; apply collect_nodup; constructor|].
  split; [|split; [|split; [|split]]].
  - intros f l. rewrite E, collect_In, map_id. reflexivity.
  - rewrite E, collect_held. reflexivity.
  - unfold sorted_files. rewrite length_firstn. lia.
  - apply firstn_sorted, sorted_desc_sorted.
  - intros x Hx. apply firstn_In in Hx.
    eapply Permutation_in; [apply sorted_desc_perm|eassumption].
Qed.

End MethodsExtras.

(* ================================================================== *)
(** ** What a header line must hold *)

Section PatternExtras.
Import Py Re.

(** A successful run hands the rest of the text to its continuation, and
    the part it read holds every character the pattern requires. *)
Lemma run_consumes {R : Type} (r : re) :
  forall (prev : option ascii) (s : str) (g : list str) (k : @cont R)
         (x : R),
    run r prev s g k = Some x ->
    exists pv s1 s2 g',
      s = s1 ++ s2 /\ k pv s2 g' = Some x
      /\ forall c, requires c r -> In c s1.
Proof.
  induction r as [|c|p|p|a IHa b IHb|a IHa b IHb|a IHa|a IHa| |];
    intros prev s g k x H; simpl in H.
  - exists prev, [], s, g; repeat split; auto. intros c Hc; inversion Hc.
  - destruct s as [|y s]; [discriminate|].
    destruct (Ascii.eqb y c) eqn:E; [|discriminate].
    apply Ascii.eqb_eq in E; subst y.
    exists (Some c), [c], s, g; repeat split; auto.
    intros c' Hc; inversion Hc; subst; now left.
  - destruct s as [|y s]; [discriminate|].
    destruct (p y); [|discriminate].
    exists (Some y), [y], s, g; repeat split; auto.
    intros c' Hc; inversion Hc.
  - apply star_inv in H as (s1 & s2 & -> & _ & Hk).
    exists (lastc prev s1), s1, s2, g; repeat split; auto.
    intros c' Hc; inversion Hc.
  - apply IHa in H as (pv & s1 & s2 & g1 & -> & H & Ha).
    apply IHb in H as (pv' & s3 & s4 & g2 & -> & H & Hb).
    exists pv', (s1 ++ s3), s4, g2; repeat split; auto.
    + now rewrite app_assoc.
    + intros c Hc; inversion Hc; subst; apply in_or_app; auto.
  - destruct (run a prev s g k) as [y|] eqn:E.
    + injection H as ->.
      apply IHa in E as (pv & s1 & s2 & g1 & -> & H & Ha).
      exists pv, s1, s2, g1; repeat split; auto.
      intros c Hc; inversion Hc; subst; auto.
    + apply IHb in H as (pv & s1 & s2 & g1 & -> & H & Hb).
      exists pv, s1, s2, g1; repeat split; auto.
      intros c Hc; inversion Hc; subst; auto.
  - destruct (run a prev s g k) as [y|] eqn:E.
    + injection H as ->.
      apply IHa in E as (pv & s1 & s2 & g1 & -> & H & Ha).
      exists pv, s1, s2, g1; repeat split; auto.
      intros c Hc; inversion Hc.
    + exists prev, [], s, g; repeat split; auto.
      intros c Hc; inversion Hc.
  - apply IHa in H as (pv & s1 & s2 & g1 & -> & H & Ha).
    eexists pv, s1, s2, _; repeat split; eauto.
    intros c Hc; inversion Hc; subst; auto.
  - destruct prev; [discriminate|].
    exists None, [], s, g; repeat split; auto. intros c Hc; inversion Hc.
  - destruct (xorb _ _); [|discriminate].
    exists prev, [], s, g; repeat split; auto. intros c Hc; inversion Hc.
Qed.

Lemma re_match_requires (r : re) (c : ascii) (s : str) :
  requires c r -> re_match r s <> None -> In c s.
Proof.
  intros Hr Hm. unfold re_match, match_at in Hm.
  destruct (run r None s [] accept) as [y|] eqn:E; [|now simpl in Hm].
  apply run_consumes in E as (pv & s1 & s2 & g & -> & _ & H).
  apply in_or_app; left; now apply H.
Qed.

Ltac find_required :=
  solve [ apply req_chr
        | apply req_seq_l; apply req_chr
        | apply req_seq_r; find_required ].

Lemma methods_pattern_requires (c : ascii) :
  In c ["("; ")"; "{"]%char -> requires c Methods.method_pattern.
Proof.
  unfold Methods.method_pattern.
  intros [<-|[<-|[<-|[]]]]; find_required.
Qed.

Lemma project_pattern_requires (c : ascii) :
  In c ["("; ")"; "{"]%char -> requires c Project.method_pattern.
Proof.
  unfold Project.method_pattern.
  intros [<-|[<-|[<-|[]]]]; find_required.
Qed.

(** X5.  A line is taken as a method header, by either scanner, only if it
    holds an opening parenthesis, a closing parenthesis and an opening
    brace: a declaration whose brace stands on the next line is never seen,
    and a file without any opening brace reports no method. *)
Theorem header_needs_brace :
  forall (line : str) (c : ascii),
    In c ["("; ")"; "{"]%char ->
    (Methods.header_name line <> None -> In c line)
    /\ (re_match Project.method_pattern line <> None -> In c line)
    /\ forall (path : str) (lines : list str),
         (forall l, In l lines -> ~ In "{"%char l) ->
         Methods.detected_spans path lines = [].
Proof.
  intros line c Hc. split; [|split].
  - intros H. apply (re_match_requires Methods.method_pattern);
      [now apply methods_pattern_requires|].
    unfold Methods.header_name in H.
    destruct (re_match Methods.method_pattern line); congruence.
  - apply re_match_requires. now apply project_pattern_requires.
  - intros path lines Hno. unfold Methods.detected_spans.
    generalize (length lines) as fuel. generalize 0%nat as i.
    intros i fuel; revert i; induction fuel as [|fuel IH]; intros i;
      simpl; [reflexivity|].
    destruct (nth_error lines i) as [l|] eqn:E; [|reflexivity].
    destruct (Methods.header_name l) eqn:Eh; [|apply IH].
    exfalso. apply (Hno l); [eapply nth_error_In; eassumption|].
    apply (re_match_requires Methods.method_pattern);
      [apply methods_pattern_requires; simpl; auto|].
    unfold Methods.header_name in Eh.
    destruct (re_match Methods.method_pattern l); congruence.
Qed.

Lemma header_needs_brace_witness :
  Methods.header_name (src_line "void f()") = None.
Proof.
  destruct (Methods.header_name (src_line "void f()")) eqn:E;
    [|reflexivity].
  exfalso.
  assert (H : In "{"%char (src_line "void f()")).
  { destruct (header_needs_brace (src_line "void f()") "{"%char)
      as [H1 _]; [simpl; auto|].
    apply H1. rewrite E; discriminate. }
  vm_compute in H. intuition discriminate.
Defined.

End PatternExtras.

(* ================================================================== *)
(** ** Further properties of [analyze_project.py] *)

Section ProjectExtras.
Import Py Re Project ProjectReport.

Lemma split_nl_length (s : str) :
  length (split_nl s) = S (count_occ ascii_dec s nl).
Proof.
  induction s as [|c s IH]; simpl; [reflexivity|].
  destruct (split_nl s) as [|l ls] eqn:E; [discriminate|].
  destruct (ascii_dec c nl) as [->|Hn].
  - rewrite Ascii.eqb_refl; simpl in *; lia.
  - apply Ascii.eqb_neq in Hn as Hn'; rewrite Hn'; simpl in *; lia.
Qed.

(** The counters that a line of [analyze_methods] may touch. *)
Lemma step_counts (file_path : str) (i : Z) (line : str) (a : Analyzer)
    (c : Cursor) :
  let a' := fst (step file_path i line a c) in
  total_files a' = total_files a /\ total_lines a' = total_lines a
  /\ files_over_500 a' = files_over_500 a
  /\ methods_over_50 a' - Z.of_nat (length (v_methods_over_50 a'))
     = methods_over_50 a - Z.of_nat (length (v_methods_over_50 a)).
Proof.
  unfold step. destruct (is_skipped line); [simpl; auto|].
  destruct (re_match method_pattern line), (in_method c); simpl; auto.
  all: destruct (brace_count c + _ =? 0); simpl; auto.
  all: destruct (i - method_start c + 1 >? 50); simpl; auto.
  all: rewrite length_app; simpl; repeat split; lia.
Qed.

Lemma methods_loop_counts (file_path : str) (lines : list str) (i : Z)
    (a : Analyzer) (c : Cursor) :
  let a' := methods_loop file_path lines i a c in
  total_files a' = total_files a /\ total_lines a' = total_lines a
  /\ files_over_500 a' = files_over_500 a
  /\ methods_over_50 a' - Z.of_nat (length (v_methods_over_50 a'))
     = methods_over_50 a - Z.of_nat (length (v_methods_over_50 a)).
Proof.
  revert i a c; induction lines as [|line rest IH]; intros i a c; simpl;
    [auto|].
  pose proof (step_counts file_path i line a c) as Hs.
  destruct (step file_path i line a c) as [a1 c1]; simpl in Hs.
  specialize (IH (i + 1) a1 c1); simpl in IH.
  destruct Hs as (H1 & H2 & H3 & H4), IH as (I1 & I2 & I3 & I4).
  repeat split; congruence.
Qed.

Lemma methods_loop_files (file_path : str) (lines : list str) (i : Z)
    (a : Analyzer) (c : Cursor) :
  v_files_over_500 (methods_loop file_path lines i a c)
  = v_files_over_500 a.
Proof.
  revert i a c; induction lines as [|line rest IH]; intros i a c; simpl;
    [reflexivity|].
  destruct (step_ok file_path i line a c) as (add & _ & Hf & _).
  destruct (step file_path i line a c) as [a1 c1]; simpl in Hf.
  now rewrite IH.
Qed.

Lemma analyze_file_counted (a a' : Analyzer) (p : str) (read : option str) :
  analyze_file a p read = Some a' -> counted a a' [(p, read)].
Proof.
  unfold analyze_file, counted, kept; simpl.
  destruct (is_excluded p); simpl.
  { intros [= <-]. repeat split; try lia. constructor. }
  destruct read as [content|]; [|discriminate]. intros [= <-].
  unfold analyze_methods.
  set (start := if _ >? 500 then _ else _).
  destruct (methods_loop_counts p (split_nl content) 1 start
              (mkCursor false None 0 0)) as (H1 & H2 & H3 & H4).
  rewrite H1, H2, H3, H4, methods_loop_files.
  assert (Hs : total_files start = total_files a + 1
               /\ total_lines start = total_lines a + line_count_of content
               /\ files_over_500 start
                  - Z.of_nat (length (v_files_over_500 start))
                  = files_over_500 a
                    - Z.of_nat (length (v_files_over_500 a))
               /\ methods_over_50 start = methods_over_50 a
               /\ v_methods_over_50 start = v_methods_over_50 a).
  { subst start. unfold line_count_of.
    destruct (_ >? 500); simpl; repeat split; try lia.
    rewrite length_app; simpl; lia. }
  destruct Hs as (S1 & S2 & S3 & S4 & S5). rewrite S5.
  repeat split; try lia.
  repeat constructor; simpl; discriminate.
Qed.

Lemma counted_trans (a0 a1 a2 : Analyzer) (f1 f2 : list (str * option str)) :
  counted a0 a1 f1 -> counted a1 a2 f2 -> counted a0 a2 (f1 ++ f2).
Proof.
  unfold counted, kept. rewrite filter_app, length_app.
  intros (A1 & A2 & A3 & A4 & A5) (B1 & B2 & B3 & B4 & B5).
  assert (Hl : forall x y, lines_in (x ++ y) = lines_in x + lines_in y).
  { induction x as [|[q [c|]] x IHx]; intros y; simpl; rewrite ?IHx; lia. }
  rewrite Hl. repeat split; try lia.
  apply Forall_app; split; assumption.
Qed.

Lemma analyze_files_counted (files : list (str * option str))
    (a a' : Analyzer) :
  analyze_files a files = Some a' -> counted a a' files.
Proof.
  revert a; induction files as [|[p read] files IH]; intros a; simpl.
  - intros [= <-]. unfold counted; simpl. repeat split; try lia.
    constructor.
  - destruct (analyze_file a p read) as [a1|] eqn:E; [|discriminate].
    intros H. change ((p, read) :: files) with ([(p, read)] ++ files).
    eapply counted_trans; [apply analyze_file_counted; eassumption|].
    now apply IH.
Qed.

Lemma method_traced_more (file : str) (pre rest : list str)
    (v : MethodViolation) :
  method_traced file pre v -> method_traced file (pre ++ rest) v.
Proof.
  intros (H1 & (k & h & g & Hk & Hn & Hr) & (k' & e & Hk' & Hn' & He) & Hrest).
  split; [assumption|split; [|split; [|assumption]]].
  - exists k, h, g; split; [assumption|split; [|assumption]].
    rewrite nth_error_app1; [assumption|].
    apply nth_error_Some; congruence.
  - exists k', e; split; [assumption|split; [|assumption]].
    rewrite nth_error_app1; [assumption|].
    apply nth_error_Some; congruence.
Qed.

Lemma open_traced_more (done : list str) (line : str) (c : Cursor) :
  open_traced done c -> open_traced (done ++ [line]) c.
Proof.
  intros H Hin. destruct (H Hin) as (k & h & g & Hk & Hn & Hr).
  exists k, h, g; split; [assumption|split; [|assumption]].
  rewrite nth_error_app1; [assumption|]. apply nth_error_Some; congruence.
Qed.

Lemma nth_error_last (done : list str) (line : str) :
  nth_error (done ++ [line]) (length done) = Some line.
Proof.
  rewrite nth_error_app2 by lia. now rewrite Nat.sub_diag.
Qed.

Lemma step_traced (file_path : str) (done : list str) (line : str)
    (a : Analyzer) (c : Cursor) :
  open_traced done c ->
  let r := step file_path (Z.of_nat (length done) + 1) line a c in
  exists add,
    v_methods_over_50 (fst r) = v_methods_over_50 a ++ add
    /\ Forall (method_traced file_path (done ++ [line])) add
    /\ open_traced (done ++ [line]) (snd r).
Proof.
  intros Ho. unfold step.
  destruct (is_skipped line) eqn:Esk.
  { exists []; simpl; rewrite app_nil_r.
    split; [reflexivity|split; [constructor|now apply open_traced_more]]. }
  destruct (in_method c) eqn:Ein.
  - match goal with
    | |- context [match re_match method_pattern line with
                  | Some _ => ?x | None => _ end] =>
        replace (match re_match method_pattern line with
                 | Some _ => x | None => x end) with x
          by (destruct (re_match method_pattern line); reflexivity)
    end.
    destruct (brace_count c + _ =? 0).
    + destruct (Z.of_nat (length done) + 1 - method_start c + 1 >? 50)
        eqn:El.
      * eexists [_]; simpl.
        split; [reflexivity|split; [|intros; discriminate]].
        apply Forall_cons; [|apply Forall_nil].
        destruct (Ho Ein) as (k & h & g & Hk & Hn & Hs & Hm & Hname).
        assert (k < length done)%nat
          by (apply nth_error_Some; congruence).
        split; [reflexivity|]. split.
        { exists k, h, g. repeat split; try assumption.
          rewrite nth_error_app1; assumption. }
        split.
        { exists (length done), line. repeat split; try assumption.
          apply nth_error_last. }
        simpl. repeat split; lia.
      * exists []; simpl; rewrite app_nil_r.
        split; [reflexivity|split; [constructor|intros; discriminate]].
    + exists []; simpl; rewrite app_nil_r.
      split; [reflexivity|split; [constructor|]].
      intros _. destruct (Ho Ein) as (k & h & g & Hk & Hn & Hr).
      exists k, h, g; simpl; split; [assumption|split; [|assumption]].
      rewrite nth_error_app1; [assumption|].
      apply nth_error_Some; congruence.
  - destruct (re_match method_pattern line) as [g|] eqn:Em.
    + exists []; simpl; rewrite app_nil_r.
      split; [reflexivity|split; [constructor|]].
      intros _. exists (length done), line, g; simpl.
      repeat split; try assumption. apply nth_error_last.
    + exists []; simpl; rewrite app_nil_r.
      split; [reflexivity|split; [constructor|]].
      intros H; congruence.
Qed.

Lemma methods_loop_traced (file_path : str) (rest done : list str)
    (a : Analyzer) (c : Cursor) :
  open_traced done c ->
  exists add,
    v_methods_over_50
      (methods_loop file_path rest (Z.of_nat (length done) + 1) a c)
    = v_methods_over_50 a ++ add
    /\ Forall (method_traced file_path (done ++ rest)) add.
Proof.
  revert done a c; induction rest as [|line rest IH]; intros done a c Ho;
    simpl.
  - exists []; rewrite app_nil_r; split; [reflexivity|constructor].
  - destruct (step_traced file_path done line a c Ho)
      as (add1 & H1 & T1 & O1).
    destruct (step file_path (Z.of_nat (length done) + 1) line a c)
      as [a1 c1]; simpl in H1, T1, O1.
    destruct (IH (done ++ [line]) a1 c1 O1) as (add2 & H2 & T2).
    replace (Z.of_nat (length (done ++ [line])) + 1)
      with (Z.of_nat (length done) + 1 + 1) in H2
      by (rewrite length_app; simpl; lia).
    exists (add1 ++ add2). rewrite H2, H1, <- app_assoc.
    split; [reflexivity|].
    replace (done ++ line :: rest) with ((done ++ [line]) ++ rest)
      by (rewrite <- app_assoc; reflexivity).
    apply Forall_app; split; [|assumption].
    eapply Forall_impl; [|exact T1]. intros v; apply method_traced_more.
Qed.

Lemma batch_traced_more (files files' : list (str * option str))
    (a : Analyzer) :
  (forall x, In x files -> In x files') ->
  batch_traced files a -> batch_traced files' a.
Proof.
  intros Hsub [Hm Hf]; split.
  - eapply Forall_impl; [|exact Hm]; simpl.
    intros v (content & H1 & H2); exists content; auto.
  - eapply Forall_impl; [|exact Hf]; simpl.
    intros v (content & H1 & H2); exists content; auto.
Qed.

Lemma analyze_file_traced (done : list (str * option str))
    (a a' : Analyzer) (p : str) (read : option str) :
  batch_traced done a -> analyze_file a p read = Some a' ->
  batch_traced (done ++ [(p, read)]) a'.
Proof.
  intros Hb. apply (batch_traced_more done (done ++ [(p, read)])) in Hb;
    [|intros x Hx; apply in_or_app; now left].
  unfold analyze_file.
  destruct (is_excluded p) eqn:Ex; [now intros [= <-]|].
  destruct read as [content|]; [|discriminate]. intros [= <-].
  destruct Hb as [Hm Hf]. unfold analyze_methods.
  set (start := if _ >? 500 then _ else _).
  assert (Hin : In (p, Some content) (done ++ [(p, Some content)]))
    by (apply in_or_app; right; now left).
  assert (Hs : v_methods_over_50 start = v_methods_over_50 a
               /\ Forall (fun v => exists c0,
                    In (fv_file v, Some c0) (done ++ [(p, Some content)])
                    /\ is_excluded (fv_file v) = false
                    /\ fv_lines v = line_count_of c0
                    /\ 500 < fv_lines v
                    /\ fv_excess v = fv_lines v - 500)
                  (v_files_over_500 start)).
  { subst start. destruct (_ >? 500) eqn:E; simpl; split; auto.
    apply Forall_app; split; [assumption|]. repeat constructor.
    exists content; simpl. unfold line_count_of. repeat split; auto; lia. }
  destruct Hs as [Hsm Hsf].
  destruct (methods_loop_traced p (split_nl content) [] start
              (mkCursor false None 0 0)) as (add & Ha & Ht);
    [intros H; discriminate|].
  simpl in Ha, Ht. split.
  - rewrite Ha, Hsm. apply Forall_app; split; [assumption|].
    eapply Forall_impl; [|exact Ht]. intros v Hv.
    assert (mv_file v = p) as Hp by apply Hv.
    exists content. rewrite Hp. auto.
  - now rewrite methods_loop_files.
Qed.

Lemma analyze_files_traced (files done : list (str * option str))
    (a a' : Analyzer) :
  batch_traced done a -> analyze_files a files = Some a' ->
  batch_traced (done ++ files) a'.
Proof.
  revert done a; induction files as [|[p read] files IH]; intros done a Hb;
    simpl.
  - intros [= <-]. now rewrite app_nil_r.
  - destruct (analyze_file a p read) as [a1|] eqn:E; [|discriminate].
    intros H.
    replace (done ++ (p, read) :: files)
      with ((done ++ [(p, read)]) ++ files)
      by (rewrite <- app_assoc; reflexivity).
    eapply IH; [|exact H]. eapply analyze_file_traced; eassumption.
Qed.

(** X7.  Every violation recorded by a run of [analyze_project] belongs
    to a file of the batch that was read and is not excluded.  A method
    violation starts on a counted line that matches the header pattern and
    gave the method its name, ends on a later counted line of the same
    file, and its size, more than 50, is the number of lines from the one to
    the other; a file violation carries the number of lines of the text,
    more than 500, and the excess over 500. *)
Theorem violations_are_traced :
  forall (lib test : list (str * option str)) (a : Analyzer),
    analyze_project lib test = Some a ->
    Forall (fun v => exists content,
              In (mv_file v, Some content) (lib ++ test)
              /\ is_excluded (mv_file v) = false
              /\ method_traced (mv_file v) (split_nl content) v)
      (v_methods_over_50 a)
    /\ Forall (fun v => exists content,
                In (fv_file v, Some content) (lib ++ test)
                /\ is_excluded (fv_file v) = false
                /\ fv_lines v = line_count_of content
                /\ 500 < fv_lines v
                /\ fv_excess v = fv_lines v - 500)
        (v_files_over_500 a).
Proof.
  intros lib test a H. unfold analyze_project in H.
  destruct (analyze_files init lib) as [a1|] eqn:E1; [|discriminate].
  apply (analyze_files_traced lib []) in E1; [|split; constructor].
  exact (analyze_files_traced test _ _ _ E1 H).
Qed.

Lemma violations_are_traced_witness :
  exists a,
    analyze_project [(lit "lib/big.dart", Some big_file)] [] = Some a
    /\ Forall (fun v => is_excluded (mv_file v) = false)
         (v_methods_over_50 a).
Proof.
  destruct (analyze_project [(lit "lib/big.dart", Some big_file)] [])
    as [a|] eqn:E; [|vm_compute in E; discriminate].
  exists a; split; [reflexivity|].
  destruct (violations_are_traced _ _ a E) as [Hm _].
  eapply Forall_impl; [|exact Hm]. intros v (c & _ & H & _). exact H.
Defined.

(** X8.  Each table of [generate_report] shows the largest entries of its
    list, largest first: the 50 largest files, the 100 longest methods and
    the 20 files of highest impact score; no entry left out is larger than
    one shown, and entries of equal size keep the order in which they
    were recorded. *)
Theorem report_tables_show_the_largest :
  forall (a : Analyzer),
    top_of fv_lines 50 (v_files_over_500 a) (files_table a)
    /\ top_of mv_lines 100 (v_methods_over_50 a) (methods_table a)
    /\ top_of (fun x => score (snd x)) 20 (file_scores a) (sorted_files a).
Proof.
  intros a. split; [|split]; apply top_of_sorted.
Qed.

Lemma last_lines_cons (v : FileViolation) (l : list FileViolation) :
  l <> [] -> last_lines (v :: l) = last_lines l.
Proof.
  intros Hl. unfold last_lines; simpl.
  destruct (rev l) as [|x r] eqn:E; [|reflexivity].
  exfalso; apply Hl. rewrite <- (rev_involutive l), E. reflexivity.
Qed.

Lemma entry_add_file (vs : list FileViolation) (d : dict FileScore)
    (f : str) :
  let e0 := or_default (get d f) in
  let e := or_default (get (fold_left add_file vs d) f) in
  length (violations e)
  = (length (violations e0) + length (files_of f vs))%nat
  /\ lines e = match files_of f vs with
               | [] => lines e0
               | l => last_lines l
               end
  /\ (get (fold_left add_file vs d) f = None <->
      get d f = None /\ files_of f vs = []).
Proof.
  revert d; induction vs as [|v vs IH]; intros d; simpl.
  - repeat split; try lia; tauto.
  - destruct (IH (add_file d v)) as (I1 & I2 & I3).
    assert (Hg : get (add_file d v) f
                 = if str_eqb f (fv_file v)
                   then Some (mkFileScore
                          (score (or_default (get d (fv_file v)))
                           + fv_excess v / 100 * 10)
                          (violations (or_default (get d (fv_file v)))
                           ++ [FileTooBig (fv_lines v)]) (fv_lines v))
                   else get d f)
      by (unfold add_file; rewrite get_update; reflexivity).
    rewrite I1, I2, I3, Hg. unfold files_of in *; simpl.
    destruct (str_eqb f (fv_file v)) eqn:E; simpl.
    + apply str_eqb_eq in E; subst f. rewrite length_app; simpl.
      split; [lia|split].
      * destruct (filter _ vs) as [|w ws] eqn:Ef; [reflexivity|].
        symmetry; apply last_lines_cons; discriminate.
      * split; [intros [H _]; discriminate|intros [_ H]; discriminate].
    + repeat split; tauto.
Qed.

Lemma entry_add_method (vs : list MethodViolation) (d : dict FileScore)
    (f : str) :
  let e0 := or_default (get d f) in
  let e := or_default (get (fold_left add_method vs d) f) in
  length (violations e)
  = (length (violations e0) + length (methods_of f vs))%nat
  /\ lines e = lines e0
  /\ (get (fold_left add_method vs d) f = None <->
      get d f = None /\ methods_of f vs = []).
Proof.
  revert d; induction vs as [|v vs IH]; intros d; simpl.
  - repeat split; try lia; tauto.
  - destruct (IH (add_method d v)) as (I1 & I2 & I3).
    assert (Hg : get (add_method d v) f
                 = if str_eqb f (mv_file v)
                   then Some (mkFileScore
                          (score (or_default (get d (mv_file v)))
                           + (mv_lines v - 50) / 10)
                          (violations (or_default (get d (mv_file v)))
                           ++ [MethodTooLong (mv_method v) (mv_lines v)])
                          (lines (or_default (get d (mv_file v)))))
                   else get d f)
      by (unfold add_method; rewrite get_update; reflexivity).
    rewrite I1, I2, I3, Hg. unfold methods_of in *; simpl.
    destruct (str_eqb f (mv_file v)) eqn:E; simpl.
    + apply str_eqb_eq in E; subst f. rewrite length_app; simpl.
      split; [lia|split; [reflexivity|]].
      split; [intros [H _]; discriminate|intros [_ H]; discriminate].
    + repeat split; tauto.
Qed.

Lemma fold_update_nodup {V X : Type} (kf : X -> str)
    (uf : X -> option V -> V) (xs : list X) (d : dict V) :
  NoDup (keys d) ->
  NoDup (keys (fold_left (fun d x => update (kf x) (uf x) d) xs d)).
Proof.
  revert d; induction xs as [|x xs IH]; intros d H; simpl; [assumption|].
  apply IH, keys_update_nodup, H.
Qed.

(** X9.  The score table of [generate_report] has one entry for each file
    that has a violation and none for any other file; the entry lists as
    many violations as the file has, and its line count is that of the
    file's last oversized-file violation, or 0 when only its methods are
    oversized. *)
Theorem score_entries :
  forall (a : Analyzer) (f : str),
    NoDup (keys (file_scores a))
    /\ (get (file_scores a) f = None <->
        files_of f (v_files_over_500 a) = []
        /\ methods_of f (v_methods_over_50 a) = [])
    /\ forall e, get (file_scores a) f = Some e ->
         length (violations e)
         = (length (files_of f (v_files_over_500 a))
            + length (methods_of f (v_methods_over_50 a)))%nat
         /\ lines e = last_lines (files_of f (v_files_over_500 a)).
Proof.
  intros a f. unfold file_scores.
  set (d1 := fold_left add_file (v_files_over_500 a) []).
  destruct (entry_add_file (v_files_over_500 a) [] f) as (F1 & F2 & F3).
  destruct (entry_add_method (v_methods_over_50 a) d1 f) as (M1 & M2 & M3).
  fold d1 in F1, F2, F3. simpl in F1, F2, F3.
  split; [|split].
  - unfold d1, add_method, add_file.
    apply fold_update_nodup, fold_update_nodup. constructor.
  - rewrite M3, F3. tauto.
  - intros e He. rewrite He in M1, M2. simpl in M1, M2.
    rewrite M1, M2, F1, F2. split; [lia|].
    destruct (files_of f (v_files_over_500 a)); reflexivity.
Qed.

(** X6.  After a run of [analyze_project] the counters of the summary
    agree with the lists: so many oversized files and methods are counted
    as are listed, the number of critical violations is the length of both
    lists together, the files counted are those of the batch that are not
    excluded, all of them read, and the lines counted are, for each of
    them, one more than the newline characters of its text. *)
Theorem stats_agree_with_lists :
  forall (lib test : list (str * option str)) (a : Analyzer),
    analyze_project lib test = Some a ->
    files_over_500 a = Z.of_nat (length (v_files_over_500 a))
    /\ methods_over_50 a = Z.of_nat (length (v_methods_over_50 a))
    /\ critical_count a
       = Z.of_nat (length (v_files_over_500 a)
                   + length (v_methods_over_50 a))
    /\ total_files a = Z.of_nat (length (kept (lib ++ test)))
    /\ total_lines a = lines_in (kept (lib ++ test))
    /\ Forall (fun f => snd f <> None) (kept (lib ++ test))
    /\ forall content,
         line_count_of content
         = 1 + Z.of_nat (count_occ ascii_dec content nl).
Proof.
  intros lib test a H. unfold analyze_project in H.
  destruct (analyze_files init lib) as [a1|] eqn:E1; [|discriminate].
  apply analyze_files_counted in E1, H.
  destruct (counted_trans _ _ _ _ _ E1 H) as (H1 & H2 & H3 & H4 & H5).
  simpl in H1, H2, H3, H4. unfold critical_count.
  split; [lia|split; [lia|split; [lia|split; [lia|split; [lia|split]]]]].
  - assumption.
  - intros content. unfold line_count_of. rewrite split_nl_length. lia.
Qed.

Lemma stats_agree_with_lists_witness :
  exists a,
    analyze_project [(lit "lib/big.dart", Some big_file);
                     (lit "lib/x.g.dart", None)] [] = Some a
    /\ total_files a = 1 /\ critical_count a = 2.
Proof.
  destruct (analyze_project [(lit "lib/big.dart", Some big_file);
                             (lit "lib/x.g.dart", None)] [])
    as [a|] eqn:E; [|vm_compute in E; discriminate].
  exists a; split; [reflexivity|].
  destruct (stats_agree_with_lists _ _ a E) as (_ & _ & H3 & H4 & _).
  rewrite H3, H4. vm_compute in E. injection E as <-. split; reflexivity.
Defined.

Lemma analyze_file_some (a : Analyzer) (p : str) (read : option str) :
  analyze_file a p read <> None <-> (is_excluded p = false -> read <> None).
Proof.
  unfold analyze_file. destruct (is_excluded p).
  - split; [intros _ H; discriminate H|intros _; discriminate].
  - destruct read as [content|].
    + split; [intros _ _; discriminate|intros _; discriminate].
    + split; [intros H; now contradiction H|].
      intros H _. now apply H.
Qed.

Lemma analyze_files_some (files : list (str * option str)) (a : Analyzer) :
  analyze_files a files <> None <->
  Forall (fun f => snd f <> None) (kept files).
Proof.
  revert a; induction files as [|[p read] files IH]; intros a.
  - simpl. split; [constructor|discriminate].
  - pose proof (analyze_file_some a p read) as Hs.
    change (kept ((p, read) :: files))
      with (if negb (is_excluded p) then (p, read) :: kept files
            else kept files).
    simpl analyze_files.
    destruct (analyze_file a p read) as [a1|].
    + rewrite IH. destruct (is_excluded p); simpl; [reflexivity|].
      split.
      * intros H; constructor; [|exact H].
        simpl. apply Hs; [discriminate|reflexivity].
      * intros H; now inversion H.
    + split; [intros H; now contradiction H|].
      intros H. destruct (is_excluded p) eqn:Ex; simpl in H.
      * exfalso. apply (proj2 Hs); [discriminate|reflexivity].
      * inversion H as [|? ? Hr _]; subst. simpl in Hr.
        exfalso. apply (proj2 Hs); [|reflexivity]. intros _; exact Hr.
Qed.

(** X18.  A run of [analyze_project] comes to its end exactly when every
    file of the batch that is not excluded can be read: an excluded file is
    never opened, so it does no harm when it cannot be read, and one
    unreadable file that is not excluded is enough to lose the whole run.
    When the run ends, each analyzed prefix of the batch ended too. *)
Theorem run_ends_iff_all_read :
  forall (lib test : list (str * option str)),
    (analyze_project lib test <> None <->
     Forall (fun f => snd f <> None) (kept (lib ++ test)))
    /\ (analyze_project lib test <> None ->
        analyze_files init lib <> None).
Proof.
  intros lib test. unfold analyze_project, kept.
  rewrite filter_app, Forall_app.
  pose proof (analyze_files_some lib init) as Hl. unfold kept in Hl.
  destruct (analyze_files init lib) as [a|].
  - pose proof (analyze_files_some test a) as Ht. unfold kept in Ht.
    rewrite Ht. split; [|intros _; discriminate].
    split; [intros H; split; [apply Hl; discriminate|exact H]|tauto].
  - split; [|tauto].
    split; [intros H; now contradiction H|].
    intros [H _]. apply Hl in H. now contradiction H.
Qed.

End ProjectExtras.

(* ================================================================== *)
(** ** The plan of [generate_final_report.py] *)

Section PlanExtras.
Import Py Project.

Lemma ranking_update (k : str)
    (f : option FinalReport.Impact -> FinalReport.Impact)
    (f' : option FileScore -> FileScore)
    (d : dict FinalReport.Impact) (d' : dict FileScore) :
  plan_ranking d = report_ranking d' ->
  (forall o o', option_map FinalReport.score o = option_map score o' ->
                FinalReport.score (f o) = score (f' o')) ->
  plan_ranking (update k f d) = report_ranking (update k f' d').
Proof.
  intros Hv Hf. revert d' Hv.
  induction d as [|[k1 e] d IH]; intros [|[k2 e'] d'] Hv; simpl in *;
    try discriminate.
  - f_equal. f_equal. now apply Hf.
  - injection Hv as -> Hs Hv.
    destruct (str_eqb k k2); simpl.
    + f_equal; [|assumption]. f_equal. apply Hf; simpl; now rewrite Hs.
    + f_equal; [now rewrite Hs|]. now apply IH.
Qed.

Lemma ranking_files (vs : list FileViolation)
    (d : dict FinalReport.Impact) (d' : dict FileScore) :
  plan_ranking d = report_ranking d' ->
  plan_ranking (fold_left FinalReport.add_file vs d)
  = report_ranking (fold_left add_file vs d').
Proof.
  revert d d'; induction vs as [|v vs IH]; intros d d' H; simpl;
    [assumption|].
  apply IH. unfold FinalReport.add_file, add_file.
  apply ranking_update; [assumption|].
  intros [e|] [e'|]; simpl; try discriminate; intros H0; try reflexivity.
  injection H0 as ->; reflexivity.
Qed.

Lemma ranking_methods (vs : list MethodViolation)
    (d : dict FinalReport.Impact) (d' : dict FileScore) :
  plan_ranking d = report_ranking d' ->
  plan_ranking (fold_left FinalReport.add_method vs d)
  = report_ranking (fold_left add_method vs d').
Proof.
  revert d d'; induction vs as [|v vs IH]; intros d d' H; simpl;
    [assumption|].
  apply IH. unfold FinalReport.add_method, add_method.
  apply ranking_update; [assumption|].
  intros [e|] [e'|]; simpl; try discriminate; intros H0; try reflexivity.
  injection H0 as ->; reflexivity.
Qed.

Lemma map_insert_desc {A C : Type} (h : A -> C) (keyA : A -> Z)
    (keyC : C -> Z) (x : A) (l : list A) :
  (forall a, keyA a = keyC (h a)) ->
  map h (insert_desc keyA x l) = insert_desc keyC (h x) (map h l).
Proof.
  intros Hk. induction l as [|y l IH]; simpl; [reflexivity|].
  rewrite <- !Hk. destruct (keyA y <=? keyA x); simpl; [reflexivity|].
  now rewrite IH.
Qed.

Lemma map_sorted_desc {A C : Type} (h : A -> C) (keyA : A -> Z)
    (keyC : C -> Z) (l : list A) :
  (forall a, keyA a = keyC (h a)) ->
  map h (sorted_desc keyA l) = sorted_desc keyC (map h l).
Proof.
  intros Hk. induction l as [|x l IH]; simpl; [reflexivity|].
  now rewrite (map_insert_desc h keyA keyC), IH.
Qed.

Lemma rows_from_scores (r : Z) (l : list (str * FinalReport.Impact)) :
  map FinalReport.row_score (FinalReport.rows_from r l)
  = map snd (plan_ranking l)
  /\ map FinalReport.rank (FinalReport.rows_from r l)
     = map (fun n => r + Z.of_nat n) (seq 0 (length l)).
Proof.
  revert r; induction l as [|[f e] l IH]; intros r; simpl;
    [split; reflexivity|].
  destruct (IH (r + 1)) as [-> ->]. split; [reflexivity|].
  f_equal; [lia|]. rewrite <- seq_shift, map_map.
  apply map_ext; intros n; lia.
Qed.

(** X10.  The plan of [generate_final_report.py], computed again from the
    saved violations, ranks the same files with the same scores in the same
    order as the report of [analyze_project.py]; its rows carry these
    scores and the ranks 1, 2, 3 and so on. *)
Theorem plan_ranking_agrees_with_report :
  forall (a : Analyzer),
    let data := Some (v_files_over_500 a, v_methods_over_50 a) in
    plan_ranking
      (FinalReport.sorted_files (v_files_over_500 a) (v_methods_over_50 a))
    = report_ranking (sorted_files a)
    /\ map FinalReport.row_score (FinalReport.plan_rows data)
       = map snd (report_ranking (sorted_files a))
    /\ map FinalReport.rank (FinalReport.plan_rows data)
       = map (fun n => 1 + Z.of_nat n)
           (seq 0 (length (sorted_files a)))
    /\ FinalReport.plan_rows None = [].
Proof.
  intros a data.
  assert (H : plan_ranking
      (FinalReport.sorted_files (v_files_over_500 a) (v_methods_over_50 a))
    = report_ranking (sorted_files a)).
  { unfold FinalReport.sorted_files, sorted_files, plan_ranking,
      report_ranking.
    rewrite <- !firstn_map. f_equal.
    rewrite (map_sorted_desc _ _ snd) by reflexivity.
    rewrite (map_sorted_desc
               (fun x : str * FileScore => (fst x, score (snd x)))
               _ snd) by reflexivity.
    f_equal. apply ranking_methods, ranking_files. reflexivity. }
  split; [exact H|]. subst data; simpl FinalReport.plan_rows.
  destruct (rows_from_scores 1
              (FinalReport.sorted_files (v_files_over_500 a)
                 (v_methods_over_50 a))) as [-> ->].
  rewrite H. split; [reflexivity|split; [|reflexivity]].
  f_equal. f_equal.
  apply (f_equal (@length _)) in H.
  unfold plan_ranking, report_ranking in H. now rewrite !length_map in H.
Qed.

Lemma size_add_file (vs : list FileViolation) (d : dict FinalReport.Impact)
    (f : str) :
  match get (fold_left FinalReport.add_file vs d) f with
  | Some e => FinalReport.size e
              = match get d f with
                | Some e0 => FinalReport.size e0
                | None => first_lines (files_of f vs)
                end
  | None => get d f = None /\ files_of f vs = []
  end.
Proof.
  revert d; induction vs as [|v vs IH]; intros d; simpl.
  - destruct (get d f); auto.
  - specialize (IH (FinalReport.add_file d v)).
    assert (Hg : get (FinalReport.add_file d v) f
                 = if str_eqb f (fv_file v)
                   then Some (FinalReport.mkImpact
                     (FinalReport.score
                        match get d (fv_file v) with
                        | Some e => e
                        | None => FinalReport.mkImpact 0 (fv_lines v) []
                        end + fv_excess v / 100 * 10)
                     (FinalReport.size
                        match get d (fv_file v) with
                        | Some e => e
                        | None => FinalReport.mkImpact 0 (fv_lines v) []
                        end)
                     (FinalReport.issues
                        match get d (fv_file v) with
                        | Some e => e
                        | None => FinalReport.mkImpact 0 (fv_lines v) []
                        end ++ [FinalReport.Size (fv_lines v)]))
                   else get d f)
      by (unfold FinalReport.add_file; rewrite get_update; reflexivity).
    rewrite Hg in IH. unfold files_of in *; simpl.
    destruct (str_eqb f (fv_file v)) eqn:E; simpl in *.
    + apply str_eqb_eq in E; subst f.
      destruct (get (fold_left FinalReport.add_file vs _) (fv_file v));
        [|destruct IH; discriminate].
      rewrite IH. destruct (get d (fv_file v)); reflexivity.
    + exact IH.
Qed.

Lemma size_add_method (vs : list MethodViolation)
    (d : dict FinalReport.Impact) (f : str) :
  match get (fold_left FinalReport.add_method vs d) f with
  | Some e => FinalReport.size e
              = match get d f with
                | Some e0 => FinalReport.size e0
                | None => 0
                end
  | None => get d f = None
  end.
Proof.
  revert d; induction vs as [|v vs IH]; intros d; simpl.
  - destruct (get d f); auto.
  - specialize (IH (FinalReport.add_method d v)).
    assert (Hg : get (FinalReport.add_method d v) f
                 = if str_eqb f (mv_file v)
                   then Some (FinalReport.mkImpact
                     (FinalReport.score
                        match get d (mv_file v) with
                        | Some e => e
                        | None => FinalReport.mkImpact 0 0 []
                        end + (mv_lines v - 50) / 10)
                     (FinalReport.size
                        match get d (mv_file v) with
                        | Some e => e
                        | None => FinalReport.mkImpact 0 0 []
                        end)
                     (FinalReport.issues
                        match get d (mv_file v) with
                        | Some e => e
                        | None => FinalReport.mkImpact 0 0 []
                        end
                      ++ [FinalReport.Method (mv_method v) (mv_lines v)]))
                   else get d f)
      by (unfold FinalReport.add_method; rewrite get_update; reflexivity).
    rewrite Hg in IH.
    destruct (str_eqb f (mv_file v)) eqn:E; simpl in *; [|exact IH].
    apply str_eqb_eq in E; subst f.
    destruct (get (fold_left FinalReport.add_method vs _) (mv_file v));
      [|discriminate].
    rewrite IH. destruct (get d (mv_file v)); reflexivity.
Qed.

(** X11.  In the plan, the size of a file is the line count of its first
    oversized-file violation, and 0 for a file that has only oversized
    methods.  When every oversized-file violation has more than 500 lines,
    as a run of [analyze_project.py] records them, a file is given the
    method-refactoring strategy exactly when it has no oversized-file
    violation, and the major split exactly when that line count is above
    1000. *)
Theorem plan_strategy_follows_file_size :
  forall (fvs : list FileViolation) (mvs : list MethodViolation)
         (f : str) (e : FinalReport.Impact),
    get (FinalReport.file_impacts fvs mvs) f = Some e ->
    FinalReport.size e = first_lines (files_of f fvs)
    /\ (Forall (fun v => 500 < fv_lines v) fvs ->
        (FinalReport.strategy e = FinalReport.RefactorMethods <->
         files_of f fvs = [])
        /\ (FinalReport.strategy e = FinalReport.MajorSplit <->
            1000 < first_lines (files_of f fvs))).
Proof.
  intros fvs mvs f e He. unfold FinalReport.file_impacts in He.
  pose proof (size_add_method mvs (fold_left FinalReport.add_file fvs []) f)
    as Hm.
  pose proof (size_add_file fvs [] f) as Hf.
  rewrite He in Hm. simpl in Hf.
  assert (Hs : FinalReport.size e = first_lines (files_of f fvs)).
  { destruct (get (fold_left FinalReport.add_file fvs []) f) as [e0|].
    - congruence.
    - destruct Hf as [_ ->]. exact Hm. }
  split; [exact Hs|]. intros Hall.
  unfold FinalReport.strategy. rewrite Hs.
  assert (Hpos : files_of f fvs <> [] -> 500 < first_lines (files_of f fvs)).
  { unfold files_of. intros Hne.
    destruct (filter _ fvs) as [|v l] eqn:E; [contradiction|]. simpl.
    assert (In v (filter (fun v0 => str_eqb f (fv_file v0)) fvs))
      by (rewrite E; now left).
    apply filter_In in H as [H _].
    exact (proj1 (Forall_forall _ _) Hall v H). }
  destruct (files_of f fvs) as [|v l] eqn:E.
  - simpl. split; split; try reflexivity; try discriminate; intros; lia.
  - specialize (Hpos ltac:(discriminate)).
    destruct (first_lines (v :: l) >? 1000) eqn:E1.
    + split; split; try discriminate; try reflexivity; intros; lia.
    + replace (first_lines (v :: l) >? 500) with true by (symmetry; lia).
      split; split; try discriminate; intros; lia.
Qed.

Lemma plan_strategy_follows_file_size_witness :
  FinalReport.size
    (FinalReport.mkImpact 12 650 [FinalReport.Size 650;
                                  FinalReport.Method (Some (lit "f")) 75])
  = 650.
Proof.
  apply (plan_strategy_follows_file_size
           [mkFileViolation (lit "lib/big.dart") 650 150]
           [mkMethodViolation (lit "lib/big.dart") (Some (lit "f")) 75 1 75]
           (lit "lib/big.dart")).
  reflexivity.
Defined.

End PlanExtras.

(* ================================================================== *)
(** ** Further properties of the symbol index *)

Section IndexExtras.
Import Py Re DeadCode.

Lemma existsb_str (name : str) (l : list str) :
  existsb (str_eqb name) l = true <-> In name l.
Proof.
  rewrite existsb_exists. split.
  - intros (x & Hx & E); apply str_eqb_eq in E; now subst.
  - intros H; exists name; split; [assumption|apply str_eqb_refl].
Qed.

Lemma keys_update_in {V : Type} (k x : str) (g : option V -> V)
    (d : dict V) :
  In x (keys (update k g d)) <-> x = k \/ In x (keys d).
Proof.
  rewrite keys_update.
  destruct (existsb (str_eqb k) (keys d)) eqn:E.
  - apply existsb_str in E. split; [auto|intros [->|H]; auto].
  - rewrite in_app_iff; simpl. intuition.
Qed.

Lemma define_keys (f : str) (names : list str) (d : dict (list str))
    (x : str) :
  In x (keys (fold_left (define f) names d)) <->
  In x (keys d) \/ In x names.
Proof.
  revert d; induction names as [|n names IH]; intros d; simpl;
    [tauto|].
  rewrite IH. unfold define. rewrite keys_update_in. intuition.
Qed.

Lemma define_nodup (f : str) (names : list str) (d : dict (list str)) :
  NoDup (keys d) -> NoDup (keys (fold_left (define f) names d)).
Proof.
  revert d; induction names as [|n names IH]; intros d H; simpl;
    [assumption|].
  apply IH, keys_update_nodup, H.
Qed.

(** The usage counter after the classes [ks] were looked for in a text. *)
Lemma add_usage_count (content : str) (ks : list str) (u : dict Z)
    (name : str) :
  NoDup ks ->
  usage_of (fold_left (add_usage content) ks u) name
  = usage_of u name
    + if existsb (str_eqb name) ks
         && re_search (usage_pattern name) content
      then 1 else 0.
Proof.
  revert u; induction ks as [|k ks IH]; intros u Hn; simpl; [lia|].
  inversion Hn as [|? ? Hk Hn']; subst.
  rewrite IH by assumption.
  assert (Hu : usage_of (add_usage content u k) name
               = usage_of u name
                 + if str_eqb name k
                      && re_search (usage_pattern name) content
                   then 1 else 0).
  { unfold add_usage, usage_of.
    destruct (str_eqb name k) eqn:E.
    - apply str_eqb_eq in E; subst k.
      destruct (re_search (usage_pattern name) content); simpl; [|lia].
      rewrite get_update, str_eqb_refl. destruct (get u name); lia.
    - destruct (re_search (usage_pattern k) content); simpl; [|lia].
      rewrite get_update, E. lia. }
  rewrite Hu.
  destruct (str_eqb name k) eqn:E; simpl; [|lia].
  apply str_eqb_eq in E; subst k.
  replace (existsb (str_eqb name) ks) with false; [simpl; lia|].
  symmetry. destruct (existsb (str_eqb name) ks) eqn:Ex; [|reflexivity].
  apply existsb_str in Ex. contradiction.
Qed.

(** The class table and the counter of a class after one more file. *)
Lemma analyze_one_usage (read : str -> option str) (a : Analyzer)
    (f name : str) :
  NoDup (keys (class_definitions a)) ->
  let a' := analyze_one read a f in
  NoDup (keys (class_definitions a'))
  /\ (In name (keys (class_definitions a')) <->
      In name (keys (class_definitions a)) \/ declares read name f = true)
  /\ usage_count a' name
     = usage_count a name
       + if existsb (str_eqb name) (keys (class_definitions a'))
            && mentions read name f
         then 1 else 0.
Proof.
  intros Hn. unfold declares, mentions.
  destruct (read f) as [content|] eqn:Hr.
  - destruct (analyze_one_classes read a f content Hr) as [Hd Hu].
    cbv zeta in *. unfold usage_count. rewrite Hu, Hd.
    split; [now apply define_nodup|split].
    + rewrite define_keys, existsb_str. reflexivity.
    + apply add_usage_count. now apply define_nodup.
  - cbv zeta. unfold analyze_one; rewrite Hr.
    split; [assumption|split; [intuition discriminate|]].
    rewrite andb_false_r. lia.
Qed.

Lemma usage_before_declaration (read : str -> option str) (fs : list str)
    (a : Analyzer) (name : str) :
  NoDup (keys (class_definitions a)) ->
  ~ In name (keys (class_definitions a)) ->
  (forall g, In g fs -> declares read name g = false) ->
  let a' := fold_left (analyze_one read) fs a in
  NoDup (keys (class_definitions a'))
  /\ ~ In name (keys (class_definitions a'))
  /\ usage_count a' name = usage_count a name.
Proof.
  revert a; induction fs as [|f fs IH]; intros a Hn Hk Hd; simpl; [auto|].
  destruct (analyze_one_usage read a f name Hn) as (N1 & K1 & U1).
  assert (Hk1 : ~ In name (keys (class_definitions (analyze_one read a f)))).
  { rewrite K1. intros [H|H]; [contradiction|].
    rewrite (Hd f) in H by (now left). discriminate. }
  destruct (IH (analyze_one read a f) N1 Hk1) as (N2 & K2 & U2).
  { intros g Hg; apply Hd; now right. }
  split; [assumption|split; [assumption|]].
  cbv zeta in U2. rewrite U2, U1.
  replace (existsb (str_eqb name)
             (keys (class_definitions (analyze_one read a f))))
    with false; [simpl; lia|].
  symmetry. destruct (existsb _ _) eqn:E; [|reflexivity].
  apply existsb_str in E. contradiction.
Qed.

Lemma usage_after_declaration (read : str -> option str) (fs : list str)
    (a : Analyzer) (name : str) :
  NoDup (keys (class_definitions a)) ->
  In name (keys (class_definitions a)) ->
  let a' := fold_left (analyze_one read) fs a in
  NoDup (keys (class_definitions a'))
  /\ In name (keys (class_definitions a'))
  /\ usage_count a' name
     = usage_count a name
       + Z.of_nat (length (filter (mentions read name) fs)).
Proof.
  revert a; induction fs as [|f fs IH]; intros a Hn Hk; simpl;
    [repeat split; auto; lia|].
  destruct (analyze_one_usage read a f name Hn) as (N1 & K1 & U1).
  assert (Hk1 : In name (keys (class_definitions (analyze_one read a f))))
    by (rewrite K1; now left).
  destruct (IH (analyze_one read a f) N1 Hk1) as (N2 & K2 & U2).
  split; [assumption|split; [assumption|]].
  cbv zeta in U2. rewrite U2, U1.
  replace (existsb (str_eqb name)
             (keys (class_definitions (analyze_one read a f))))
    with true by (symmetry; now apply existsb_str).
  simpl. destruct (mentions read name f); simpl length; lia.
Qed.

Lemma declares_mentions (read : str -> option str) (name f : str) :
  declares read name f = true -> mentions read name f = true.
Proof.
  unfold declares, mentions. destruct (read f) as [content|];
    [|discriminate].
  intros H. apply class_name_is_used. now apply existsb_str.
Qed.

(** The counter of a class from the first file that declares it. *)
Lemma usage_from_first (read : str -> option str)
    (lib test pre post : list str) (first name : str) :
  lib ++ test = pre ++ first :: post ->
  (forall g, In g pre -> declares read name g = false) ->
  declares read name first = true ->
  let a := analyze_imports_exports read (scanned lib test) in
  NoDup (keys (class_definitions a))
  /\ In name (keys (class_definitions a))
  /\ usage_count a name
     = Z.of_nat (length (filter (mentions read name) (first :: post))).
Proof.
  intros Hall Hpre Hfirst a. subst a.
  unfold analyze_imports_exports. simpl lib_files; simpl test_files.
  rewrite Hall, fold_left_app. simpl fold_left.
  set (a0 := fold_left (analyze_one read) pre (scanned lib test)).
  destruct (usage_before_declaration read pre (scanned lib test) name)
    as (N0 & K0 & U0); [constructor|intros []|assumption|].
  fold a0 in N0, K0, U0.
  destruct (analyze_one_usage read a0 first name N0) as (N1 & K1 & U1).
  assert (Hk1 : In name
                  (keys (class_definitions (analyze_one read a0 first))))
    by (rewrite K1; now right).
  destruct (usage_after_declaration read post (analyze_one read a0 first)
              name N1 Hk1) as (N2 & K2 & U2).
  split; [assumption|split; [assumption|]].
  cbv zeta in U2. rewrite U2, U1, U0.
  replace (existsb (str_eqb name)
             (keys (class_definitions (analyze_one read a0 first))))
    with true by (symmetry; now apply existsb_str).
  simpl filter. rewrite (declares_mentions _ _ _ Hfirst).
  change (usage_count (scanned lib test) name) with 0.
  simpl andb. cbv iota. simpl length. rewrite Nat2Z.inj_succ. lia.
Qed.

(** X12.  The usage count of a class is the number of files, from the
    first file that declares it on, whose text holds its name as a whole
    word; that first file is one of them, and files met before it are not
    counted even when they name the class. *)
Theorem usage_count_from_first_declaration :
  forall (read : str -> option str) (lib test pre post : list str)
         (first name : str),
    lib ++ test = pre ++ first :: post ->
    (forall g, In g pre -> declares read name g = false) ->
    declares read name first = true ->
    let a := analyze_imports_exports read (scanned lib test) in
    usage_count a name
    = Z.of_nat (length (filter (mentions read name) (first :: post)))
    /\ mentions read name first = true
    /\ 1 <= usage_count a name <= Z.of_nat (length (first :: post)).
Proof.
  intros read lib test pre post first name Hall Hpre Hfirst a.
  destruct (usage_from_first read lib test pre post first name Hall Hpre
              Hfirst) as (_ & _ & Hu).
  fold a in Hu. pose proof (declares_mentions _ _ _ Hfirst) as Hm.
  split; [exact Hu|split; [exact Hm|]].
  rewrite Hu. simpl filter. rewrite Hm. simpl length.
  pose proof (filter_length_le (mentions read name) post). lia.
Qed.

Lemma usage_count_from_first_declaration_witness :
  usage_count
    (analyze_imports_exports (disk used_class)
       (scanned [lit "lib/user.dart"; lit "lib/def.dart"] []))
    (lit "Foo") = 1.
Proof.
  destruct (usage_count_from_first_declaration (disk used_class)
              [lit "lib/user.dart"; lit "lib/def.dart"] []
              [lit "lib/user.dart"] [] (lit "lib/def.dart") (lit "Foo"))
    as [H _].
  - reflexivity.
  - intros g [<-|[]]. reflexivity.
  - reflexivity.
  - rewrite H. reflexivity.
Defined.

Lemma first_split {A : Type} (p : A -> bool) (l : list A) :
  existsb p l = true ->
  exists pre x post,
    l = pre ++ x :: post /\ (forall g, In g pre -> p g = false)
    /\ p x = true.
Proof.
  induction l as [|y l IH]; simpl; [discriminate|].
  destruct (p y) eqn:E; simpl.
  - intros _. exists [], y, l. repeat split; auto. intros g [].
  - intros H. destruct (IH H) as (pre & x & post & -> & Hp & Hx).
    exists (y :: pre), x, post. repeat split; auto.
    intros g [<-|Hg]; auto.
Qed.

Lemma existsb_false {A : Type} (p : A -> bool) (l : list A) :
  existsb p l = false -> forall g, In g l -> p g = false.
Proof.
  intros H g Hg. destruct (p g) eqn:E; [|reflexivity].
  rewrite <- H. symmetry. apply existsb_exists. now exists g.
Qed.

(** A class of the table is declared by a file of the corpus, and counted
    at least once and at most once for each file. *)
Lemma usage_bounds (read : str -> option str) (lib test : list str)
    (name : str) :
  let a := analyze_imports_exports read (scanned lib test) in
  NoDup (keys (class_definitions a))
  /\ (In name (keys (class_definitions a)) ->
      1 <= usage_count a name <= Z.of_nat (length (lib ++ test))).
Proof.
  intros a.
  destruct (existsb (declares read name) (lib ++ test)) eqn:E.
  - apply first_split in E as (pre & first & post & Hall & Hpre & Hf).
    destruct (usage_from_first read lib test pre post first name Hall Hpre
                Hf) as (Hn & _ & Hu).
    fold a in Hn, Hu. split; [assumption|]. intros _. rewrite Hu, Hall.
    simpl filter. rewrite (declares_mentions _ _ _ Hf).
    pose proof (filter_length_le (mentions read name) post).
    rewrite length_app. simpl length. lia.
  - destruct (usage_before_declaration read (lib ++ test)
                (scanned lib test) name) as (Hn & Hk & _);
      [constructor|intros []|now apply existsb_false|].
    split; [exact Hn|]. intros H. contradiction.
Qed.

Lemma sorted_asc_constant {A : Type} (key : A -> Z) (k : Z) (l : list A) :
  (forall x, In x l -> key x = k) -> sorted_asc key l = l.
Proof.
  induction l as [|x l IH]; intros H; simpl; [reflexivity|].
  rewrite IH by (intros; apply H; now right).
  destruct l as [|y l]; simpl; [reflexivity|].
  rewrite (H x), (H y) by (simpl; auto).
  now rewrite Z.leb_refl.
Qed.

Lemma unused_classes_names (a : Analyzer) :
  NoDup (keys (class_definitions a)) ->
  NoDup (map uc_class (unused_classes a)).
Proof.
  unfold unused_classes, keys.
  induction (class_definitions a) as [|[k fl] d IH]; simpl;
    [constructor|].
  intros Hn; inversion Hn as [|? ? Hk Hd]; subst.
  destruct (usage_count a k <=? 1); simpl; [|now apply IH].
  constructor; [|now apply IH].
  intros Hin. apply Hk. apply in_map_iff in Hin as (u & Hu & Hin).
  apply in_flat_map in Hin as ([k' fl'] & Hin & Hx). simpl in Hx.
  destruct (usage_count a k' <=? 1); [|contradiction].
  destruct Hx as [<-|[]]. simpl in Hu. subst k'.
  apply in_map_iff. now exists (k, fl').
Qed.

(** X13.  Every class of the table is counted at least once, since the
    file that declares it names it, and at most once for each file.  So
    the candidates of [find_unused_classes] all show the count 1, the
    default 0 of the lookup is never met, the sort by count leaves them in
    the order of the class table, and no class is listed twice. *)
Theorem candidates_are_counted_once :
  forall (read : str -> option str) (lib test : list str),
    let a := analyze_imports_exports read (scanned lib test) in
    (forall name, In name (keys (class_definitions a)) ->
       1 <= usage_count a name <= Z.of_nat (length (lib ++ test)))
    /\ Forall (fun u => uc_usage_count u = 1
                        /\ get (class_definitions a) (uc_class u)
                           = Some (uc_defined_in u))
         (find_unused_classes a)
    /\ find_unused_classes a = unused_classes a
    /\ NoDup (map uc_class (find_unused_classes a)).
Proof.
  intros read lib test a.
  assert (Hn : NoDup (keys (class_definitions a)))
    by (apply (usage_bounds read lib test [])).
  assert (Hb : forall name, In name (keys (class_definitions a)) ->
                 1 <= usage_count a name <= Z.of_nat (length (lib ++ test)))
    by (intros name; apply (usage_bounds read lib test name)).
  assert (Hone : forall u, In u (unused_classes a) ->
                   uc_usage_count u = 1
                   /\ get (class_definitions a) (uc_class u)
                      = Some (uc_defined_in u)).
  { intros u Hu. unfold unused_classes in Hu.
    apply in_flat_map in Hu as ([k fl] & Hin & Hx). simpl in Hx.
    destruct (usage_count a k <=? 1) eqn:E; [|contradiction].
    destruct Hx as [<-|[]]. simpl.
    assert (In k (keys (class_definitions a)))
      by (apply in_map_iff; now exists (k, fl)).
    split; [specialize (Hb k H); lia|now apply In_get]. }
  assert (Hs : find_unused_classes a = unused_classes a).
  { unfold find_unused_classes. apply (sorted_asc_constant _ 1).
    intros u Hu; now apply Hone. }
  split; [exact Hb|split; [|split; [exact Hs|]]].
  - rewrite Hs. apply Forall_forall. exact Hone.
  - rewrite Hs. now apply unused_classes_names.
Qed.

Lemma set_add_in (x y : str) (l : list str) :
  In x (set_add y l) <-> x = y \/ In x l.
Proof.
  unfold set_add. destruct (existsb (str_eqb y) l) eqn:E.
  - apply existsb_str in E. split; [auto|intros [->|H]; auto].
  - rewrite in_app_iff; simpl. intuition.
Qed.

Lemma set_add_nodup (y : str) (l : list str) :
  NoDup l -> NoDup (set_add y l).
Proof.
  intros H. unfold set_add. destruct (existsb (str_eqb y) l) eqn:E;
    [assumption|].
  apply NoDup_app; [assumption|repeat constructor; easy|].
  intros x Hx [->|[]].
  assert (existsb (str_eqb x) l = true) as Ht; [|congruence].
  now apply existsb_str.
Qed.

Lemma add_import_spec (f : str) (l : list str) (a : Analyzer) :
  imports_ok a ->
  imports_ok (fold_left (add_import f) l a)
  /\ forall g imp,
       In imp (imports_of (fold_left (add_import f) l a) g) <->
       In imp (imports_of a g)
       \/ (g = f /\ In imp l /\ is_recorded imp = true).
Proof.
  revert a; induction l as [|x l IH]; intros a Hok; simpl.
  - split; [assumption|]. intros g imp; tauto.
  - assert (H1 : imports_ok (add_import f a x)
                 /\ forall g imp,
                      In imp (imports_of (add_import f a x) g) <->
                      In imp (imports_of a g)
                      \/ (g = f /\ imp = x /\ is_recorded imp = true)).
    { unfold add_import. fold (is_recorded x).
      destruct (is_recorded x) eqn:Er.
      - destruct Hok as [Hk Hs]. unfold imports_ok, imports_of; simpl.
        split; [split|].
        + now apply keys_update_nodup.
        + intros g. rewrite get_update.
          destruct (str_eqb g f) eqn:E; [|apply Hs].
          apply str_eqb_eq in E; subst g. apply set_add_nodup.
          apply (Hs f).
        + intros g imp. rewrite get_update.
          destruct (str_eqb g f) eqn:E.
          * apply str_eqb_eq in E; subst g. rewrite set_add_in.
            split; [intros [->|H]; auto|].
            intros [H|(_ & -> & _)]; auto.
          * assert (g <> f) as Hne
              by (intros ->; rewrite str_eqb_refl in E; discriminate).
            split; [auto|].
            intros [H|(-> & _)]; [assumption|contradiction].
      - split; [assumption|]. intros g imp. split; [auto|].
        intros [H|(_ & -> & H)]; [assumption|congruence]. }
    destruct H1 as [Hok1 H1]. destruct (IH _ Hok1) as [Hok2 H2].
    split; [assumption|]. intros g imp. rewrite H2, H1.
    split.
    + intros [[H|(Hg & -> & Hr)]|(Hg & Hin & Hr)]; auto.
    + intros [H|(Hg & [<-|Hin] & Hr)]; auto.
Qed.

Lemma fold_export_imports (f : str) (l : list str) (a : Analyzer) :
  imports (fold_left (add_export f) l a) = imports a.
Proof.
  revert a; induction l as [|x l IH]; intros a; simpl; [reflexivity|].
  now rewrite IH.
Qed.

Lemma fold_class_imports (f : str) (l : list str) (a : Analyzer) :
  imports (fold_left (add_class f) l a) = imports a.
Proof.
  revert a; induction l as [|x l IH]; intros a; simpl; [reflexivity|].
  now rewrite IH.
Qed.

Lemma analyze_one_imports (read : str -> option str) (a : Analyzer)
    (f : str) :
  imports (analyze_one read a f)
  = match read f with
    | Some content =>
        imports (fold_left (add_import f) (groups1 import_pattern content) a)
    | None => imports a
    end.
Proof.
  unfold analyze_one. destruct (read f); [|reflexivity]. simpl.
  now rewrite fold_class_imports, fold_export_imports.
Qed.

Lemma analyze_files_imports (read : str -> option str) (fs : list str)
    (a : Analyzer) :
  imports_ok a ->
  imports_ok (fold_left (analyze_one read) fs a)
  /\ forall g imp,
       In imp (imports_of (fold_left (analyze_one read) fs a) g) <->
       In imp (imports_of a g)
       \/ (In g fs
           /\ exists content,
                read g = Some content
                /\ In imp (groups1 import_pattern content)
                /\ is_recorded imp = true).
Proof.
  revert a; induction fs as [|f fs IH]; intros a Hok; simpl.
  - split; [assumption|]. intros g imp. split; [auto|].
    intros [H|([] & _)]; assumption.
  - assert (H1 : imports_ok (analyze_one read a f)
                 /\ forall g imp,
                      In imp (imports_of (analyze_one read a f) g) <->
                      In imp (imports_of a g)
                      \/ (g = f
                          /\ exists content,
                               read g = Some content
                               /\ In imp (groups1 import_pattern content)
                               /\ is_recorded imp = true)).
    { unfold imports_ok, imports_of. rewrite analyze_one_imports.
      destruct (read f) as [content|] eqn:Hr.
      - destruct (add_import_spec f (groups1 import_pattern content) a Hok)
          as [Hok1 H1].
        split; [exact Hok1|]. intros g imp.
        unfold imports_of in H1. rewrite H1. split.
        + intros [H|(-> & Hin & Hrec)]; auto.
          right; split; [reflexivity|]. now exists content.
        + intros [H|(-> & c & Hc & Hin & Hrec)]; auto.
          right. rewrite Hr in Hc. injection Hc as <-. auto.
      - split; [exact Hok|]. intros g imp. split; [auto|].
        intros [H|(-> & c & Hc & _)]; [assumption|congruence]. }
    destruct H1 as [Hok1 H1]. destruct (IH _ Hok1) as [Hok2 H2].
    split; [assumption|]. intros g imp. rewrite H2, H1. split.
    + intros [[H|(-> & Hc)]|(Hin & Hc)]; auto.
    + intros [H|([<-|Hin] & Hc)]; auto.
Qed.

(** X14.  After [analyze_imports_exports] the string [imp] is recorded
    for the file [g] exactly when [g] is a file of the corpus that could
    be read, some import statement of its text names [imp], and [imp] starts
    neither with [package:flutter] nor with [dart:].  A string is recorded
    once for a file however often the file imports it. *)
Theorem recorded_imports :
  forall (read : str -> option str) (lib test : list str) (g imp : str),
    let a := analyze_imports_exports read (scanned lib test) in
    (In imp (imports_of a g) <->
     In g (lib ++ test)
     /\ exists content,
          read g = Some content
          /\ In imp (groups1 import_pattern content)
          /\ startswith imp (lit "package:flutter") = false
          /\ startswith imp (lit "dart:") = false)
    /\ NoDup (imports_of a g)
    /\ NoDup (keys (imports a))
    /\ (In imp (all_imports a) ->
        startswith imp (lit "package:flutter") = false
        /\ startswith imp (lit "dart:") = false).
Proof.
  intros read lib test g imp a.
  destruct (analyze_files_imports read (lib ++ test) (scanned lib test))
    as [[Hk Hs] H]; [split; [constructor|intros g0; constructor]|].
  change (fold_left (analyze_one read) (lib ++ test) (scanned lib test))
    with a in Hk, Hs, H.
  assert (Hrec : forall x, is_recorded x = true <->
                   startswith x (lit "package:flutter") = false
                   /\ startswith x (lit "dart:") = false).
  { intros x. unfold is_recorded.
    rewrite andb_true_iff, !negb_true_iff. reflexivity. }
  assert (Hiff : forall g0 x, In x (imports_of a g0) <->
     In g0 (lib ++ test)
     /\ exists content,
          read g0 = Some content
          /\ In x (groups1 import_pattern content)
          /\ startswith x (lit "package:flutter") = false
          /\ startswith x (lit "dart:") = false).
  { intros g0 x. rewrite H. split.
    - intros [[]|(Hin & c & Hc & Hi & Hr)].
      split; [assumption|]. exists c. apply Hrec in Hr. tauto.
    - intros (Hin & c & Hc & Hi & Hr). right. split; [assumption|].
      exists c. rewrite Hrec. tauto. }
  split; [apply Hiff|split; [apply Hs|split; [exact Hk|]]].
  intros Hin. unfold all_imports in Hin.
  apply in_flat_map in Hin as ([g0 l] & Hg & Hl). simpl in Hl.
  apply In_get in Hg; [|assumption].
  assert (In imp (imports_of a g0))
    by (unfold imports_of; now rewrite Hg).
  apply Hiff in H0 as (_ & c & _ & _ & Hr). exact Hr.
Qed.

(** X15.  Recording more import strings never makes a file dead: when two
    analyzers list the same library files and every import string of the
    first is also recorded in the second, every file reported dead by the
    second is reported dead by the first. *)
Theorem more_imports_fewer_dead_files :
  forall (pf : platform) (a a' : Analyzer) (f : str),
    lib_files a = lib_files a' ->
    (forall imp, In imp (all_imports a) -> In imp (all_imports a')) ->
    In f (find_unused_files pf a') -> In f (find_unused_files pf a).
Proof.
  intros pf a a' f Hl Hsub. unfold find_unused_files.
  rewrite !filter_In, Hl, !andb_true_iff, !negb_true_iff.
  intros (Hin & Hs & Hi). repeat split; try assumption.
  unfold is_imported in *.
  destruct (existsb _ (all_imports a)) eqn:E; [|reflexivity].
  apply existsb_exists in E as (imp & Himp & Ho).
  rewrite <- Hi. symmetry. apply existsb_exists.
  exists imp; split; [now apply Hsub|assumption].
Qed.

Lemma more_imports_fewer_dead_files_witness :
  In (lit "lib/orphan.dart")
    (find_unused_files Posix
       (mkAnalyzer (lib_files helper_tree) [] [] [] [] [])).
Proof.
  apply (more_imports_fewer_dead_files Posix
           (mkAnalyzer (lib_files helper_tree) [] [] [] [] [])
           helper_tree).
  - reflexivity.
  - intros imp [].
  - vm_compute. now left.
Defined.

Lemma define_files (f : str) (names : list str) (d : dict (list str))
    (name x : str) :
  In x (defined_in (fold_left (define f) names d) name) <->
  In x (defined_in d name) \/ (x = f /\ In name names).
Proof.
  revert d; induction names as [|n names IH]; intros d; simpl.
  - split; [auto|intros [H|[_ []]]; assumption].
  - rewrite IH. unfold defined_in at 1, define at 1. rewrite get_update.
    destruct (str_eqb name n) eqn:E.
    + apply str_eqb_eq in E; subst n. rewrite in_app_iff. simpl.
      unfold defined_in. split.
      * intros [[H|[<-|[]]]|[-> H]]; auto.
      * intros [H|[-> [_|H]]]; auto.
    + assert (name <> n) as Hne
        by (intros ->; rewrite str_eqb_refl in E; discriminate).
      unfold defined_in. split.
      * intros [H|[-> H]]; auto.
      * intros [H|[-> [->|H]]]; auto. contradiction.
Qed.

Lemma analyze_files_defined (read : str -> option str) (fs : list str)
    (a : Analyzer) (name x : str) :
  In x (defined_in
          (class_definitions (fold_left (analyze_one read) fs a)) name) <->
  In x (defined_in (class_definitions a) name)
  \/ (In x fs /\ declares read name x = true).
Proof.
  revert a; induction fs as [|f fs IH]; intros a; simpl.
  - split; [auto|intros [H|[[] _]]; assumption].
  - rewrite IH.
    assert (H1 : In x (defined_in
                        (class_definitions (analyze_one read a f)) name) <->
                 In x (defined_in (class_definitions a) name)
                 \/ (x = f /\ declares read name x = true)).
    { unfold declares. destruct (read f) as [content|] eqn:Hr.
      - destruct (analyze_one_classes read a f content Hr) as [Hd _].
        cbv zeta in Hd. rewrite Hd, define_files. split.
        + intros [H|[-> H]]; auto. right; split; [reflexivity|].
          rewrite Hr. now apply existsb_str.
        + intros [H|[-> H]]; auto. right; split; [reflexivity|].
          rewrite Hr in H. now apply existsb_str.
      - unfold analyze_one; rewrite Hr. split; [auto|].
        intros [H|[-> H]]; [assumption|]. rewrite Hr in H. discriminate. }
    rewrite H1. split.
    + intros [[H|[-> H]]|[H H']]; auto.
    + intros [H|[[<-|H] H']]; auto.
Qed.

(** X19.  The files that the class table lists for a class are exactly
    the files of the corpus that could be read and declare the class; a
    class is in the table only if some file declares it. *)
Theorem defined_in_are_the_declaring_files :
  forall (read : str -> option str) (lib test : list str) (name : str),
    let a := analyze_imports_exports read (scanned lib test) in
    (forall f, In f (defined_in (class_definitions a) name) <->
               In f (lib ++ test) /\ declares read name f = true)
    /\ (In name (keys (class_definitions a)) <->
        exists f, In f (lib ++ test) /\ declares read name f = true)
    /\ forall l, get (class_definitions a) name = Some l -> l <> [].
Proof.
  intros read lib test name a.
  assert (Hf : forall f, In f (defined_in (class_definitions a) name) <->
                 In f (lib ++ test) /\ declares read name f = true).
  { intros f. unfold a, analyze_imports_exports. simpl lib_files.
    simpl test_files. rewrite analyze_files_defined.
    split; [intros [[]|H]; exact H|auto]. }
  assert (Hk : In name (keys (class_definitions a)) <->
               exists f, In f (lib ++ test) /\ declares read name f = true).
  { split.
    - intros Hin.
      destruct (existsb (declares read name) (lib ++ test)) eqn:E.
      + apply existsb_exists in E. exact E.
      + destruct (usage_before_declaration read (lib ++ test)
                    (scanned lib test) name) as (_ & Hno & _);
          [constructor|intros []|now apply existsb_false|].
        contradiction.
    - intros (f & Hin & Hd).
      assert (E : existsb (declares read name) (lib ++ test) = true)
        by (apply existsb_exists; now exists f).
      apply first_split in E as (pre & first & post & Hall & Hpre & Hfirst).
      now destruct (usage_from_first read lib test pre post first name
                      Hall Hpre Hfirst) as (_ & H & _). }
  split; [exact Hf|split; [exact Hk|]].
  intros l Hl ->.
  assert (In name (keys (class_definitions a))) as Hin.
  { apply get_In in Hl. apply in_map_iff. now exists (name, []). }
  apply Hk in Hin as (f & Hin & Hd).
  assert (In f (defined_in (class_definitions a) name)) as H
    by (apply Hf; auto).
  unfold defined_in in H. rewrite Hl in H. exact H.
Qed.

End IndexExtras.

(* ================================================================== *)
(** ** Further properties of the signature clusters *)

Section ClusterExtras.
Import Py Re DeadCode.

Lemma collapse_idem (b : bool) (s : str) :
  collapse_from b (collapse_from b s) = collapse_from b s.
Proof.
  revert b; induction s as [|c s IH]; intros b; simpl; [reflexivity|].
  destruct (isspace c) eqn:E.
  - destruct b; [apply IH|]. simpl.
    change (isspace " ") with true. cbv iota. now rewrite IH.
  - simpl. rewrite E. now rewrite IH.
Qed.

Lemma collapse_spaces (b : bool) (s : str) (c : ascii) :
  In c (collapse_from b s) -> isspace c = true -> c = " "%char.
Proof.
  revert b; induction s as [|x s IH]; intros b; simpl; [easy|].
  destruct (isspace x) eqn:E.
  - destruct b; [apply IH|]. intros [<-|H]; [reflexivity|]. eapply IH, H.
  - intros [<-|H]; [congruence|]. eapply IH, H.
Qed.

Lemma collapse_snoc (b : bool) (s : str) (c : ascii) :
  isspace c = false ->
  collapse_from b (s ++ [c]) = collapse_from b s ++ [c].
Proof.
  intros Hc. revert b; induction s as [|x s IH]; intros b; simpl.
  - now rewrite Hc.
  - destruct (isspace x); [destruct b|]; simpl; now rewrite IH.
Qed.

Lemma lstrip_clean (s : str) : starts_clean (lstrip s).
Proof.
  induction s as [|c s IH]; simpl; [exact I|].
  destruct (isspace c) eqn:E; [assumption|exact E].
Qed.

Lemma lstrip_fixed (s : str) : starts_clean s -> lstrip s = s.
Proof.
  destruct s as [|c s]; simpl; [reflexivity|]. now intros ->.
Qed.

Lemma lstrip_suffix (s : str) : exists w, s = w ++ lstrip s.
Proof.
  induction s as [|c s [w IH]]; simpl; [now exists []|].
  destruct (isspace c); [|now exists []].
  exists (c :: w); simpl; now f_equal.
Qed.

Lemma rstrip_clean (u : str) : starts_clean u -> starts_clean (rstrip u).
Proof.
  unfold rstrip. intros Hu.
  destruct (lstrip_suffix (rev u)) as [w Hw].
  assert (Hu' : u = rev (lstrip (rev u)) ++ rev w).
  { rewrite <- rev_app_distr, <- Hw. symmetry; apply rev_involutive. }
  destruct (rev (lstrip (rev u))) as [|c r]; [exact I|].
  rewrite Hu' in Hu. exact Hu.
Qed.

Lemma strip_clean (s : str) :
  starts_clean (strip s) /\ starts_clean (rev (strip s)).
Proof.
  unfold strip. split.
  - apply rstrip_clean, lstrip_clean.
  - unfold rstrip. rewrite rev_involutive. apply lstrip_clean.
Qed.

Lemma strip_fixed (s : str) :
  starts_clean s -> starts_clean (rev s) -> strip s = s.
Proof.
  intros H1 H2. unfold strip, rstrip.
  rewrite (lstrip_fixed s H1), (lstrip_fixed (rev s) H2).
  apply rev_involutive.
Qed.

Lemma collapse_clean (t : str) :
  starts_clean t -> starts_clean (rev t) ->
  starts_clean (collapse_ws t) /\ starts_clean (rev (collapse_ws t)).
Proof.
  intros H1 H2. unfold collapse_ws. split.
  - destruct t as [|c t]; simpl; [exact I|]. simpl in H1. now rewrite H1.
  - destruct (rev t) as [|c y] eqn:E.
    + assert (t = []) as ->
        by (rewrite <- (rev_involutive t), E; reflexivity).
      exact I.
    + assert (t = rev y ++ [c]) as ->
        by (rewrite <- (rev_involutive t), E; reflexivity).
      simpl in H2. rewrite (collapse_snoc _ _ _ H2), rev_app_distr.
      exact H2.
Qed.

Lemma normalize_fixed (s : str) :
  strip (normalize s) = normalize s
  /\ collapse_ws (normalize s) = normalize s.
Proof.
  unfold normalize. destruct (strip_clean s) as [H1 H2].
  destruct (collapse_clean (strip s) H1 H2) as [C1 C2].
  split; [now apply strip_fixed|apply collapse_idem].
Qed.

(** X16.  Normalizing a signature is idempotent: the normal form neither
    begins nor ends with white space, holds no white space other than the
    plain space, and is left unchanged by a second normalization. *)
Theorem normalize_is_idempotent :
  forall (s : str),
    normalize (normalize s) = normalize s
    /\ strip (normalize s) = normalize s
    /\ (forall c, In c (normalize s) -> isspace c = true -> c = " "%char).
Proof.
  intros s. destruct (normalize_fixed s) as [H1 H2].
  split; [|split; [exact H1|]].
  - unfold normalize at 1. rewrite H1. exact H2.
  - intros c. apply collapse_spaces.
Qed.

Lemma distinct_in (x : str) (l : list str) : In x (distinct l) <-> In x l.
Proof.
  induction l as [|y l IH]; simpl; [tauto|].
  rewrite set_add_in, IH. intuition.
Qed.

Lemma distinct_nodup (l : list str) : NoDup (distinct l).
Proof.
  induction l as [|y l IH]; simpl; [constructor|now apply set_add_nodup].
Qed.

Lemma distinct_length (l : list str) :
  (length (distinct l) <= length l)%nat.
Proof.
  induction l as [|y l IH]; simpl; [lia|].
  unfold set_add. destruct (existsb _ _); [lia|].
  rewrite length_app; simpl; lia.
Qed.

Lemma all_matches_in (read : str -> option str) (fs : list str)
    (sig f : str) :
  In (sig, f) (all_matches read fs) ->
  In f fs
  /\ exists content s,
       read f = Some content /\ In s (groups1 func_pattern content)
       /\ normalize s = sig.
Proof.
  unfold all_matches. intros H. apply in_flat_map in H as (g & Hg & H).
  destruct (read g) as [content|] eqn:Hr; [|contradiction].
  apply in_map_iff in H as (s0 & [= <- <-] & Hs).
  split; [assumption|]. now exists content, s0.
Qed.

Lemma duplicates_signatures (sigs : dict (list str)) :
  NoDup (keys sigs) -> NoDup (map signature (duplicates sigs)).
Proof.
  unfold duplicates, keys.
  induction sigs as [|[k fl] d IH]; simpl; [constructor|].
  intros Hn; inversion Hn as [|? ? Hk Hd]; subst.
  destruct (_ && _); simpl; [|now apply IH].
  constructor; [|now apply IH].
  intros Hin. apply Hk. apply in_map_iff in Hin as (u & Hu & Hin).
  apply in_flat_map in Hin as ([k' fl'] & Hin & Hx). simpl in Hx.
  destruct (_ && _); [|contradiction].
  destruct Hx as [<-|[]]. simpl in Hu. subst k'.
  apply in_map_iff. now exists (k, fl').
Qed.

Lemma firstn_nodup {A : Type} (n : nat) (l : list A) :
  NoDup l -> NoDup (firstn n l).
Proof.
  intros H. rewrite <- (firstn_skipn n l) in H.
  eapply NoDup_app_remove_r; eassumption.
Qed.

(** X17.  Every cluster returned by [find_duplications] has a count above
    2 and a signature of more than 30 characters in normal form; its files
    are listed once each, there is at least one and no more than the count,
    each is a file of the corpus that could be read and holds a match that
    normalizes to the signature; and no signature is returned twice. *)
Theorem clusters_are_well_formed :
  forall (read : str -> option str) (a : Analyzer),
    NoDup (map signature (find_duplications read a))
    /\ Forall
         (fun d =>
            2 < count d /\ (30 < length (signature d))%nat
            /\ normalize (signature d) = signature d
            /\ NoDup (files d)
            /\ (1 <= length (files d))%nat
            /\ Z.of_nat (length (files d)) <= count d
            /\ forall f, In f (files d) ->
                 In f (lib_files a ++ test_files a)
                 /\ exists content s,
                      read f = Some content
                      /\ In s (groups1 func_pattern content)
                      /\ normalize s = signature d)
         (find_duplications read a).
Proof.
  intros read a. unfold find_duplications.
  pose proof (sorted_desc_perm count (duplicates (signatures read a)))
    as Hp.
  split.
  - rewrite <- firstn_map. apply firstn_nodup.
    eapply Permutation_NoDup;
      [apply Permutation_map, Permutation_sym, Hp|].
    apply duplicates_signatures.
    unfold signatures. rewrite signatures_fold.
    apply record_nodup. constructor.
  - apply Forall_forall. intros d Hd. apply firstn_In in Hd.
    apply (Permutation_in _ Hp) in Hd.
    unfold duplicates in Hd. apply in_flat_map in Hd as ([sig fl] & Hin & Hx).
    simpl in Hx. destruct (_ && _) eqn:E; [|contradiction].
    destruct Hx as [<-|[]]. simpl.
    apply andb_true_iff in E as [E1 E2].
    apply signatures_get in Hin as [-> Hne].
    assert (Hocc : forall f, In f (occurrences read a sig) ->
              In f (lib_files a ++ test_files a)
              /\ exists content s,
                   read f = Some content
                   /\ In s (groups1 func_pattern content)
                   /\ normalize s = sig).
    { intros f Hf. unfold occurrences in Hf.
      apply in_map_iff in Hf as ([sig' f'] & Hs & Hf). simpl in Hs; subst f'.
      apply filter_In in Hf as [Hf Heq]. simpl in Heq.
      apply str_eqb_eq in Heq; subst sig'.
      now apply all_matches_in. }
    split; [lia|split; [lia|split; [|split; [|split; [|split]]]]].
    + destruct (occurrences read a sig) as [|f l] eqn:Eo; [contradiction|].
      destruct (Hocc f (or_introl eq_refl)) as (_ & c & s0 & _ & _ & <-).
      unfold normalize at 1. destruct (normalize_fixed s0) as [-> ->].
      reflexivity.
    + apply distinct_nodup.
    + destruct (occurrences read a sig) as [|f l] eqn:Eo; [contradiction|].
      assert (In f (distinct (f :: l))) as Hf
        by (apply distinct_in; now left).
      destruct (distinct (f :: l)); [contradiction|simpl; lia].
    + pose proof (distinct_length (occurrences read a sig)). lia.
    + intros f Hf. apply (proj1 (distinct_in _ _)) in Hf.
      exact (Hocc f Hf).
Qed.

End ClusterExtras.

(* ================================================================== *)
(** ** The compliance table *)

Section ComplianceExtras.
Import Py Compliance.

Lemma part_refl (s : str) : part_of s s.
Proof. exists [], []. now rewrite app_nil_r. Qed.

Lemma part_nil (s : str) : part_of [] s.
Proof. now exists [], s. Qed.

Lemma part_trans (a b c : str) : part_of a b -> part_of b c -> part_of a c.
Proof.
  intros (p1 & q1 & ->) (p2 & q2 & ->).
  exists (p2 ++ p1), (q1 ++ q2). now rewrite <- !app_assoc.
Qed.

Lemma part_suffix (w t : str) : part_of t (w ++ t).
Proof. exists w, []. now rewrite app_nil_r. Qed.

Lemma part_prefix (t w : str) : part_of t (t ++ w).
Proof. now exists [], w. Qed.

Lemma strip_part (s : str) : part_of (strip s) s.
Proof.
  unfold strip. apply part_trans with (lstrip s).
  - unfold rstrip. destruct (lstrip_suffix (rev (lstrip s))) as [w Hw].
    assert (H : lstrip s = rev (lstrip (rev (lstrip s))) ++ rev w).
    { rewrite <- rev_app_distr, <- Hw. symmetry; apply rev_involutive. }
    rewrite H at 2. apply part_prefix.
  - destruct (lstrip_suffix s) as [w Hw]. rewrite Hw at 2.
    apply part_suffix.
Qed.

Lemma strip_idem (s : str) : strip (strip s) = strip s.
Proof. destruct (strip_clean s) as [H1 H2]. now apply strip_fixed. Qed.

Lemma lstrip_chr_part (c : ascii) (s : str) : part_of (lstrip_chr c s) s.
Proof.
  induction s as [|x s IH]; simpl; [apply part_refl|].
  destruct (Ascii.eqb x c); [|apply part_refl].
  apply part_trans with s; [exact IH|]. apply (part_suffix [x]).
Qed.

Lemma word_app (s : str) : s = fst (word s) ++ snd (word s).
Proof.
  induction s as [|c s IH]; simpl; [reflexivity|].
  destruct (isspace c); [reflexivity|].
  destruct (word s) as [w r]; simpl in *. now f_equal.
Qed.

Lemma split_once_parts (s : str) :
  Forall (fun p => part_of p s) (split_once s).
Proof.
  unfold split_once. destruct (lstrip_suffix s) as [w0 H0].
  destruct (lstrip s) as [|c s1] eqn:E; [constructor|].
  pose proof (word_app (c :: s1)) as Hw.
  destruct (word (c :: s1)) as [w r]; simpl fst in Hw; simpl snd in Hw.
  destruct (lstrip_suffix r) as [w1 H1].
  assert (Hpw : part_of w s).
  { exists w0, r. now rewrite H0, Hw. }
  destruct (lstrip r) as [|d r'] eqn:Er.
  - constructor; [exact Hpw|constructor].
  - constructor; [exact Hpw|]. constructor; [|constructor].
    exists (w0 ++ w ++ w1), []. rewrite app_nil_r, <- !app_assoc.
    now rewrite <- H1, <- Hw.
Qed.

Lemma prefix_payload (line : str) :
  strip (_strip_markdown_prefix line) = _strip_markdown_prefix line
  /\ part_of (_strip_markdown_prefix line) line.
Proof.
  unfold _strip_markdown_prefix.
  destruct (find (startswith line) prefixes) as [prefix|].
  { split; [apply strip_idem|].
    eapply part_trans; [apply strip_part|].
    rewrite <- (firstn_skipn (length prefix) line) at 2.
    apply part_suffix. }
  destruct (startswith line (lit "#")).
  { split; [apply strip_idem|].
    eapply part_trans; [apply strip_part|apply lstrip_chr_part]. }
  pose proof (split_once_parts line) as Hp.
  destruct (split_once line) as [|p0 rest];
    [split; [reflexivity|apply part_nil]|].
  destruct (isdigit (rstrip_chr "." p0) && (length (p0 :: rest) =? 2)%nat);
    [|split; [reflexivity|apply part_nil]].
  split; [apply strip_idem|].
  eapply part_trans; [apply strip_part|].
  destruct rest as [|p1 rest]; simpl; [apply part_nil|].
  inversion Hp as [|? ? _ Hp']; subst. now inversion Hp'.
Qed.

Lemma item_step_spec (items : list str) (raw : str) :
  item_step items raw = items
  \/ exists item, item_step items raw = items ++ [item]
                  /\ item <> [] /\ strip item = item /\ part_of item raw.
Proof.
  unfold item_step. destruct (strip raw) as [|c line] eqn:E; [now left|].
  destruct (prefix_payload (c :: line)) as [H1 H2].
  destruct (_strip_markdown_prefix (c :: line)) as [|d item] eqn:Ei;
    [now left|].
  right. exists (d :: item). split; [reflexivity|].
  split; [discriminate|]. split; [exact H1|].
  eapply part_trans; [exact H2|]. rewrite <- E. apply strip_part.
Qed.

Lemma items_spec (P : str -> Prop) (lines : list str) (items : list str) :
  (forall raw item, In raw lines -> item <> [] -> strip item = item ->
                    part_of item raw -> P item) ->
  Forall P items ->
  Forall P (fold_left item_step lines items)
  /\ (length (fold_left item_step lines items)
      <= length items + length lines)%nat.
Proof.
  revert items; induction lines as [|raw lines IH]; intros items HP Hi.
  - simpl. split; [exact Hi|lia].
  - simpl fold_left.
    destruct (item_step_spec items raw)
      as [->|(item & -> & Hne & Hs & Hp)].
    + destruct (IH items) as [H1 H2]; [|exact Hi|].
      * intros r i Hr. apply HP. now right.
      * split; [exact H1|simpl; lia].
    + destruct (IH (items ++ [item])) as [H1 H2].
      * intros r i Hr. apply HP. now right.
      * apply Forall_app; split; [exact Hi|].
        constructor; [|constructor]. apply (HP raw); auto. now left.
      * split; [exact H1|]. rewrite length_app in H2. simpl in *. lia.
Qed.

Lemma splitlines_unbroken (n : nat) :
  forall (s cur : str), (length s <= n)%nat -> unbroken cur ->
    Forall unbroken (splitlines_from cur s).
Proof.
  induction n as [|n IH]; intros s cur Hn Hc.
  - destruct s; [|simpl in Hn; lia]. simpl.
    destruct cur; constructor; [|constructor].
    apply Forall_rev. exact Hc.
  - destruct s as [|c s]; simpl.
    + destruct cur; constructor; [|constructor].
      apply Forall_rev. exact Hc.
    + simpl in Hn. destruct (is_linebreak c) eqn:E.
      * constructor; [apply Forall_rev; exact Hc|].
        destruct s as [|d s']; [constructor|].
        destruct (Ascii.eqb c cr && Ascii.eqb d nl).
        -- apply IH; [simpl in Hn; lia|constructor].
        -- apply IH; [lia|constructor].
      * apply IH; [lia|]. constructor; assumption.
Qed.

Lemma part_unbroken (item raw : str) :
  part_of item raw -> unbroken raw -> unbroken item.
Proof.
  intros (pre & post & ->) H. unfold unbroken in *.
  apply Forall_app in H as [_ H]. now apply Forall_app in H as [H _].
Qed.

Lemma items_of_text (text : str) :
  Forall (fun item =>
            item <> [] /\ strip item = item /\ unbroken item
            /\ exists raw, In raw (splitlines text) /\ part_of item raw)
         (fold_left item_step (splitlines text) [])
  /\ (length (fold_left item_step (splitlines text) [])
      <= length (splitlines text))%nat.
Proof.
  pose proof (splitlines_unbroken (length text) text [] (le_n _)
                (Forall_nil _)) as Hu.
  fold (splitlines text) in Hu.
  apply (items_spec
           (fun item =>
              item <> [] /\ strip item = item /\ unbroken item
              /\ exists raw, In raw (splitlines text) /\ part_of item raw)
           (splitlines text) []).
  - intros raw item Hr Hne Hs Hp.
    split; [exact Hne|]. split; [exact Hs|]. split.
    + apply (part_unbroken item raw Hp).
      rewrite Forall_forall in Hu. now apply Hu.
    + now exists raw.
  - constructor.
Qed.

(** X20.  Every item that [extract_compliance_items] returns is not
    empty, has no whitespace at either end, is a contiguous part of one
    line of the text and holds no line break; there are no more items than
    lines, and a file that is missing or cannot be read gives none. *)
Theorem compliance_items_are_line_parts :
  forall (text : str),
    Forall (fun item =>
              item <> [] /\ strip item = item /\ unbroken item
              /\ exists raw, In raw (splitlines text) /\ part_of item raw)
           (extract_compliance_items (Some text))
    /\ (length (extract_compliance_items (Some text))
        <= length (splitlines text))%nat
    /\ extract_compliance_items None = [].
Proof.
  intros text. unfold extract_compliance_items.
  destruct (items_of_text text) as [H1 H2].
  split; [exact H1|]. split; [exact H2|reflexivity].
Qed.

Lemma bare_escape (v : str) :
  forall (b : bool) (rest : str),
    bare_from b (_escape_table_cell v ++ " "%char :: rest)
    = bare_from false rest.
Proof.
  unfold _escape_table_cell.
  induction v as [|c v IH]; intros b rest; [reflexivity|].
  simpl flat_map. destruct (Ascii.eqb c "|") eqn:E.
  - simpl. rewrite IH. reflexivity.
  - simpl. rewrite E, IH. reflexivity.
Qed.

Lemma bare_cell (v rest : str) :
  bare_from false ("|"%char :: " "%char
                   :: _escape_table_cell v ++ " "%char :: rest)
  = S (bare_from false rest).
Proof.
  cbn [bare_from]. rewrite bare_escape. reflexivity.
Qed.

Lemma count_app (c : ascii) (a b : str) :
  count c (a ++ b) = count c a + count c b.
Proof. unfold count. rewrite count_occ_app. lia. Qed.

Lemma count_escape (v : str) : count nl (_escape_table_cell v) = count nl v.
Proof.
  unfold _escape_table_cell.
  induction v as [|c v IH]; [reflexivity|].
  simpl flat_map. rewrite count_app, IH.
  change (c :: v) with ([c] ++ v). rewrite (count_app nl [c] v).
  f_equal. destruct (Ascii.eqb c "|") eqn:E; [|reflexivity].
  apply Ascii.eqb_eq in E; subst c. reflexivity.
Qed.

Lemma count_row_line (row : Row) :
  count nl (row_line row) = breaks (cells row).
Proof.
  destruct row as [[[a b] c] d]. unfold row_line, cells, breaks.
  cbn [join fold_right]. rewrite !count_app, !count_escape.
  change (count nl (lit "| ")) with 0. change (count nl (lit " | ")) with 0.
  change (count nl (lit " |")) with 0. lia.
Qed.

Lemma breaks_app (a b : list str) : breaks (a ++ b) = breaks a + breaks b.
Proof.
  unfold breaks. induction a as [|x a IH]; simpl; [reflexivity|].
  rewrite IH. lia.
Qed.

Lemma count_join (x : str) (l : list str) :
  count nl (join [nl] (x :: l)) = Z.of_nat (length l) + breaks (x :: l).
Proof.
  revert x; induction l as [|y l IH]; intros x.
  - unfold breaks. simpl. lia.
  - change (join [nl] (x :: y :: l)) with (x ++ [nl] ++ join [nl] (y :: l)).
    rewrite !count_app, IH. change (count nl [nl]) with 1.
    unfold breaks. simpl fold_right. simpl length.
    rewrite Nat2Z.inj_succ. lia.
Qed.

Lemma breaks_rows (rows : list Row) :
  breaks (map row_line rows) = breaks_in rows.
Proof.
  unfold breaks_in. induction rows as [|r rows IH]; [reflexivity|].
  simpl map. simpl flat_map. rewrite breaks_app, <- IH.
  unfold breaks at 1. simpl fold_right. rewrite count_row_line.
  reflexivity.
Qed.

Lemma count_table (rows : list Row) :
  count nl (build_table rows) = 1 + Z.of_nat (length rows) + breaks_in rows.
Proof.
  unfold build_table, table_head.
  change ([lit "| Type | Item | Source | Status |";
           lit "|------|------|--------|--------|"] ++ map row_line rows)
    with (lit "| Type | Item | Source | Status |"
          :: lit "|------|------|--------|--------|" :: map row_line rows).
  rewrite count_join. simpl length. rewrite length_map, Nat2Z.inj_succ.
  unfold breaks at 1. cbn [fold_right]. fold (breaks (map row_line rows)).
  rewrite breaks_rows.
  change (count nl (lit "| Type | Item | Source | Status |")) with 0.
  change (count nl (lit "|------|------|--------|--------|")) with 0.
  lia.
Qed.

(** X21.  In the line that [build_table] writes for a row, whatever the
    four cells hold, exactly five [|] have no backslash right before them:
    the two at the ends and the three between the cells, so that no [|] of
    a cell is left bare.  The table holds one line feed between each two
    of its lines, which are the two head lines and one line for each row,
    and one more for each line feed in a cell: escaping takes none away. *)
Theorem table_rows_keep_their_columns :
  forall (rows : list Row),
    (forall row, bare_pipes (row_line row) = 5%nat)
    /\ count nl (build_table rows)
       = 1 + Z.of_nat (length rows) + breaks_in rows.
Proof.
  intros rows. split; [|apply count_table].
  intros [[[a b] c] d]. unfold bare_pipes, row_line.
  cbn [join]. rewrite <- !app_assoc.
  change (lit "| ") with ["|"; " "]%char.
  change (lit " | ") with [" "; "|"; " "]%char.
  change (lit " |") with [" "; "|"]%char.
  cbn [app].
  rewrite (bare_cell a), (bare_cell b), (bare_cell c), (bare_cell d).
  reflexivity.
Qed.

Lemma gather_rows_from (files : list (str * option str)) (status : str)
    (rows : list Row) :
  fold_left
    (fun rows f =>
       let items := extract_compliance_items (snd f) in
       match items with
       | [] => rows
       | _ =>
           rows ++ map (compliance_row (fst f) status) (enumerate 1 items)
       end) files rows
  = rows ++ flat_map
              (fun f => map (compliance_row (fst f) status)
                            (enumerate 1 (extract_compliance_items (snd f))))
              files.
Proof.
  revert rows; induction files as [|f files IH]; intros rows; simpl.
  - now rewrite app_nil_r.
  - rewrite IH. destruct (extract_compliance_items (snd f)) as [|i items].
    + reflexivity.
    + now rewrite <- app_assoc.
Qed.

Lemma enumerate_length {A : Type} (l : list A) :
  forall k, length (enumerate k l) = length l.
Proof.
  induction l as [|x l IH]; intros k; simpl; [|rewrite IH]; reflexivity.
Qed.

Lemma enumerate_in {A : Type} (l : list A) :
  forall k i x, In (i, x) (enumerate k l) ->
    exists j, i = (k + j)%nat /\ nth_error l j = Some x.
Proof.
  induction l as [|y l IH]; intros k i x; simpl; [intros []|].
  intros [E|H].
  - injection E as <- <-. exists 0%nat. split; [lia|reflexivity].
  - apply IH in H as (j & -> & Hj). exists (S j). split; [lia|exact Hj].
Qed.

Lemma uint_unbroken (d : Decimal.uint) :
  unbroken (lit (NilEmpty.string_of_uint d)).
Proof.
  induction d; simpl; constructor; try reflexivity; assumption.
Qed.

Lemma unbroken_count (s : str) : unbroken s -> count nl s = 0.
Proof.
  unfold count. intros H. apply (f_equal Z.of_nat (y := 0%nat)).
  apply count_occ_not_In. intros Hin.
  unfold unbroken in H. rewrite Forall_forall in H.
  apply H in Hin. discriminate.
Qed.

(** X22.  The rows that [gather_compliance_rows] builds from compliance
    files whose names hold no line feed, with a status that holds none,
    give a table of one line for each row after the two head lines.  There
    is one row for each item of each file, and each row carries the type
    [compliance], an item of a file and, as its source, the name of the
    file, [#] and the place of the item in the file, counted from 1. *)
Theorem compliance_rows_stay_on_one_line :
  forall (files : list (str * option str)) (status : str),
    Forall (fun f => count nl (fst f) = 0) files ->
    count nl status = 0 ->
    let rows := gather_compliance_rows files status in
    count nl (build_table rows) = 1 + Z.of_nat (length rows)
    /\ length rows = items_in files
    /\ Forall (fun row =>
                 exists f j item,
                   In f files
                   /\ nth_error (extract_compliance_items (snd f)) j
                      = Some item
                   /\ row = (lit "compliance", item,
                             fst f ++ lit "#" ++ str_of_nat (S j), status))
              rows.
Proof.
  intros files status Hn Hs rows.
  assert (Hr : rows = flat_map
                 (fun f => map (compliance_row (fst f) status)
                     (enumerate 1 (extract_compliance_items (snd f))))
                 files).
  { unfold rows, gather_compliance_rows. now rewrite gather_rows_from. }
  assert (H3 : Forall (fun row =>
                 exists f j item,
                   In f files
                   /\ nth_error (extract_compliance_items (snd f)) j
                      = Some item
                   /\ row = (lit "compliance", item,
                             fst f ++ lit "#" ++ str_of_nat (S j), status))
              rows).
  { rewrite Hr. apply Forall_forall. intros row Hin.
    apply in_flat_map in Hin as (f & Hf & Hin).
    apply in_map_iff in Hin as ([i item] & <- & Hin).
    apply enumerate_in in Hin as (j & -> & Hj).
    exists f, j, item. split; [exact Hf|]. split; [exact Hj|reflexivity]. }
  split; [|split; [|exact H3]].
  - rewrite count_table.
    assert (breaks_in rows = 0) as ->; [|lia].
    unfold breaks_in. clear Hr. induction H3 as [|row rows' Hrow _ IH];
      [reflexivity|].
    simpl flat_map. rewrite breaks_app, IH.
    destruct Hrow as (f & j & item & Hf & Hj & ->).
    unfold cells, breaks. cbn [fold_right]. rewrite !count_app.
    rewrite Forall_forall in Hn. rewrite (Hn f Hf), Hs.
    change (count nl (lit "compliance")) with 0.
    change (count nl (lit "#")) with 0.
    rewrite (unbroken_count (str_of_nat (S j)))
      by apply uint_unbroken.
    rewrite (unbroken_count item); [lia|].
    destruct (snd f) as [text|]; [|now destruct j].
    destruct (items_of_text text) as [Hall _].
    rewrite Forall_forall in Hall.
    apply nth_error_In in Hj. now destruct (Hall item Hj) as (_ & _ & H & _).
  - rewrite Hr. unfold items_in. clear. induction files as [|f files IH];
      [reflexivity|].
    simpl. rewrite length_app, length_map, enumerate_length, IH.
    reflexivity.
Qed.

Lemma compliance_rows_stay_on_one_line_witness :
  count nl
    (build_table
       (gather_compliance_rows
          [(lit "claude.md",
            Some (lit "# Rules" ++ [nl] ++ lit "- keep | short" ++ [cr; nl]
                  ++ lit "plain words"));
           (lit "agents.md", None)] []))
  = 3.
Proof.
  destruct (compliance_rows_stay_on_one_line
              [(lit "claude.md",
                Some (lit "# Rules" ++ [nl] ++ lit "- keep | short"
                      ++ [cr; nl] ++ lit "plain words"));
               (lit "agents.md", None)] [])
    as (H & _).
  - repeat constructor.
  - reflexivity.
  - rewrite H. reflexivity.
Defined.

End ComplianceExtras.
